(** * tallyWAN: the LoRa transceiver driver of [tallyWAN_send.py]

    A shallow embedding of class [LoRa] (lines 53-239 of the source) and the
    properties the specification states about it.

    - Python integers are [Z]; the bit operators [&], [|], [<<], [>>] are
      [Z.land], [Z.lor], [Z.shiftl], [Z.shiftr].
    - Python floats are those of MicroPython on the ESP32, the platform of
      the script ([import esp32], [machine]): IEEE 754 binary32.  They are
      values of [spec_float] with the operations of [SpecFloat] at precision
      24 and maximal exponent 128, so products and quotients round to
      nearest, ties to even, and overflow to an infinity.  A float literal
      stands for the binary32 value nearest to its decimal.  The one product
      whose result the driver returns, [value * 0.25] in [get_snr] for a
      register byte, is exact in binary32 and is given as a rational.
    - [bytes]/[bytearray] values are [list byte]; the one-byte buffers that
      cross the SPI bus are [byte].
    - The driver object is a record; its methods run in a state-and-exception
      monad over that record, so that a raised exception keeps the side
      effects that happened before it, as in Python.
    - The hardware behind [self.spi] and [self.cs] is an interface
      ([SpiDevice]); [Sim] is a simulated transceiver implementing it. *)

From Stdlib Require Import ZArith QArith Qround Lia Lqa List String Bool DecimalString.
From Stdlib Require Import SpecFloat.
From Stdlib.Strings Require Import Byte.
From stdpp Require Import gmap.
Import ListNotations.

Open Scope Z_scope.

(** ** Floats *)

Module Float.

(** The binary32 format: 24 bits of precision, exponents below 128. *)
Definition prec : Z := 24.
Definition emax : Z := 128.

Definition float : Type := spec_float.

(** [x * y] and [x / y] *)
Definition mul (x y : float) : float := SFmul prec emax x y.
Definition div (x y : float) : float := SFdiv prec emax x y.

(** [x >= y]: false when either side is a NaN. *)
Definition ge (x y : float) : bool := SFleb y x.

(** The float is a value of the format: its mantissa has no more bits than
    the format allows at its exponent. *)
Definition valid (x : float) : bool := valid_binary prec emax x.

(** The rational [m * 2^e]. *)
Definition scale (m : positive) (e : Z) : Q :=
  match e with
  | Z0 => Qmake (Zpos m) 1
  | Zpos p => Qmake (Zpos m * 2 ^ Zpos p) 1
  | Zneg p => Qmake (Zpos m) (2 ^ p)
  end.

(** The number a float stands for; none for the infinities and NaN. *)
Definition real (x : float) : option Q :=
  match x with
  | S754_zero _ => Some 0%Q
  | S754_finite s m e => Some (if s then Qopp (scale m e) else scale m e)
  | S754_infinity _ => None
  | S754_nan => None
  end.

(** The float for a rational: the quotient of the numerator by the
    denominator, rounded as the format rounds a quotient. *)
Definition of_Q (q : Q) : float :=
  match Qnum q with
  | Z0 => S754_zero false
  | Zpos n => div (S754_finite false n 0) (S754_finite false (Qden q) 0)
  | Zneg n => div (S754_finite true n 0) (S754_finite false (Qden q) 0)
  end.

(** A decimal literal [i.f] or [i.fEe]. *)
Definition of_decimal (d : Decimal.decimal) : float :=
  let '(i, f, e) :=
    match d with
    | Decimal.Decimal i f => (i, f, Decimal.Pos Decimal.Nil)
    | Decimal.DecimalExp i f e => (i, f, e)
    end in
  let num := Z.of_int (Decimal.app_int i f) in
  let den := Nat.iter (Decimal.nb_digits f) (Pos.mul 10) 1%positive in
  of_Q match Z.of_int e with
       | Z0 => Qmake num den
       | Zpos e => Qmake (num * Z.pow_pos 10 e) den
       | Zneg e => Qmake num (den * Pos.pow 10 e)
       end.

Definition of_number (n : Number.number) : option float :=
  match n with
  | Number.Decimal d => Some (of_decimal d)
  | Number.Hexadecimal _ => None
  end.

Definition to_number (x : float) : option Number.number := None.

End Float.

Local Abbreviation float := Float.float.

Declare Scope pyfloat_scope.
Delimit Scope pyfloat_scope with F.
Bind Scope pyfloat_scope with Float.float spec_float.
Number Notation spec_float Float.of_number Float.to_number : pyfloat_scope.

(** ** Python values and exceptions *)

Module Py.

Inductive exn : Type :=
| ValueError (msg : string)
| OverflowError (msg : string)
| AttributeError (attr : string)
| IndexError (msg : string)
| Exception (msg : string).

Inductive outcome (A : Type) : Type :=
| Ok (a : A)
| Raise (e : exn).
Arguments Ok {A} a.
Arguments Raise {A} e.

(** [bytes([x])]: a one-byte buffer, [ValueError] unless [0 <= x < 256]. *)
Definition bytes1 (x : Z) : option byte :=
  if x <? 0 then None else Byte.of_N (Z.to_N x).

(** [int.from_bytes(b, 'big')] on a one-byte buffer: an unsigned value. *)
Definition int_from_bytes (b : byte) : Z := Z.of_N (Byte.to_N b).

(** [str(n)] on an integer. *)
Definition str (n : Z) : string := NilZero.string_of_int (Z.to_int n).

(** The integer nearest to a rational, ties to the even one. *)
Definition round_half_even (x : Q) : Z :=
  let f := Qfloor x in
  match Qcompare (x - inject_Z f) (1 # 2) with
  | Lt => f
  | Gt => f + 1
  | Eq => if Z.even f then f else f + 1
  end.

(** [round(x)] on a float: the nearest integer, ties to the even one; an
    infinity cannot be converted and raises [OverflowError], a NaN raises
    [ValueError]. *)
Definition round (x : float) : outcome Z :=
  match x with
  | S754_nan => Raise (ValueError "can't convert NaN to int")
  | S754_infinity _ => Raise (OverflowError "can't convert inf to int")
  | S754_zero _ => Ok 0
  | S754_finite s m e =>
      Ok (round_half_even
            (if s then Qopp (Float.scale m e) else Float.scale m e))
  end.

(** [min(max(x, lo), hi)] *)
Definition clamp (x lo hi : Z) : Z := Z.min (Z.max x lo) hi.

(** A callable held in a variable, or [None]. *)
Inductive callable : Type :=
| PyNone
| PyFun (id : nat).

(** Truth value of such an object in a condition. *)
Definition truthy (c : callable) : bool :=
  match c with PyNone => false | PyFun _ => true end.

End Py.
Import Py.

(** ** State and exception monad *)

Definition M (S A : Type) : Type := S -> outcome A * S.

Definition ret {S A} (a : A) : M S A := fun s => (Ok a, s).

Definition raise {S A} (e : exn) : M S A := fun s => (Raise e, s).

Definition bind {S A B} (m : M S A) (k : A -> M S B) : M S B :=
  fun s =>
    match m s with
    | (Ok a, s') => k a s'
    | (Raise e, s') => (Raise e, s')
    end.

Definition gets {S A} (f : S -> A) : M S A := fun s => (Ok (f s), s).

Definition modify {S} (f : S -> S) : M S unit := fun s => (Ok tt, f s).

(** A computation that touches no state: its result, or its exception. *)
Definition lift {S A} (o : outcome A) : M S A := fun s => (o, s).

Declare Scope py_scope.
Delimit Scope py_scope with py.
Notation "x <- m ;; k" := (bind m (fun x => k))
  (at level 100, m at next level, right associativity) : py_scope.
Notation "m ;; k" := (bind m (fun _ => k))
  (at level 100, right associativity) : py_scope.
Open Scope py_scope.

(** [for x in xs: body(x)] *)
Fixpoint for_each {S X} (xs : list X) (body : X -> M S unit) : M S unit :=
  match xs with
  | [] => ret tt
  | x :: rest => body x ;; for_each rest body
  end.

(** [range(n)] *)
Definition range (n : Z) : list Z := map Z.of_nat (seq 0 (Z.to_nat n)).

(** ** Module constants (lines 8-51) *)

Definition TX_BASE_ADDR : Z := 0x00.
Definition RX_BASE_ADDR : Z := 0x00.

Definition PA_BOOST : Z := 0x80.
Definition PA_OUTPUT_RFO_PIN : Z := 0.
Definition PA_OUTPUT_PA_BOOST_PIN : Z := 1.

Definition REG_FIFO : Z := 0x00.
Definition REG_OP_MODE : Z := 0x01.
Definition REG_FRF_MSB : Z := 0x06.
Definition REG_FRF_MID : Z := 0x07.
Definition REG_FRF_LSB : Z := 0x08.
Definition REG_PA_CONFIG : Z := 0x09.
Definition REG_LNA : Z := 0x0c.
Definition REG_FIFO_ADDR_PTR : Z := 0x0d.
Definition REG_FIFO_TX_BASE_ADDR : Z := 0x0e.
Definition REG_FIFO_RX_BASE_ADDR : Z := 0x0f.
Definition REG_FIFO_RX_CURRENT_ADDR : Z := 0x10.
Definition REG_IRQ_FLAGS : Z := 0x12.
Definition REG_RX_NB_BYTES : Z := 0x13.
Definition REG_PKT_RSSI_VALUE : Z := 0x1a.
Definition REG_PKT_SNR_VALUE : Z := 0x1b.
Definition REG_MODEM_CONFIG_1 : Z := 0x1d.
Definition REG_MODEM_CONFIG_2 : Z := 0x1e.
Definition REG_PREAMBLE_MSB : Z := 0x20.
Definition REG_PREAMBLE_LSB : Z := 0x21.
Definition REG_PAYLOAD_LENGTH : Z := 0x22.
Definition REG_MODEM_CONFIG_3 : Z := 0x26.
Definition REG_DETECTION_OPTIMIZE : Z := 0x31.
Definition REG_DETECTION_THRESHOLD : Z := 0x37.
Definition REG_SYNC_WORD : Z := 0x39.
Definition REG_DIO_MAPPING_1 : Z := 0x40.
Definition REG_VERSION : Z := 0x42.

Definition MODE_LORA : Z := 0x80.
Definition MODE_SLEEP : Z := 0x00.
Definition MODE_STDBY : Z := 0x01.
Definition MODE_TX : Z := 0x03.
Definition MODE_RX_CONTINUOUS : Z := 0x05.

Definition IRQ_TX_DONE_MASK : Z := 0x08.
Definition IRQ_PAYLOAD_CRC_ERROR_MASK : Z := 0x20.

Definition MAX_PKT_LENGTH : Z := 255.

(** ** The hardware interface

    [self.cs] is a pin object with [value(v)]; [self.spi] is a bus object
    with [write(buf)] and [write_readinto(buf, resp)].  The driver only ever
    passes one-byte buffers.  [B] is the state of whatever sits behind the
    two objects. *)

Class SpiDevice (B : Type) : Type := {
  cs_value : Z -> B -> B;
  spi_write : byte -> B -> B;
  spi_write_readinto : byte -> B -> B * byte
}.

(** The interrupt configuration of the pin object [self.rx], as set by
    [Pin.irq(handler=..., trigger=...)].  The only handler the driver ever
    installs is its own bound method [_irq_recv]. *)

Inductive handler : Type := Handler_irq_recv.

Inductive trigger : Type :=
| Pin_IRQ_RISING
| Trigger_int (n : Z).

Record Pin : Type := mkPin {
  irq_handler : option handler;
  irq_trigger : option trigger
}.

(** [kw] of [__init__]: every key but [cs] and [rx] is optional.  The
    frequency is a float, as in the script ([868.0], line 289) and in the
    default ([915.0]). *)
Record Kw : Type := mkKw {
  kw_rx : option Pin;
  kw_frequency : option float;
  kw_bandwidth : option Z;
  kw_spreading_factor : option Z;
  kw_coding_rate : option Z;
  kw_preamble_length : option Z;
  kw_crc : option bool;
  kw_tx_power : option Z;
  kw_implicit : option bool;
  kw_sync_word : option Z;
  kw_on_recv : option callable
}.

(** [kw.get(key, dflt)] *)
Definition kw_get {A} (v : option A) (dflt : A) : A :=
  match v with Some a => a | None => dflt end.

(** ** The driver object (class [LoRa], lines 53-239)

    [hw] stands for the pair [self.spi], [self.cs].  An attribute that has
    not been assigned yet is [None]; reading it raises [AttributeError].
    [delivered] is not an attribute: it records, oldest first, every call
    the driver makes to the subscribed callback and the argument passed. *)

Record LoRa (B : Type) : Type := mkLoRa {
  hw : B;
  rx : option Pin;
  _frequency : option float;
  _bandwidth : option Z;
  _implicit : option bool;
  _on_recv : option callable;
  delivered : list (nat * list byte)
}.
Arguments mkLoRa {B}.
Arguments hw {B}.
Arguments rx {B}.
Arguments _frequency {B}.
Arguments _bandwidth {B}.
Arguments _implicit {B}.
Arguments _on_recv {B}.
Arguments delivered {B}.

Definition with_hw {B} (f : B -> B) (s : LoRa B) : LoRa B :=
  mkLoRa (f (hw s)) (rx s) (_frequency s) (_bandwidth s) (_implicit s)
         (_on_recv s) (delivered s).

Definition with_rx {B} (p : option Pin) (s : LoRa B) : LoRa B :=
  mkLoRa (hw s) p (_frequency s) (_bandwidth s) (_implicit s)
         (_on_recv s) (delivered s).

Definition with_frequency {B} (f : float) (s : LoRa B) : LoRa B :=
  mkLoRa (hw s) (rx s) (Some f) (_bandwidth s) (_implicit s)
         (_on_recv s) (delivered s).

Definition with_bandwidth {B} (bw : Z) (s : LoRa B) : LoRa B :=
  mkLoRa (hw s) (rx s) (_frequency s) (Some bw) (_implicit s)
         (_on_recv s) (delivered s).

Definition with_implicit {B} (i : bool) (s : LoRa B) : LoRa B :=
  mkLoRa (hw s) (rx s) (_frequency s) (_bandwidth s) (Some i)
         (_on_recv s) (delivered s).

Definition with_on_recv {B} (c : callable) (s : LoRa B) : LoRa B :=
  mkLoRa (hw s) (rx s) (_frequency s) (_bandwidth s) (_implicit s)
         (Some c) (delivered s).

Definition with_delivered {B} (d : list (nat * list byte)) (s : LoRa B)
  : LoRa B :=
  mkLoRa (hw s) (rx s) (_frequency s) (_bandwidth s) (_implicit s)
         (_on_recv s) d.

(** The table of [set_bandwidth] (line 156). *)
Definition bws : list Z :=
  [7800; 10400; 15600; 20800; 31250; 41700; 62500; 125000; 250000].

(** The loop of lines 158-161: [j] is the index of the head of [tbl]; the
    result is the value of [i] after the loop. *)
Fixpoint bw_index (tbl : list Z) (j : Z) (bw : Z) (i : Z) : Z :=
  match tbl with
  | [] => i
  | v :: rest => if bw <=? v then j else bw_index rest (j + 1) bw i
  end.

Section Driver.

Context {B : Type} `{SpiDevice B}.

Local Abbreviation Drv := (M (LoRa B)).

(** [self.<name>] for an attribute that may be missing. *)
Definition attr {A} (name : string) (f : LoRa B -> option A) : Drv A :=
  fun s =>
    match f s with
    | Some a => (Ok a, s)
    | None => (Raise (AttributeError name), s)
    end.

(** [bytes([x])] *)
Definition bytes_of (x : Z) : Drv byte :=
  match bytes1 x with
  | Some b => ret b
  | None => raise (ValueError "bytes value out of range")
  end.

(** [self.spi.write_readinto(buf, resp)]: the byte left in [resp]. *)
Definition write_readinto (d : byte) : Drv byte :=
  fun s =>
    let (b', r) := spi_write_readinto d (hw s) in
    (Ok r, with_hw (fun _ => b') s).

(** Lines 226-232. *)
Definition _transfer (addr : Z) (x : Z) : Drv byte :=
  modify (with_hw (cs_value 0)) ;;
  a <- bytes_of addr ;;
  modify (with_hw (spi_write a)) ;;
  d <- bytes_of x ;;
  resp <- write_readinto d ;;
  modify (with_hw (cs_value 1)) ;;
  ret resp.

(** Lines 234-236. *)
Definition _read (addr : Z) : Drv Z :=
  x <- _transfer (Z.land addr 0x7f) 0x00 ;;
  ret (int_from_bytes x).

(** Lines 238-239. *)
Definition _write (addr : Z) (x : Z) : Drv unit :=
  _transfer (Z.lor addr 0x80) x ;;
  ret tt.

(** Lines 124-125. *)
Definition standby : Drv unit :=
  _write REG_OP_MODE (Z.lor MODE_LORA MODE_STDBY).

(** Lines 127-128. *)
Definition sleep : Drv unit :=
  _write REG_OP_MODE (Z.lor MODE_LORA MODE_SLEEP).

(** Lines 205-206. *)
Definition recv : Drv unit :=
  _write REG_OP_MODE (Z.lor MODE_LORA MODE_RX_CONTINUOUS).

(** Lines 81-84. *)
Definition begin_packet : Drv unit :=
  standby ;;
  _write REG_FIFO_ADDR_PTR TX_BASE_ADDR ;;
  _write REG_PAYLOAD_LENGTH 0.

(** [b[i]] on a [bytes] object. *)
Definition index (b : list byte) (i : Z) : Drv Z :=
  match nth_error b (Z.to_nat i) with
  | Some x => ret (int_from_bytes x)
  | None => raise (IndexError "bytes index out of range")
  end.

(** Lines 93-101. *)
Definition write_packet (b : list byte) : Drv unit :=
  n <- _read REG_PAYLOAD_LENGTH ;;
  let m := Z.of_nat (length b) in
  let p := MAX_PKT_LENGTH - TX_BASE_ADDR in
  if n + m >? p then
    raise (ValueError ("Max payload length is " ++ str p))
  else
    for_each (range m) (fun i => x <- index b i ;; _write REG_FIFO x) ;;
    _write REG_PAYLOAD_LENGTH (n + m).

(** Lines 110-113. *)
Definition _get_irq_flags : Drv Z :=
  f <- _read REG_IRQ_FLAGS ;;
  _write REG_IRQ_FLAGS f ;;
  ret f.

(** Lines 115-119. *)
Definition get_rssi : Drv Z :=
  rssi <- _read REG_PKT_RSSI_VALUE ;;
  f <- attr "_frequency" _frequency ;;
  if Float.ge f 779.0 then ret (rssi - 157) else ret (rssi - 164).

(** Lines 121-122. *)
Definition get_snr : Drv Q :=
  v <- _read REG_PKT_SNR_VALUE ;;
  ret (inject_Z v * 0.25)%Q.

(** Lines 130-136. *)
Definition set_tx_power (level : Z) (outputPin : Z) : Drv unit :=
  if outputPin =? PA_OUTPUT_RFO_PIN then
    let level := clamp level 0 14 in
    _write REG_PA_CONFIG (Z.lor 0x70 level)
  else
    let level := clamp level 2 17 in
    _write REG_PA_CONFIG (Z.lor PA_BOOST (level - 2)).

(** Lines 140-141: the value [x], or the exception of [round]. *)
Definition frf_steps (frequency : float) : outcome Z :=
  let hz := Float.mul frequency 1000000.0 in
  round (Float.div hz 61.03515625).

(** Lines 138-144. *)
Definition set_frequency (frequency : float) : Drv unit :=
  modify (with_frequency frequency) ;;
  x <- lift (frf_steps frequency) ;;
  _write REG_FRF_MSB (Z.land (Z.shiftr x 16) 0xff) ;;
  _write REG_FRF_MID (Z.land (Z.shiftr x 8) 0xff) ;;
  _write REG_FRF_LSB (Z.land x 0xff).

(** Lines 146-152. *)
Definition set_spreading_factor (sf : Z) : Drv unit :=
  if (sf <? 6) || (sf >? 12) then
    raise (ValueError "Spreading factor must be between 6-12")
  else
    _write REG_DETECTION_OPTIMIZE (if sf =? 6 then 0xc5 else 0xc3) ;;
    _write REG_DETECTION_THRESHOLD (if sf =? 6 then 0x0c else 0x0a) ;;
    reg2 <- _read REG_MODEM_CONFIG_2 ;;
    _write REG_MODEM_CONFIG_2
           (Z.lor (Z.land reg2 0x0f) (Z.land (Z.shiftl sf 4) 0xf0)).

(** Lines 154-163. *)
Definition set_bandwidth (bw : Z) : Drv unit :=
  modify (with_bandwidth bw) ;;
  let i := bw_index bws 0 bw 9 in
  r <- _read REG_MODEM_CONFIG_1 ;;
  let x := Z.land r 0x0f in
  _write REG_MODEM_CONFIG_1 (Z.lor x (Z.shiftl i 4)).

(** Lines 165-169. *)
Definition set_coding_rate (denom : Z) : Drv unit :=
  let denom := clamp denom 5 8 in
  let cr := denom - 4 in
  reg1 <- _read REG_MODEM_CONFIG_1 ;;
  _write REG_MODEM_CONFIG_1 (Z.lor (Z.land reg1 0xf1) (Z.shiftl cr 1)).

(** Lines 171-173. *)
Definition set_preamble_length (n : Z) : Drv unit :=
  _write REG_PREAMBLE_MSB (Z.land (Z.shiftr n 8) 0xff) ;;
  _write REG_PREAMBLE_LSB (Z.land (Z.shiftr n 0) 0xff).

(** Lines 175-181. *)
Definition set_crc (crc : bool) : Drv unit :=
  modem_config_2 <- _read REG_MODEM_CONFIG_2 ;;
  let config :=
    if crc then Z.lor modem_config_2 0x04 else Z.land modem_config_2 0xfb in
  _write REG_MODEM_CONFIG_2 config.

(** Lines 183-184. *)
Definition set_sync_word (sw : Z) : Drv unit :=
  _write REG_SYNC_WORD sw.

(** Lines 186-194. *)
Definition set_implicit (implicit : bool) : Drv unit :=
  cur <- attr "_implicit" _implicit ;;
  if negb (Bool.eqb cur implicit) then
    modify (with_implicit implicit) ;;
    modem_config_1 <- _read REG_MODEM_CONFIG_1 ;;
    let config :=
      if implicit then Z.lor modem_config_1 0x01
      else Z.land modem_config_1 0xfe in
    _write REG_MODEM_CONFIG_1 config
  else ret tt.

(** Lines 196-203.  A pin object is true in a condition, [None] is not. *)
Definition on_recv (callback : callable) : Drv unit :=
  modify (with_on_recv callback) ;;
  pin <- gets rx ;;
  match pin with
  | Some _ =>
      if truthy callback then
        _write REG_DIO_MAPPING_1 0x00 ;;
        modify (with_rx (Some (mkPin (Some Handler_irq_recv)
                                     (Some Pin_IRQ_RISING))))
      else
        modify (with_rx (Some (mkPin None (Some (Trigger_int 0)))))
  | None => ret tt
  end.

(** [for i in range(n): acc = body(i, acc)] *)
Fixpoint for_fold {X A} (xs : list X) (body : X -> A -> Drv A) (acc : A)
  : Drv A :=
  match xs with
  | [] => ret acc
  | x :: rest => acc' <- body x acc ;; for_fold rest body acc'
  end.

(** [payload.append(v)] on a [bytearray]. *)
Definition append (payload : list byte) (v : Z) : Drv (list byte) :=
  b <- bytes_of v ;;
  ret (payload ++ [b]).

(** Lines 214-224 ([gc.collect()] has no effect on the model). *)
Definition _read_payload : Drv (list byte) :=
  a <- _read REG_FIFO_RX_CURRENT_ADDR ;;
  _write REG_FIFO_ADDR_PTR a ;;
  implicit <- attr "_implicit" _implicit ;;
  n <- (if implicit : bool then _read REG_PAYLOAD_LENGTH
        else _read REG_RX_NB_BYTES) ;;
  for_fold (range n)
           (fun _ payload => v <- _read REG_FIFO ;; append payload v) [].

(** [callback(arg)]: the call is recorded in [delivered]. *)
Definition call (callback : callable) (arg : list byte) : Drv unit :=
  match callback with
  | PyFun id => modify (fun s => with_delivered (delivered s ++ [(id, arg)]) s)
  | PyNone => raise (Exception "'NoneType' object is not callable")
  end.

(** Lines 208-212. *)
Definition _irq_recv : Drv unit :=
  f <- _get_irq_flags ;;
  if Z.land f IRQ_PAYLOAD_CRC_ERROR_MASK =? 0 then
    cb <- attr "_on_recv" _on_recv ;;
    if truthy cb then
      payload <- _read_payload ;;
      call cb payload
    else ret tt
  else ret tt.

(** A rising edge on the line of [self.rx]: the attached handler runs. *)
Definition rising_edge : Drv unit :=
  pin <- gets rx ;;
  match pin with
  | Some (mkPin (Some Handler_irq_recv) (Some Pin_IRQ_RISING)) => _irq_recv
  | _ => ret tt
  end.

(** What a complete pass through [_transfer] does to the device: select,
    address byte, data byte, release. *)
Definition frame (a d : byte) (b : B) : B * byte :=
  let (b', r) := spi_write_readinto d (spi_write a (cs_value 0 b)) in
  (cs_value 1 b', r).

(** The object at the start of [__init__], after lines 56-58. *)
Definition new_object (dev : B) (kw : Kw) : LoRa B :=
  mkLoRa dev (kw_rx kw) None None None None [].

(** Line 73: [self._implicit = kw.get('implicit', False)]; line 74. *)
Definition init_implicit (kw : Kw) : Drv unit :=
  modify (with_implicit (kw_get (kw_implicit kw) false)) ;;
  implicit <- attr "_implicit" _implicit ;;
  set_implicit implicit.

(** Lines 59-79, run on the object of lines 56-58. *)
Definition init_body (kw : Kw) : Drv unit :=
  v <- _read REG_VERSION ;;
  if negb (v =? 0x12) then
    raise (Exception "Invalid version or bad SPI connection")
  else
    sleep ;;
    set_frequency (kw_get (kw_frequency kw) 915.0%F) ;;
    set_bandwidth (kw_get (kw_bandwidth kw) 250000) ;;
    set_spreading_factor (kw_get (kw_spreading_factor kw) 10) ;;
    set_coding_rate (kw_get (kw_coding_rate kw) 5) ;;
    set_preamble_length (kw_get (kw_preamble_length kw) 4) ;;
    set_crc (kw_get (kw_crc kw) false) ;;
    lna <- _read REG_LNA ;;
    _write REG_LNA (Z.lor lna 0x03) ;;
    _write REG_MODEM_CONFIG_3 0x04 ;;
    set_tx_power (kw_get (kw_tx_power kw) 24) PA_OUTPUT_PA_BOOST_PIN ;;
    init_implicit kw ;;
    set_sync_word (kw_get (kw_sync_word kw) 0x12) ;;
    modify (with_on_recv (kw_get (kw_on_recv kw) PyNone)) ;;
    _write REG_FIFO_TX_BASE_ADDR TX_BASE_ADDR ;;
    _write REG_FIFO_RX_BASE_ADDR RX_BASE_ADDR ;;
    standby.

(** Lines 55-79. *)
Definition __init__ (dev : B) (kw : Kw) : outcome unit * LoRa B :=
  init_body kw (new_object dev kw).

End Driver.

(** ** Blocking transmit (lines 86-91 and 103-108)

    [end_packet] polls in a [while] loop that has no bound, so it is run
    with fuel: [None] means the fuel ran out before the loop ended. *)

Definition MF (S A : Type) : Type := S -> option (outcome A * S).

Definition liftF {S A} (m : M S A) : MF S A := fun s => Some (m s).

Definition bindF {S A B} (m : MF S A) (k : A -> MF S B) : MF S B :=
  fun s =>
    match m s with
    | None => None
    | Some (Ok a, s') => k a s'
    | Some (Raise e, s') => Some (Raise e, s')
    end.

(** [while cond: body] *)
Fixpoint while_loop {S} (fuel : nat) (cond : M S bool) (body : M S unit)
  : MF S unit :=
  match fuel with
  | O => fun _ => None
  | Datatypes.S fuel' =>
      bindF (liftF cond)
            (fun b => if b : bool
                      then bindF (liftF body)
                                 (fun _ => while_loop fuel' cond body)
                      else liftF (ret tt))
  end.

(** The argument of [send]: a [str] (held as its UTF-8 bytes, as MicroPython
    does) or a [bytes] object. *)
Inductive pyobj : Type :=
| PyStr (s : string)
| PyBytes (b : list byte).

(** [x.encode()] when [isinstance(x, str)], else [x] (lines 104-105). *)
Definition encode_if_str (x : pyobj) : list byte :=
  match x with
  | PyStr s => list_byte_of_string s
  | PyBytes b => b
  end.

Section Transmitter.

Context {B : Type} `{SpiDevice B}.

(** Lines 86-91 ([gc.collect()] has no effect on the model). *)
Definition end_packet (fuel : nat) : MF (LoRa B) unit :=
  bindF (liftF (_write REG_OP_MODE (Z.lor MODE_LORA MODE_TX)))
        (fun _ =>
           bindF (while_loop fuel
                    (f <- _read REG_IRQ_FLAGS ;;
                     ret (Z.land f IRQ_TX_DONE_MASK =? 0))
                    (ret tt))
                 (fun _ => liftF (_write REG_IRQ_FLAGS IRQ_TX_DONE_MASK))).

(** Lines 103-108. *)
Definition send (x : pyobj) (fuel : nat) : MF (LoRa B) unit :=
  let x := encode_if_str x in
  bindF (liftF begin_packet)
        (fun _ => bindF (liftF (write_packet x))
                        (fun _ => end_packet fuel)).

End Transmitter.

(** ** A simulated transceiver

    The register file the driver talks to, as the specification describes it
    (sections 4.1, 4.5 and 6): a frame is an address byte whose top bit
    selects write or read, followed by one data byte; register [0x00] is the
    window onto a 256-byte packet buffer addressed through the pointer
    register [0x0d], which advances on every access; writing the IRQ-flags
    register clears the flags written as one; every other register stores
    the byte written to it.  [writes] logs, oldest first, the register
    writes the chip has received. *)

Module Sim.

#[global] Instance byte_inhabited : Inhabited byte := populate x00.

Record chip : Type := mkChip {
  cs : Z;
  latch : option byte;
  regs : gmap Z byte;
  fifo : gmap Z byte;
  writes : list (Z * byte)
}.

(** The byte whose unsigned value is [z mod 256]. *)
Definition byte_of_Z (z : Z) : byte :=
  match Byte.of_N (Z.to_N (z mod 256)) with
  | Some b => b
  | None => x00
  end.

Definition reg (r : Z) (c : chip) : Z := int_from_bytes (regs c !!! r).

Definition buf (a : Z) (c : chip) : byte := fifo c !!! a.

Definition set_reg (r : Z) (d : byte) (c : chip) : chip :=
  mkChip (cs c) (latch c) (<[r := d]> (regs c)) (fifo c) (writes c).

Definition read_reg (r : Z) (c : chip) : chip * byte :=
  if r =? REG_FIFO then
    let p := reg REG_FIFO_ADDR_PTR c in
    (set_reg REG_FIFO_ADDR_PTR (byte_of_Z (p + 1)) c, buf p c)
  else (c, regs c !!! r).

Definition write_reg (r : Z) (d : byte) (c : chip) : chip :=
  let c' := mkChip (cs c) (latch c) (regs c) (fifo c) (writes c ++ [(r, d)]) in
  if r =? REG_FIFO then
    let p := reg REG_FIFO_ADDR_PTR c' in
    set_reg REG_FIFO_ADDR_PTR (byte_of_Z (p + 1))
      (mkChip (cs c') (latch c') (regs c') (<[p := d]> (fifo c')) (writes c'))
  else if r =? REG_IRQ_FLAGS then
    set_reg r (byte_of_Z (Z.land (reg r c') (Z.lnot (int_from_bytes d)))) c'
  else set_reg r d c'.

(** One frame: address byte [a], data byte [d]. *)
Definition access (a d : byte) (c : chip) : chip * byte :=
  let r := Z.land (int_from_bytes a) 0x7f in
  if Z.testbit (int_from_bytes a) 7 then (write_reg r d c, x00)
  else read_reg r c.

Definition select (v : Z) (c : chip) : chip :=
  mkChip v None (regs c) (fifo c) (writes c).

Definition address (a : byte) (c : chip) : chip :=
  if cs c =? 0 then mkChip (cs c) (Some a) (regs c) (fifo c) (writes c)
  else c.

Definition exchange (d : byte) (c : chip) : chip * byte :=
  match latch c with
  | Some a =>
      if cs c =? 0 then
        let (c', r) := access a d c in
        (mkChip (cs c') None (regs c') (fifo c') (writes c'), r)
      else (c, x00)
  | None => (c, x00)
  end.

#[global] Instance chip_device : SpiDevice chip := {
  cs_value := select;
  spi_write := address;
  spi_write_readinto := exchange
}.

(** A chip at rest: chip-select released, no frame in progress. *)
Definition power_on (rs : list (Z * byte)) (mem : list (Z * byte)) : chip :=
  mkChip 1 None (list_to_map rs) (list_to_map mem) [].

(** The [n] buffer bytes from address [a] on, wrapping at 256. *)
Definition window (a : Z) (n : Z) (c : chip) : list byte :=
  map (fun i => buf ((a + i) mod 256) c) (range n).

(** The chip as a frame leaves it: chip-select released, nothing latched. *)
Definition rest (c : chip) : chip :=
  mkChip 1 None (regs c) (fifo c) (writes c).

Definition at_rest (c : chip) : Prop := cs c = 1 /\ latch c = None.

(** The chip after the write frames [ws], oldest first, when none of them
    addresses the buffer window or the IRQ flags: each stores its byte. *)
Definition written (ws : list (Z * byte)) (c : chip) : chip :=
  mkChip 1 None
         (fold_left (fun m w => <[fst w := snd w]> m) ws (regs c))
         (fifo c) (writes c ++ ws).

(** The chip after the write frames that push the bytes [xs], in order,
    through the buffer window. *)
Fixpoint push (xs : list byte) (c : chip) : chip :=
  match xs with
  | [] => c
  | x :: r => push r (rest (write_reg REG_FIFO x c))
  end.

(** The chip after [k] read frames on the buffer window. *)
Fixpoint pull (k : nat) (c : chip) : chip :=
  match k with
  | O => c
  | S k' => pull k' (rest (fst (read_reg REG_FIFO c)))
  end.

(** The register writes the chip received after the state [before]. *)
Definition writes_since (before after : chip) : list (Z * byte) :=
  skipn (length (writes before)) (writes after).

(** The register writes logged for register [r]. *)
Definition writes_to (r : Z) (c : chip) : list byte :=
  map snd (List.filter (fun w => fst w =? r) (writes c)).

End Sim.

(** ** Notions of the specification *)

(** A raw register byte read as a signed 8-bit value. *)
Definition signed8 (raw : Z) : Z := if raw <? 128 then raw else raw - 256.

(** A driver object on the simulated transceiver, with the attributes that
    construction by the script (lines 285-293) leaves, for a given cached
    frequency and implicit-header flag. *)
Definition lora_on (c : Sim.chip) (frequency : float) (implicit : bool)
  : LoRa Sim.chip :=
  mkLoRa c (Some (mkPin None None)) (Some frequency) (Some 250000)
         (Some implicit) (Some PyNone) [].

(** The frequency step of line 141, in Hz. *)
Definition FRF_STEP : Q := 61.03515625.

(** Half of the frequency step, in Hz. *)
Definition FRF_HALF_STEP : Q := 30.517578125.

(** The 24-bit value held by the three frequency registers. *)
Definition frf_stored (c : Sim.chip) : Z :=
  Sim.reg REG_FRF_MSB c * 65536 + Sim.reg REG_FRF_MID c * 256
  + Sim.reg REG_FRF_LSB c.

(** The frequency, in Hz, that a step count stands for. *)
Definition frf_decode (steps : Z) : Q := (inject_Z steps * FRF_STEP)%Q.

(** [P] holds on the [n] integers from [lo] on. *)
Fixpoint all_from (P : Z -> bool) (lo : Z) (n : nat) : bool :=
  match n with
  | O => true
  | S n' => P lo && all_from P (lo + 1) n'
  end.

(** The float [m * 2^-14] is a value of the format, and line 141 gives it a
    step count within one of [m]. *)
Definition within_one_step (m : Z) : bool :=
  let f := S754_finite false (Z.to_pos m) (-14) in
  Float.valid f &&
  match frf_steps f with
  | Ok x => (m - 1 <=? x) && (x <=? m + 1)
  | Raise _ => false
  end.

(** A driver object with a subscribed callback. *)
Definition lora_subscribed (c : Sim.chip) (implicit : bool) (id : nat)
  : LoRa Sim.chip :=
  with_on_recv (PyFun id) (lora_on c 868.0 implicit).

(** The implicit-header bit (bit 0) of modem-config register 1 has the value
    [b0], and so does bit 0 of every byte written to that register since the
    write log had [k] entries. *)
Definition keeps_bit0 (b0 : bool) (k : nat) (c : Sim.chip) : Prop :=
  (k <= length (Sim.writes c))%nat /\
  Z.testbit (Sim.reg REG_MODEM_CONFIG_1 c) 0 = b0 /\
  Forall (fun w => fst w = REG_MODEM_CONFIG_1 ->
                   Z.testbit (int_from_bytes (snd w)) 0 = b0)
         (skipn k (Sim.writes c)).

(** A piece of driver code keeps [keeps_bit0], whether it returns or raises,
    and what it returns satisfies [F]. *)
Definition safe {A} (b0 : bool) (k : nat) (m : M (LoRa Sim.chip) A)
           (F : A -> Prop) : Prop :=
  forall s, keeps_bit0 b0 k (hw s) ->
            keeps_bit0 b0 k (hw (snd (m s))) /\
            match fst (m s) with Ok a => F a | Raise _ => True end.

(** The byte that the write frames [ws], oldest first, leave in register
    [r], given the byte [d] it held before. *)
Fixpoint last_write (r : Z) (ws : list (Z * byte)) (d : byte) : byte :=
  match ws with
  | [] => d
  | w :: rest => last_write r rest (if fst w =? r then snd w else d)
  end.

(** The register writes of a construction that completes, oldest first, on
    a chip whose registers are those of [c]: the statements of lines 61-79
    in order, with the read-modify-write values resolved; [x] is the step
    count that line 141 computes for the frequency. *)
Definition init_writes (c : Sim.chip) (kw : Kw) (x : Z) : list (Z * byte) :=
  let i := bw_index bws 0 (kw_get (kw_bandwidth kw) 250000) 9 in
  let sf := kw_get (kw_spreading_factor kw) 10 in
  let cr := clamp (kw_get (kw_coding_rate kw) 5) 5 8 - 4 in
  let n := kw_get (kw_preamble_length kw) 4 in
  let level := clamp (kw_get (kw_tx_power kw) 24) 2 17 in
  let config1 :=
    Z.lor (Z.land (Sim.reg REG_MODEM_CONFIG_1 c) 0x0f) (Z.shiftl i 4) in
  let config2 :=
    Z.lor (Z.land (Sim.reg REG_MODEM_CONFIG_2 c) 0x0f)
          (Z.land (Z.shiftl sf 4) 0xf0) in
  map (fun w => (fst w, Sim.byte_of_Z (snd w)))
      [(REG_OP_MODE, Z.lor MODE_LORA MODE_SLEEP);
       (REG_FRF_MSB, Z.land (Z.shiftr x 16) 0xff);
       (REG_FRF_MID, Z.land (Z.shiftr x 8) 0xff);
       (REG_FRF_LSB, Z.land x 0xff);
       (REG_MODEM_CONFIG_1, config1);
       (REG_DETECTION_OPTIMIZE, if sf =? 6 then 0xc5 else 0xc3);
       (REG_DETECTION_THRESHOLD, if sf =? 6 then 0x0c else 0x0a);
       (REG_MODEM_CONFIG_2, config2);
       (REG_MODEM_CONFIG_1, Z.lor (Z.land config1 0xf1) (Z.shiftl cr 1));
       (REG_PREAMBLE_MSB, Z.land (Z.shiftr n 8) 0xff);
       (REG_PREAMBLE_LSB, Z.land (Z.shiftr n 0) 0xff);
       (REG_MODEM_CONFIG_2,
        if kw_get (kw_crc kw) false then Z.lor config2 0x04
        else Z.land config2 0xfb);
       (REG_LNA, Z.lor (Sim.reg REG_LNA c) 0x03);
       (REG_MODEM_CONFIG_3, 0x04);
       (REG_PA_CONFIG, Z.lor PA_BOOST (level - 2));
       (REG_SYNC_WORD, kw_get (kw_sync_word kw) 0x12);
       (REG_FIFO_TX_BASE_ADDR, TX_BASE_ADDR);
       (REG_FIFO_RX_BASE_ADDR, RX_BASE_ADDR);
       (REG_OP_MODE, Z.lor MODE_LORA MODE_STDBY)].

(** The attributes that lines 56-76 give the object. *)
Definition init_attributes (c : Sim.chip) (kw : Kw) : LoRa Sim.chip :=
  with_on_recv (kw_get (kw_on_recv kw) PyNone)
    (with_implicit (kw_get (kw_implicit kw) false)
       (with_bandwidth (kw_get (kw_bandwidth kw) 250000)
          (with_frequency (kw_get (kw_frequency kw) 915.0%F)
             (new_object c kw)))).

(** * Properties *)

(** ** Bytes and bounded integers *)

Lemma int_from_bytes_range (b : byte) : 0 <= int_from_bytes b < 256.
Proof.
  unfold int_from_bytes. pose proof (Byte.to_N_bounded b). lia.
Qed.

Lemma bytes1_int_from_bytes (b : byte) : bytes1 (int_from_bytes b) = Some b.
Proof.
  unfold bytes1. pose proof (int_from_bytes_range b) as Hr.
  destruct (Z.ltb_spec (int_from_bytes b) 0) as [Hlt | _]; [lia |].
  unfold int_from_bytes. rewrite N2Z.id. apply Byte.of_to_N.
Qed.

Lemma bytes1_inv (x : Z) (b : byte) :
  bytes1 x = Some b -> int_from_bytes b = x /\ 0 <= x < 256.
Proof.
  unfold bytes1. destruct (Z.ltb_spec x 0) as [Hlt | Hge]; [discriminate |].
  intros Hb. apply Byte.to_of_N in Hb.
  assert (int_from_bytes b = x) as Hx.
  { unfold int_from_bytes. rewrite Hb. apply Z2N.id. exact Hge. }
  split; [exact Hx |]. rewrite <- Hx. apply int_from_bytes_range.
Qed.

Lemma bytes1_out_of_range (x : Z) : ~ (0 <= x < 256) -> bytes1 x = None.
Proof.
  intros Hx. destruct (bytes1 x) as [b |] eqn:E; [| reflexivity].
  apply bytes1_inv in E. tauto.
Qed.

Lemma bytes1_in_range (x : Z) :
  0 <= x < 256 -> bytes1 x = Some (Sim.byte_of_Z x).
Proof.
  intros Hx. unfold bytes1, Sim.byte_of_Z.
  destruct (Z.ltb_spec x 0) as [Hlt | _]; [lia |].
  rewrite Z.mod_small by exact Hx.
  destruct (Byte.of_N (Z.to_N x)) as [b |] eqn:E; [reflexivity |].
  apply Byte.of_N_None_iff in E. lia.
Qed.

Lemma int_byte_of_Z (x : Z) :
  0 <= x < 256 -> int_from_bytes (Sim.byte_of_Z x) = x.
Proof.
  intros Hx. pose proof (bytes1_in_range x Hx) as Hb.
  apply bytes1_inv in Hb. tauto.
Qed.

Lemma byte_of_Z_int (b : byte) : Sim.byte_of_Z (int_from_bytes b) = b.
Proof.
  pose proof (bytes1_in_range _ (int_from_bytes_range b)) as Hb.
  rewrite bytes1_int_from_bytes in Hb. congruence.
Qed.

(** A boolean property checked on [range n] holds on [0 <= z < n]. *)
Lemma range_forallb (P : Z -> bool) (n : Z) :
  forallb P (range n) = true -> forall z, 0 <= z < n -> P z = true.
Proof.
  intros Hall z Hz. rewrite forallb_forall in Hall. apply Hall.
  unfold range. apply in_map_iff. exists (Z.to_nat z). split; [lia |].
  apply in_seq. lia.
Qed.

Lemma length_range (n : Z) : length (range n) = Z.to_nat n.
Proof. unfold range. rewrite length_map. apply length_seq. Qed.

(** ** The monad *)

Lemma bind_Ok {S A C} (m : M S A) (k : A -> M S C) s a s' :
  m s = (Ok a, s') -> bind m k s = k a s'.
Proof. intros Hm. unfold bind. rewrite Hm. reflexivity. Qed.

Lemma bind_Raise {S A C} (m : M S A) (k : A -> M S C) s e s' :
  m s = (Raise e, s') -> bind m k s = (Raise e, s').
Proof. intros Hm. unfold bind. rewrite Hm. reflexivity. Qed.

(** ** One register access on any device *)

Section Frames.

Context {B : Type} `{SpiDevice B}.

Lemma _transfer_frame (addr x : Z) (a d : byte) (s : LoRa B) :
  bytes1 addr = Some a -> bytes1 x = Some d ->
  _transfer addr x s
  = (Ok (snd (frame a d (hw s))),
     with_hw (fun _ => fst (frame a d (hw s))) s).
Proof.
  intros Ha Hd. unfold _transfer, bind, bytes_of, modify, write_readinto, frame.
  rewrite Ha, Hd. cbn.
  destruct (spi_write_readinto d (spi_write a (cs_value 0 (hw s)))) as [b' r].
  reflexivity.
Qed.

(** When the data byte is not a byte, the address byte has gone out and the
    chip-select line stays asserted. *)
Lemma _transfer_bad_data (addr x : Z) (a : byte) (s : LoRa B) :
  bytes1 addr = Some a -> bytes1 x = None ->
  _transfer addr x s
  = (Raise (ValueError "bytes value out of range"),
     with_hw (fun b => spi_write a (cs_value 0 b)) s).
Proof.
  intros Ha Hd. unfold _transfer, bind, bytes_of, modify. rewrite Ha, Hd.
  reflexivity.
Qed.

End Frames.

(** ** Register accesses on the simulated transceiver *)

Section SimAccess.

Import Sim.

Lemma rest_at_rest (c : chip) : at_rest c -> rest c = c.
Proof. destruct c as [v l rs mem ws]. intros [Hv Hl]. cbn in *. subst. reflexivity. Qed.

Lemma at_rest_rest (c : chip) : at_rest (rest c).
Proof. split; reflexivity. Qed.

Lemma rest_rest (c : chip) : rest (rest c) = rest c.
Proof. reflexivity. Qed.

(** A frame does not depend on the level of the select line or on a stale
    latch, and leaves the chip at rest. *)
Lemma frame_access (a d : byte) (c : chip) :
  frame a d c = (rest (fst (access a d c)), snd (access a d c)).
Proof.
  unfold frame. cbn. unfold exchange, address, select. cbn.
  unfold access. destruct (Z.testbit (int_from_bytes a) 7).
  - unfold write_reg. cbn.
    repeat match goal with |- context [if ?b then _ else _] => destruct b end;
      reflexivity.
  - unfold read_reg. cbn.
    repeat match goal with |- context [if ?b then _ else _] => destruct b end;
      reflexivity.
Qed.

Lemma read_address (r : Z) :
  0 <= r < 128 ->
  exists a, bytes1 (Z.land r 0x7f) = Some a /\
            Z.testbit (int_from_bytes a) 7 = false /\
            Z.land (int_from_bytes a) 0x7f = r.
Proof.
  intros Hr.
  assert (Z.land r 0x7f = r) as Hl.
  { change 0x7f with (Z.ones 7). rewrite Z.land_ones by lia.
    apply Z.mod_small. lia. }
  exists (byte_of_Z r). rewrite Hl.
  rewrite bytes1_in_range by lia. rewrite int_byte_of_Z by lia.
  split; [reflexivity |]. split; [| exact Hl].
  clear Hl.
  assert (forallb (fun z => negb (Z.testbit z 7)) (range 128) = true) as Hall
    by (vm_compute; reflexivity).
  pose proof (range_forallb _ _ Hall r Hr) as Ht. cbn beta in Ht.
  destruct (Z.testbit r 7); [discriminate | reflexivity].
Qed.

Lemma write_address (r : Z) :
  0 <= r < 128 ->
  exists a, bytes1 (Z.lor r 0x80) = Some a /\
            Z.testbit (int_from_bytes a) 7 = true /\
            Z.land (int_from_bytes a) 0x7f = r.
Proof.
  intros Hr.
  assert (forallb (fun z => (Z.lor z 0x80 <? 256) && (0 <=? Z.lor z 0x80)
                            && Z.testbit (Z.lor z 0x80) 7
                            && (Z.land (Z.lor z 0x80) 0x7f =? z))
                  (range 128) = true) as Hall
    by (vm_compute; reflexivity).
  pose proof (range_forallb _ _ Hall r Hr) as Ht. cbn beta in Ht.
  apply andb_prop in Ht as [Ht H4]. apply andb_prop in Ht as [Ht H3].
  apply andb_prop in Ht as [H1 H2].
  apply Z.ltb_lt in H1. apply Z.leb_le in H2. apply Z.eqb_eq in H4.
  exists (byte_of_Z (Z.lor r 0x80)).
  rewrite bytes1_in_range by lia. rewrite int_byte_of_Z by lia. tauto.
Qed.

(** Reading a register other than the buffer window returns the stored byte
    and changes nothing. *)
Lemma sim_read (r : Z) (s : LoRa chip) :
  0 < r < 128 ->
  _read r s = (Ok (reg r (hw s)), with_hw rest s).
Proof.
  intros Hr. destruct (read_address r ltac:(lia)) as (a & Ha & Hbit & Hreg).
  unfold _read. erewrite bind_Ok.
  2: { apply _transfer_frame; [exact Ha | reflexivity]. }
  rewrite frame_access. unfold access. rewrite Hbit, Hreg. unfold read_reg.
  destruct (Z.eqb_spec r REG_FIFO) as [E | _]; [unfold REG_FIFO in E; lia |].
  reflexivity.
Qed.

(** Reading the buffer window returns the byte under the pointer and
    advances the pointer. *)
Lemma sim_read_fifo (s : LoRa chip) :
  _read REG_FIFO s
  = (Ok (int_from_bytes (buf (reg REG_FIFO_ADDR_PTR (hw s)) (hw s))),
     with_hw (fun c => rest (set_reg REG_FIFO_ADDR_PTR
                               (byte_of_Z (reg REG_FIFO_ADDR_PTR c + 1)) c)) s).
Proof. reflexivity. Qed.

(** Writing a byte value to a register. *)
Lemma sim_write (r x : Z) (s : LoRa chip) :
  0 <= r < 128 -> 0 <= x < 256 ->
  _write r x s = (Ok tt, with_hw (fun c => rest (write_reg r (byte_of_Z x) c)) s).
Proof.
  intros Hr Hx. destruct (write_address r Hr) as (a & Ha & Hbit & Hreg).
  unfold _write. erewrite bind_Ok.
  2: { apply _transfer_frame; [exact Ha | apply bytes1_in_range; exact Hx]. }
  rewrite frame_access. unfold access. rewrite Hbit, Hreg. reflexivity.
Qed.

End SimAccess.

(** ** Float comparison *)

Lemma digits2_pos_bounds (m : positive) :
  2 ^ (Zpos (digits2_pos m) - 1) <= Zpos m < 2 ^ Zpos (digits2_pos m).
Proof.
  induction m as [m IH | m IH |]; cbn [digits2_pos].
  - rewrite Pos2Z.inj_succ.
    replace (Z.succ (Zpos (digits2_pos m)) - 1)
      with (Z.succ (Zpos (digits2_pos m) - 1)) by lia.
    rewrite !Z.pow_succ_r by lia. lia.
  - rewrite Pos2Z.inj_succ.
    replace (Z.succ (Zpos (digits2_pos m)) - 1)
      with (Z.succ (Zpos (digits2_pos m) - 1)) by lia.
    rewrite !Z.pow_succ_r by lia. lia.
  - cbn. lia.
Qed.

(** On a positive float of the format, [>= 779.0] compares the numbers:
    [779.0] is [12763136 * 2^-14], a float with a smaller exponent is below
    512 and one with a larger exponent is at least 1024. *)
Lemma ge_779_finite (m : positive) (e : Z) :
  Float.valid (S754_finite false m e) = true ->
  Float.ge (S754_finite false m e) 779.0 = true
  <-> (779 <= Float.scale m e)%Q.
Proof.
  unfold Float.valid, valid_binary, bounded, canonical_mantissa, fexp, emin,
    Float.prec, Float.emax.
  intros Hv. apply andb_true_iff in Hv. destruct Hv as [Hc He].
  apply Z.eqb_eq in Hc. apply Z.leb_le in He.
  pose proof (digits2_pos_bounds m) as Hd.
  set (d := Zpos (digits2_pos m)) in *.
  unfold Float.ge, SFleb, SFcompare.
  destruct (Z.compare_spec (-14) e) as [E | E | E].
  - subst e. cbn [Float.scale]. unfold Qle. cbn [Qnum Qden].
    rewrite Pos.compare_cont_spec. cbn [Pos.switch_Eq].
    change (Z.pos (2 ^ 14)) with 16384.
    destruct (Pos.compare_spec 12763136 m) as [E | E | E].
    + split; [intros _; lia | reflexivity].
    + split; [intros _; lia | reflexivity].
    + split; [discriminate |]. intros Hle. exfalso.
      assert (Zpos m < 12763136) as Hlt by exact E. clear - Hle Hlt. lia.
  - split; [intros _ | reflexivity].
    assert (d = 24) as Hd24 by lia.
    rewrite Hd24 in Hd. change (2 ^ (24 - 1)) with 8388608 in Hd.
    destruct e as [| p | p]; cbn [Float.scale]; unfold Qle; cbn [Qnum Qden].
    + lia.
    + assert (0 < 2 ^ Zpos p) by (apply Z.pow_pos_nonneg; lia). nia.
    + rewrite Pos2Z.inj_pow.
      assert (2 ^ Zpos p <= 2 ^ 13) by (apply Z.pow_le_mono_r; lia).
      change (2 ^ 13) with 8192 in *. lia.
  - split; [discriminate |]. intros Hq. exfalso.
    assert (d <= 24) as Hd24 by lia.
    assert (Zpos m < 2 ^ 24) as Hm.
    { eapply Z.lt_le_trans; [apply Hd |]. apply Z.pow_le_mono_r; lia. }
    change (2 ^ 24) with 16777216 in Hm.
    destruct e as [| p | p]; try lia.
    cbn [Float.scale] in Hq. unfold Qle in Hq. cbn [Qnum Qden] in Hq.
    rewrite Pos2Z.inj_pow in Hq.
    assert (2 ^ 15 <= 2 ^ Zpos p) by (apply Z.pow_le_mono_r; lia).
    change (2 ^ 15) with 32768 in *. lia.
Qed.

Lemma scale_pos (m : positive) (e : Z) : (0 < Float.scale m e)%Q.
Proof.
  destruct e as [| p | p]; cbn [Float.scale]; unfold Qlt; cbn [Qnum Qden];
    lia.
Qed.

(** On every float of the format that stands for a number, [>= 779.0]
    compares that number with 779. *)
Lemma ge_779_real (f : float) (q : Q) :
  Float.valid f = true -> Float.real f = Some q ->
  Float.ge f 779.0 = true <-> (779 <= q)%Q.
Proof.
  intros Hv Hq. destruct f as [sg | sg | | sg m e]; try discriminate.
  - injection Hq as <-. split; [discriminate |].
    intros Hle. exfalso. revert Hle. unfold Qle. cbn. lia.
  - cbn [Float.real] in Hq. injection Hq as <-. destruct sg.
    + split; [discriminate |]. intros Hle. exfalso.
      pose proof (scale_pos m e) as Hp.
      set (y := Float.scale m e) in *. clearbody y. lra.
    + apply ge_779_finite. exact Hv.
Qed.

(** The float literals of the driver and of the script stand for their
    decimal values exactly. *)
Lemma literals_exact :
  (exists q, Float.real 1000000.0 = Some q /\ (q == 1000000)%Q) /\
  (exists q, Float.real 61.03515625 = Some q /\ (q == FRF_STEP)%Q) /\
  (exists q, Float.real 779.0 = Some q /\ (q == 779)%Q) /\
  (exists q, Float.real 915.0 = Some q /\ (q == 915)%Q) /\
  (exists q, Float.real 868.0 = Some q /\ (q == 868)%Q).
Proof.
  repeat split; eexists; (split; [reflexivity | vm_compute; reflexivity]).
Qed.

Lemma all_from_spec (P : Z -> bool) (n : nat) :
  forall lo, all_from P lo n = true ->
             forall z, lo <= z < lo + Z.of_nat n -> P z = true.
Proof.
  induction n as [| n IH]; intros lo Hall z Hz; [lia |].
  cbn [all_from] in Hall. apply andb_true_iff in Hall.
  destruct Hall as [Hlo Hrest].
  destruct (Z.eq_dec z lo) as [-> | Hne]; [exact Hlo |].
  apply (IH (lo + 1) Hrest). lia.
Qed.

(** ** Link quality (lines 115-122) *)

Section LinkQuality.

Import Sim.

(** C1 (as the code has it): [get_snr] reads the packet-SNR register, takes
    the raw byte as an unsigned value between 0 and 255, and returns that
    value times 0.25; the read changes no register, buffer byte or write
    log. *)
Theorem get_snr_unsigned (s : LoRa chip) :
  0 <= reg REG_PKT_SNR_VALUE (hw s) <= 255 /\
  get_snr s
  = (Ok (inject_Z (reg REG_PKT_SNR_VALUE (hw s)) * 0.25)%Q, with_hw rest s).
Proof.
  split.
  - pose proof (int_from_bytes_range (regs (hw s) !!! REG_PKT_SNR_VALUE)).
    unfold reg. lia.
  - unfold get_snr. erewrite bind_Ok; [reflexivity |].
    apply sim_read. unfold REG_PKT_SNR_VALUE. lia.
Qed.

(** Raw register value 40 gives 10.0. *)
Example get_snr_raw_40 :
  exists q, fst (get_snr (lora_on (power_on [(REG_PKT_SNR_VALUE, x28)] [])
                                  868.0 false)) = Ok q /\ (q == 10.0)%Q.
Proof. eexists. split; [vm_compute; reflexivity | reflexivity]. Qed.

(** C1 fails on the code: with the byte [0xD8] in the packet-SNR register,
    which is -40 as a signed byte, [get_snr] returns 54.0 and not -10.0. *)
Lemma get_snr_byte_D8_not_signed :
  let s := lora_on (power_on [(REG_PKT_SNR_VALUE, xd8)] []) 868.0 false in
  signed8 (reg REG_PKT_SNR_VALUE (hw s)) = -40 /\
  exists q, fst (get_snr s) = Ok q /\
            (q == 54.0)%Q /\
            ~ (q == inject_Z (signed8 (reg REG_PKT_SNR_VALUE (hw s))) * 0.25)%Q /\
            ~ (q == -10.0)%Q.
Proof.
  cbv zeta. split; [vm_compute; reflexivity |].
  eexists. split; [vm_compute; reflexivity |].
  split; [reflexivity |]. split; intros Hq; vm_compute in Hq; discriminate.
Qed.

(** C7: [get_rssi] returns the raw packet-RSSI value minus 157 when the
    cached frequency is at least 779 MHz and minus 164 otherwise.  The
    cached frequency is a float: when it stands for a number [q], the test
    is [779 <= q]; plus infinity counts as at least 779, minus infinity and
    NaN do not. *)
Theorem get_rssi_offset (s : LoRa chip) (f : float) :
  _frequency s = Some f ->
  exists v,
    get_rssi s = (Ok v, with_hw rest s) /\
    (forall q, Float.valid f = true -> Float.real f = Some q ->
               (779 <= q)%Q -> v = reg REG_PKT_RSSI_VALUE (hw s) - 157) /\
    (forall q, Float.valid f = true -> Float.real f = Some q ->
               ~ (779 <= q)%Q -> v = reg REG_PKT_RSSI_VALUE (hw s) - 164) /\
    (f = S754_infinity false -> v = reg REG_PKT_RSSI_VALUE (hw s) - 157) /\
    (f = S754_infinity true \/ f = S754_nan ->
     v = reg REG_PKT_RSSI_VALUE (hw s) - 164).
Proof.
  intros Hf. unfold get_rssi.
  erewrite bind_Ok by (apply sim_read; unfold REG_PKT_RSSI_VALUE; lia).
  erewrite bind_Ok by (unfold attr; cbn; rewrite Hf; reflexivity).
  destruct (Float.ge f 779.0) eqn:E.
  - eexists. split; [reflexivity |]. split; [reflexivity |].
    split; [| split; [reflexivity |]].
    + intros q Hv Hq Hn. apply (ge_779_real f q Hv Hq) in E. contradiction.
    + intros [-> | ->]; discriminate.
  - eexists. split; [reflexivity |]. split; [| split; [reflexivity |]].
    + intros q Hv Hq Hle. apply (ge_779_real f q Hv Hq) in Hle. congruence.
    + split; [| reflexivity]. intros ->. discriminate.
Qed.

(** With 868.0 MHz configured and raw value 100 the result is -57. *)
Lemma get_rssi_868 :
  exists v,
    get_rssi (lora_on (power_on [(REG_PKT_RSSI_VALUE, x64)] []) 868.0 false)
    = (Ok v, lora_on (power_on [(REG_PKT_RSSI_VALUE, x64)] []) 868.0 false) /\
    v = -57.
Proof.
  destruct (get_rssi_offset
              (lora_on (power_on [(REG_PKT_RSSI_VALUE, x64)] []) 868.0 false)
              868.0 eq_refl) as (v & Hrun & Hhi & _).
  exists v. split; [exact Hrun |].
  rewrite (Hhi (14221312 # 16384)%Q);
    [reflexivity | reflexivity | reflexivity | discriminate].
Defined.

(** With 433.0 MHz configured and the same raw value the result is -64. *)
Example get_rssi_433 :
  fst (get_rssi (lora_on (power_on [(REG_PKT_RSSI_VALUE, x64)] []) 433.0 false))
  = Ok (-64).
Proof. vm_compute. reflexivity. Qed.

End LinkQuality.

(** ** Stepping through driver code on the simulated transceiver *)

Create HintDb regs.
#[local] Hint Unfold
  REG_FIFO REG_OP_MODE REG_FRF_MSB REG_FRF_MID REG_FRF_LSB REG_PA_CONFIG
  REG_LNA REG_FIFO_ADDR_PTR REG_FIFO_TX_BASE_ADDR REG_FIFO_RX_BASE_ADDR
  REG_FIFO_RX_CURRENT_ADDR REG_IRQ_FLAGS REG_RX_NB_BYTES REG_PKT_RSSI_VALUE
  REG_PKT_SNR_VALUE REG_MODEM_CONFIG_1 REG_MODEM_CONFIG_2 REG_PREAMBLE_MSB
  REG_PREAMBLE_LSB REG_PAYLOAD_LENGTH REG_MODEM_CONFIG_3
  REG_DETECTION_OPTIMIZE REG_DETECTION_THRESHOLD REG_SYNC_WORD
  REG_DIO_MAPPING_1 REG_VERSION MODE_LORA MODE_SLEEP MODE_STDBY MODE_TX
  MODE_RX_CONTINUOUS TX_BASE_ADDR RX_BASE_ADDR MAX_PKT_LENGTH PA_BOOST
  IRQ_TX_DONE_MASK IRQ_PAYLOAD_CRC_ERROR_MASK : regs.

Ltac reg_side :=
  repeat autounfold with regs in *;
  first [ cbn; lia
        | vm_compute; first [ discriminate | reflexivity
                            | split; first [ discriminate | reflexivity ] ] ].

(** Rewrite the leading [_read] or [_write] of the goal by its effect. *)
Ltac step_read := erewrite bind_Ok by (apply sim_read; reg_side).
Ltac step_write := erewrite bind_Ok by (apply sim_write; reg_side).

(** A property of a byte value, checked on all 256 of them. *)
Ltac byte_cases P z Hz H :=
  let Hall := fresh "Hall" in
  assert (forallb P (range 256) = true) as Hall by (vm_compute; reflexivity);
  pose proof (range_forallb _ _ Hall z Hz) as H; cbn beta in H; clear Hall.

(** Turn boolean checks in the hypotheses into propositions. *)
Ltac unbool :=
  repeat match goal with
         | H : _ && _ = true |- _ => apply andb_prop in H as [? ?]
         | H : (_ <=? _) = true |- _ => apply Z.leb_le in H
         | H : (_ <? _) = true |- _ => apply Z.ltb_lt in H
         | H : (_ =? _) = true |- _ => apply Z.eqb_eq in H
         | H : negb _ = true |- _ => apply negb_true_iff in H
         end.

(** Close a goal equating two results whose device states differ only by how
    the write log was appended to. *)
Ltac same_chip :=
  f_equal; unfold with_hw; cbn -[Sim.byte_of_Z]; f_equal;
  unfold Sim.written, Sim.rest; cbn -[Sim.byte_of_Z]; f_equal;
  rewrite <- ?app_assoc; reflexivity.

Section SimRegisters.

Import Sim.

Lemma reg_range (r : Z) (c : chip) : 0 <= reg r c < 256.
Proof. apply int_from_bytes_range. Qed.

Lemma write_reg_plain (r : Z) (d : byte) (c : chip) :
  r <> REG_FIFO -> r <> REG_IRQ_FLAGS ->
  write_reg r d c
  = mkChip (cs c) (latch c) (<[r := d]> (regs c)) (fifo c)
           (writes c ++ [(r, d)]).
Proof.
  intros H0 H1. unfold write_reg.
  destruct (Z.eqb_spec r REG_FIFO); [contradiction |].
  destruct (Z.eqb_spec r REG_IRQ_FLAGS); [contradiction |].
  reflexivity.
Qed.

Lemma reg_insert_eq (r : Z) (x : Z) (c : chip) v l f w :
  0 <= x < 256 ->
  reg r (mkChip v l (<[r := byte_of_Z x]> (regs c)) f w) = x.
Proof.
  intros Hx. unfold reg. cbn. rewrite lookup_total_insert_eq.
  apply int_byte_of_Z. exact Hx.
Qed.

End SimRegisters.

(** ** Implicit-header mode (lines 186-194) *)

Section Implicit.

Import Sim.

Lemma implicit_bit_set (z : Z) :
  0 <= z < 256 ->
  0 <= Z.lor z 0x01 < 256 /\ Z.testbit (Z.lor z 0x01) 0 = true /\
  Z.land (Z.lor z 0x01) 0xfe = Z.land z 0xfe.
Proof.
  intros Hz.
  byte_cases (fun z => (0 <=? Z.lor z 0x01) && (Z.lor z 0x01 <? 256)
                       && Z.testbit (Z.lor z 0x01) 0
                       && (Z.land (Z.lor z 0x01) 0xfe =? Z.land z 0xfe)) z Hz Hc.
  unbool. tauto.
Qed.

Lemma implicit_bit_clear (z : Z) :
  0 <= z < 256 ->
  0 <= Z.land z 0xfe < 256 /\ Z.testbit (Z.land z 0xfe) 0 = false /\
  Z.land (Z.land z 0xfe) 0xfe = Z.land z 0xfe.
Proof.
  intros Hz.
  byte_cases (fun z => (0 <=? Z.land z 0xfe) && (Z.land z 0xfe <? 256)
                       && negb (Z.testbit (Z.land z 0xfe) 0)
                       && (Z.land (Z.land z 0xfe) 0xfe =? Z.land z 0xfe)) z Hz Hc.
  unbool. tauto.
Qed.

(** C8: [set_implicit] with the cached value returns without touching the
    object or the device; with the opposite value it updates the cache and
    issues exactly one register write, to modem-config register 1, whose new
    value has the implicit-header bit (bit 0) equal to the request and every
    other bit as before; no other register and no buffer byte changes. *)
Theorem set_implicit_effect (s : LoRa chip) (cur v : bool) :
  _implicit s = Some cur ->
  (cur = v -> set_implicit v s = (Ok tt, s)) /\
  (cur <> v ->
   exists x,
     set_implicit v s
     = (Ok tt,
        with_hw (written [(REG_MODEM_CONFIG_1, byte_of_Z x)])
                (with_implicit v s)) /\
     0 <= x < 256 /\
     Z.testbit x 0 = v /\
     Z.land x 0xfe = Z.land (reg REG_MODEM_CONFIG_1 (hw s)) 0xfe).
Proof.
  intros Hcur. unfold set_implicit.
  erewrite bind_Ok by (unfold attr; rewrite Hcur; reflexivity).
  split.
  - intros ->. rewrite Bool.eqb_reflx. reflexivity.
  - intros Hne.
    assert (Bool.eqb cur v = false) as ->
        by (destruct cur, v; try reflexivity; contradict Hne; reflexivity).
    cbn [negb].
    erewrite bind_Ok by reflexivity.
    step_read.
    pose proof (reg_range REG_MODEM_CONFIG_1 (hw s)) as Hr.
    destruct v.
    + destruct (implicit_bit_set _ Hr) as (Hx & Hb & Hl).
      exists (Z.lor (reg REG_MODEM_CONFIG_1 (hw s)) 0x01).
      split; [| tauto].
      rewrite sim_write; [reflexivity | reg_side | exact Hx].
    + destruct (implicit_bit_clear _ Hr) as (Hx & Hb & Hl).
      exists (Z.land (reg REG_MODEM_CONFIG_1 (hw s)) 0xfe).
      split; [| tauto].
      rewrite sim_write; [reflexivity | reg_side | exact Hx].
Qed.

(** On a chip holding [0x72] in modem-config register 1: the cached value
    costs nothing, the opposite one writes [0x73] once. *)
Lemma set_implicit_effect_witness :
  let s := lora_on (power_on [(REG_MODEM_CONFIG_1, x72)] []) 868.0 false in
  set_implicit false s = (Ok tt, s) /\
  exists x,
    set_implicit true s
    = (Ok tt, with_hw (written [(REG_MODEM_CONFIG_1, byte_of_Z x)])
                      (with_implicit true s)) /\
    Z.testbit x 0 = true /\ Z.land x 0xfe = 0x72.
Proof.
  cbv zeta. split.
  - apply (set_implicit_effect
             (lora_on (power_on [(REG_MODEM_CONFIG_1, x72)] []) 868.0 false)
             false false eq_refl). reflexivity.
  - destruct (set_implicit_effect
                (lora_on (power_on [(REG_MODEM_CONFIG_1, x72)] []) 868.0 false)
                false true eq_refl) as [_ Hdiff].
    destruct (Hdiff ltac:(discriminate)) as (x & Hrun & _ & Hbit & Hrest).
    exists x. split; [exact Hrun |]. split; [exact Hbit | exact Hrest].
Defined.

End Implicit.

(** ** Receive subscription (lines 196-203) *)

Section Subscription.

Import Sim.

(** C9 (as the code has it): unsubscribing, on an object that has an
    interrupt line, stores [None] as the callback and detaches the handler
    from the line (handler [None], trigger [0]); it starts no bus frame, so
    no register is written and the IRQ-to-pin mapping register keeps its
    value; a later rising edge does nothing. *)
Theorem on_recv_none_detaches (s : LoRa chip) (p : Pin) :
  rx s = Some p ->
  exists s',
    on_recv PyNone s = (Ok tt, s') /\
    _on_recv s' = Some PyNone /\
    rx s' = Some (mkPin None (Some (Trigger_int 0))) /\
    hw s' = hw s /\
    rising_edge s' = (Ok tt, s').
Proof.
  intros Hrx. unfold on_recv.
  erewrite bind_Ok by reflexivity.
  erewrite bind_Ok by (unfold gets; cbn; rewrite Hrx; reflexivity).
  cbn [truthy]. eexists. split; [reflexivity |].
  repeat split.
Qed.

Lemma on_recv_none_detaches_witness :
  exists s',
    on_recv PyNone (lora_on (power_on [] []) 868.0 false) = (Ok tt, s') /\
    rx s' = Some (mkPin None (Some (Trigger_int 0))) /\
    writes (hw s') = [].
Proof.
  destruct (on_recv_none_detaches (lora_on (power_on [] []) 868.0 false)
                                  (mkPin None None) eq_refl)
    as (s' & Hrun & _ & Hrx & Hhw & _).
  exists s'. split; [exact Hrun |]. split; [exact Hrx |].
  rewrite Hhw. reflexivity.
Defined.

(** Subscribing is what writes the mapping register: one write of [0x00] to
    register [0x40], and the handler attached on the rising edge. *)
Lemma on_recv_subscribe (s : LoRa chip) (p : Pin) (id : nat) :
  rx s = Some p ->
  on_recv (PyFun id) s
  = (Ok tt,
     with_rx (Some (mkPin (Some Handler_irq_recv) (Some Pin_IRQ_RISING)))
             (with_hw (written [(REG_DIO_MAPPING_1, x00)])
                      (with_on_recv (PyFun id) s))).
Proof.
  intros Hrx. unfold on_recv.
  erewrite bind_Ok by reflexivity.
  erewrite bind_Ok by (unfold gets; cbn; rewrite Hrx; reflexivity).
  cbn [truthy]. step_write. reflexivity.
Qed.

(** C9 fails on the code: after a subscription, unsubscribing detaches the
    handler but the write log still holds the single write of the
    subscription; register [0x40] is not written again. *)
Lemma on_recv_none_writes_nothing :
  let s0 := lora_on (power_on [] []) 868.0 false in
  let s1 := snd (on_recv (PyFun 1) s0) in
  let s2 := snd (on_recv PyNone s1) in
  writes (hw s1) = [(REG_DIO_MAPPING_1, x00)] /\
  fst (on_recv PyNone s1) = Ok tt /\
  rx s2 = Some (mkPin None (Some (Trigger_int 0))) /\
  writes_since (hw s1) (hw s2) = [] /\
  ~ In REG_DIO_MAPPING_1 (map fst (writes_since (hw s1) (hw s2))).
Proof. vm_compute. repeat split. intros []. Qed.

End Subscription.

(** ** Spreading factor (lines 146-152) *)

Section SpreadingFactor.

Import Sim.

Lemma sf_nibble (sf z : Z) :
  6 <= sf <= 12 -> 0 <= z < 256 ->
  let x := Z.lor (Z.land z 0x0f) (Z.land (Z.shiftl sf 4) 0xf0) in
  0 <= x < 256 /\ Z.shiftr x 4 = sf /\ Z.land x 0x0f = Z.land z 0x0f.
Proof.
  intros Hsf Hz.
  assert (forallb
            (fun sf =>
               (sf <? 6) ||
               forallb (fun z =>
                          let x := Z.lor (Z.land z 0x0f)
                                         (Z.land (Z.shiftl sf 4) 0xf0) in
                          (0 <=? x) && (x <? 256) && (Z.shiftr x 4 =? sf)
                          && (Z.land x 0x0f =? Z.land z 0x0f))
                       (range 256))
            (range 13) = true) as Hall by (vm_compute; reflexivity).
  pose proof (range_forallb _ _ Hall sf ltac:(lia)) as Hsf'. cbn beta in Hsf'.
  apply orb_prop in Hsf' as [Hlt | Hin]; [apply Z.ltb_lt in Hlt; lia |].
  pose proof (range_forallb _ _ Hin z Hz) as Hc. cbn beta zeta in Hc.
  cbv zeta. unbool. tauto.
Qed.

(** C5: a spreading factor outside 6..12 raises [ValueError] (the
    specification's ConfigError) with the object and the device exactly as
    they were, so no register is written; a factor inside 6..12 is written
    into the high nibble of modem-config register 2, whose low nibble is
    kept, after the two detection registers. *)
Theorem set_spreading_factor_spec (s : LoRa chip) (sf : Z) :
  (sf < 6 \/ 12 < sf ->
   set_spreading_factor sf s
   = (Raise (ValueError "Spreading factor must be between 6-12"), s)) /\
  (6 <= sf <= 12 ->
   exists x,
     set_spreading_factor sf s
     = (Ok tt,
        with_hw (written
                   [(REG_DETECTION_OPTIMIZE,
                     byte_of_Z (if sf =? 6 then 0xc5 else 0xc3));
                    (REG_DETECTION_THRESHOLD,
                     byte_of_Z (if sf =? 6 then 0x0c else 0x0a));
                    (REG_MODEM_CONFIG_2, byte_of_Z x)]) s) /\
     0 <= x < 256 /\
     Z.shiftr x 4 = sf /\
     Z.land x 0x0f = Z.land (reg REG_MODEM_CONFIG_2 (hw s)) 0x0f).
Proof.
  unfold set_spreading_factor. split.
  - intros Hout.
    assert ((sf <? 6) || (sf >? 12) = true) as ->; [| reflexivity].
    apply orb_true_iff. rewrite Z.ltb_lt, Z.gtb_gt. lia.
  - intros Hin.
    assert ((sf <? 6) || (sf >? 12) = false) as ->.
    { apply orb_false_iff. rewrite Z.ltb_ge, Z.gtb_ltb, Z.ltb_ge. lia. }
    erewrite bind_Ok by (apply sim_write; [reg_side | destruct (sf =? 6); lia]).
    erewrite bind_Ok by (apply sim_write; [reg_side | destruct (sf =? 6); lia]).
    step_read.
    set (z := reg REG_MODEM_CONFIG_2 (hw s)).
    assert (reg REG_MODEM_CONFIG_2
              (hw (with_hw (fun c => rest (write_reg REG_DETECTION_THRESHOLD
                                   (byte_of_Z (if sf =? 6 then 12 else 10)) c))
                     (with_hw (fun c => rest (write_reg REG_DETECTION_OPTIMIZE
                                   (byte_of_Z (if sf =? 6 then 197 else 195)) c))
                        s))) = z) as ->.
    { unfold reg. cbn. rewrite !lookup_total_insert_ne by reg_side.
      reflexivity. }
    destruct (sf_nibble sf z Hin (reg_range _ _)) as (Hx & Hhi & Hlo).
    eexists. split; [| split; [exact Hx | split; [exact Hhi | exact Hlo]]].
    rewrite sim_write; [same_chip | reg_side | exact Hx].
Qed.

End SpreadingFactor.

Section SpreadingFactorExamples.

Import Sim.

Lemma set_spreading_factor_spec_witness :
  let s := lora_on (power_on [(REG_MODEM_CONFIG_2, xa4)] []) 868.0 false in
  set_spreading_factor 13 s
  = (Raise (ValueError "Spreading factor must be between 6-12"), s) /\
  exists x,
    set_spreading_factor 7 s
    = (Ok tt,
       with_hw (written [(REG_DETECTION_OPTIMIZE, xc3);
                         (REG_DETECTION_THRESHOLD, x0a);
                         (REG_MODEM_CONFIG_2, byte_of_Z x)]) s) /\
    Z.shiftr x 4 = 7 /\ Z.land x 0x0f = 4.
Proof.
  cbv zeta.
  destruct (set_spreading_factor_spec
              (lora_on (power_on [(REG_MODEM_CONFIG_2, xa4)] []) 868.0 false)
              13) as [Hout _].
  destruct (set_spreading_factor_spec
              (lora_on (power_on [(REG_MODEM_CONFIG_2, xa4)] []) 868.0 false)
              7) as [_ Hin].
  split; [apply Hout; lia |].
  destruct (Hin ltac:(lia)) as (x & Hrun & _ & Hhi & Hlo).
  exists x. split; [exact Hrun |]. split; [exact Hhi | exact Hlo].
Defined.

End SpreadingFactorExamples.

(** ** Bandwidth (lines 154-163) *)

Section Bandwidth.

Import Sim.

(** The loop of [set_bandwidth] stops at the first table entry that is at
    least [bw], and keeps the initial [i] when there is none. *)
Lemma bw_index_first (tbl : list Z) (j bw i : Z) :
  (bw_index tbl j bw i = i /\ Forall (fun v => v < bw) tbl) \/
  (exists n v,
      bw_index tbl j bw i = j + Z.of_nat n /\
      nth_error tbl n = Some v /\ bw <= v /\
      forall m u, (m < n)%nat -> nth_error tbl m = Some u -> u < bw).
Proof.
  revert j. induction tbl as [| v rest IH]; intros j; cbn [bw_index].
  - left. split; [reflexivity | constructor].
  - destruct (Z.leb_spec bw v) as [Hle | Hgt].
    + right. exists 0%nat, v. split; [lia |]. split; [reflexivity |].
      split; [exact Hle |]. intros m u Hm. lia.
    + destruct (IH (j + 1)) as [[Hk Hall] | (n & w & Hk & Hn & Hw & Hbefore)].
      * left. split; [exact Hk |]. constructor; [lia | exact Hall].
      * right. exists (S n), w. split; [lia |]. split; [exact Hn |].
        split; [exact Hw |]. intros [| m] u Hm Hu.
        -- cbn in Hu. injection Hu as <-. lia.
        -- apply (Hbefore m u); [lia | exact Hu].
Qed.

Lemma bw_nibble (i z : Z) :
  0 <= i <= 9 -> 0 <= z < 256 ->
  let x := Z.lor (Z.land z 0x0f) (Z.shiftl i 4) in
  0 <= x < 256 /\ Z.shiftr x 4 = i /\ Z.land x 0x0f = Z.land z 0x0f.
Proof.
  intros Hi Hz.
  assert (forallb
            (fun i =>
               forallb (fun z =>
                          let x := Z.lor (Z.land z 0x0f) (Z.shiftl i 4) in
                          (0 <=? x) && (x <? 256) && (Z.shiftr x 4 =? i)
                          && (Z.land x 0x0f =? Z.land z 0x0f))
                       (range 256))
            (range 10) = true) as Hall by (vm_compute; reflexivity).
  pose proof (range_forallb _ _ Hall i ltac:(lia)) as Hin. cbn beta in Hin.
  pose proof (range_forallb _ _ Hin z Hz) as Hc. cbn beta zeta in Hc.
  cbv zeta. unbool. tauto.
Qed.

(** C4: [set_bandwidth] issues one write, to modem-config register 1; the
    high nibble of the value written is the index the loop selects and the
    low nibble is the register's previous low nibble.  The index is the
    smallest position of the 9-entry table whose entry is at least the
    request, and the reserved index 9 when the request exceeds 250000. *)
Theorem set_bandwidth_spec (s : LoRa chip) (bw : Z) :
  exists i x,
    set_bandwidth bw s
    = (Ok tt,
       with_hw (written [(REG_MODEM_CONFIG_1, byte_of_Z x)])
               (with_bandwidth bw s)) /\
    0 <= x < 256 /\
    Z.shiftr x 4 = i /\
    Z.land x 0x0f = Z.land (reg REG_MODEM_CONFIG_1 (hw s)) 0x0f /\
    (250000 < bw -> i = 9) /\
    (bw <= 250000 ->
     0 <= i < 9 /\
     exists v,
       nth_error bws (Z.to_nat i) = Some v /\ bw <= v /\
       forall j u,
         (j < Z.to_nat i)%nat -> nth_error bws j = Some u -> u < bw).
Proof.
  set (i := bw_index bws 0 bw 9).
  assert ((250000 < bw -> i = 9) /\
          (bw <= 250000 ->
           0 <= i < 9 /\
           exists v,
             nth_error bws (Z.to_nat i) = Some v /\ bw <= v /\
             forall j u,
               (j < Z.to_nat i)%nat -> nth_error bws j = Some u -> u < bw))
    as Hidx.
  { destruct (bw_index_first bws 0 bw 9)
      as [[Hk Hall] | (n & v & Hk & Hn & Hv & Hbefore)]; fold i in Hk.
    - assert (250000 < bw) as Hbig.
      { rewrite List.Forall_forall in Hall. apply Hall.
        apply (nth_error_In bws 8). reflexivity. }
      split; [intros _; exact Hk | intros Hsmall; lia].
    - assert (n < 9)%nat as Hn9.
      { assert (nth_error bws n <> None) as Hsome by congruence.
        apply List.nth_error_Some in Hsome. exact Hsome. }
      assert (v <= 250000) as Hv250.
      { apply nth_error_In in Hn. unfold bws in Hn. cbn in Hn.
        repeat (destruct Hn as [<- | Hn]; [lia |]). contradiction. }
      split; [intros Hbig; lia |]. intros _. split; [lia |].
      exists v. replace (Z.to_nat i) with n by lia. auto. }
  assert (0 <= i <= 9) as Hi.
  { destruct (Z.lt_ge_cases 250000 bw) as [Hbig | Hsmall].
    - destruct Hidx as [H9 _]. rewrite (H9 Hbig). lia.
    - destruct Hidx as [_ Hlt]. destruct (Hlt Hsmall) as [Hr _]. lia. }
  destruct (bw_nibble i _ Hi (reg_range REG_MODEM_CONFIG_1 (hw s)))
    as (Hx & Hhi & Hlo).
  exists i, (Z.lor (Z.land (reg REG_MODEM_CONFIG_1 (hw s)) 0x0f)
                   (Z.shiftl i 4)).
  split; [| split; [exact Hx | split; [exact Hhi | split; [exact Hlo |]]]].
  - unfold set_bandwidth. erewrite bind_Ok by reflexivity.
    step_read. fold i.
    rewrite sim_write; [same_chip | reg_side | exact Hx].
  - exact Hidx.
Qed.

(** A request of 100000 selects index 7, the 125000 entry. *)
Example bw_index_100000 :
  bw_index bws 0 100000 9 = 7 /\ nth_error bws 7 = Some 125000.
Proof. split; reflexivity. Qed.

(** A request above the largest entry selects the reserved index 9. *)
Example bw_index_500000 : bw_index bws 0 500000 9 = 9.
Proof. reflexivity. Qed.

End Bandwidth.

(** ** Loops *)

Section Loops.

Context {B : Type} `{SpiDevice B}.

Lemma bind_ext {A C} (m : M (LoRa B) A) (k1 k2 : A -> M (LoRa B) C) s :
  (forall a s', k1 a s' = k2 a s') -> bind m k1 s = bind m k2 s.
Proof.
  intros Hk. unfold bind. destruct (m s) as [[a | e] s']; [apply Hk | reflexivity].
Qed.

(** The loop of [write_packet], [for i in range(len(b))] over [b[i]], visits
    the bytes of [b] in order. *)
Lemma for_each_index (pre b : list byte) (f : Z -> M (LoRa B) unit) s :
  for_each (map Z.of_nat (seq (length pre) (length b)))
           (fun i => x <- index (pre ++ b) i ;; f x) s
  = for_each b (fun x => f (int_from_bytes x)) s.
Proof.
  revert pre s. induction b as [| x b IH]; intros pre s; [reflexivity |].
  cbn [length seq map for_each].
  assert (@index B (pre ++ x :: b) (Z.of_nat (length pre))
          = ret (int_from_bytes x)) as Hidx.
  { unfold index. rewrite Nat2Z.id.
    rewrite nth_error_app2 by lia. rewrite Nat.sub_diag. reflexivity. }
  rewrite Hidx.
  etransitivity; [| apply bind_ext; intros a s'; apply (IH (pre ++ [x]) s')].
  rewrite length_app, Nat.add_1_r, <- app_assoc. reflexivity.
Qed.

Lemma for_each_range_index (b : list byte) (f : Z -> M (LoRa B) unit) s :
  for_each (range (Z.of_nat (length b))) (fun i => x <- index b i ;; f x) s
  = for_each b (fun x => f (int_from_bytes x)) s.
Proof.
  unfold range. rewrite Nat2Z.id. apply (for_each_index [] b f s).
Qed.

End Loops.

(** ** The buffer window of the simulated transceiver *)

Section SimBuffer.

Import Sim.

Lemma int_byte_of_Z_mod (z : Z) : int_from_bytes (byte_of_Z z) = z mod 256.
Proof.
  assert (byte_of_Z z = byte_of_Z (z mod 256)) as ->.
  { unfold byte_of_Z. rewrite Z.mod_mod by lia. reflexivity. }
  apply int_byte_of_Z. apply Z.mod_pos_bound. lia.
Qed.

Lemma write_fifo_rest (x : byte) (c : chip) :
  rest (write_reg REG_FIFO x c)
  = mkChip 1 None
           (<[REG_FIFO_ADDR_PTR := byte_of_Z (reg REG_FIFO_ADDR_PTR c + 1)]>
              (regs c))
           (<[reg REG_FIFO_ADDR_PTR c := x]> (fifo c))
           (writes c ++ [(REG_FIFO, x)]).
Proof. reflexivity. Qed.

Lemma ptr_write_fifo (x : byte) (c : chip) :
  reg REG_FIFO_ADDR_PTR (rest (write_reg REG_FIFO x c))
  = (reg REG_FIFO_ADDR_PTR c + 1) mod 256.
Proof.
  rewrite write_fifo_rest. unfold reg at 1. cbn [regs].
  rewrite lookup_total_insert_eq. apply int_byte_of_Z_mod.
Qed.

Lemma writes_push (xs : list byte) (c : chip) :
  writes (push xs c) = writes c ++ map (fun x => (REG_FIFO, x)) xs.
Proof.
  revert c. induction xs as [| x xs IH]; intros c; cbn [push map].
  - rewrite app_nil_r. reflexivity.
  - rewrite IH, write_fifo_rest. cbn [writes]. rewrite <- app_assoc.
    reflexivity.
Qed.

Lemma regs_push (xs : list byte) (c : chip) (r : Z) :
  r <> REG_FIFO_ADDR_PTR -> regs (push xs c) !!! r = regs c !!! r.
Proof.
  intros Hr. revert c. induction xs as [| x xs IH]; intros c; cbn [push].
  - reflexivity.
  - rewrite IH, write_fifo_rest. cbn [regs].
    apply lookup_total_insert_ne. congruence.
Qed.

Lemma ptr_push (xs : list byte) (c : chip) :
  reg REG_FIFO_ADDR_PTR (push xs c)
  = (reg REG_FIFO_ADDR_PTR c + Z.of_nat (length xs)) mod 256.
Proof.
  revert c. induction xs as [| x xs IH]; intros c; cbn [push length].
  - rewrite Z.add_0_r. symmetry. apply Z.mod_small. apply reg_range.
  - rewrite IH, ptr_write_fifo.
    rewrite Zplus_mod_idemp_l. f_equal. lia.
Qed.

(** Pushing bytes leaves every buffer address outside the pushed window as
    it was. *)
Lemma buf_push_other (xs : list byte) (c : chip) (a : Z) :
  (forall k, 0 <= k < Z.of_nat (length xs) ->
             a <> (reg REG_FIFO_ADDR_PTR c + k) mod 256) ->
  buf a (push xs c) = buf a c.
Proof.
  revert c. induction xs as [| x xs IH]; intros c Ha; cbn [push].
  - reflexivity.
  - rewrite IH.
    + rewrite write_fifo_rest. unfold buf. cbn [fifo].
      apply lookup_total_insert_ne.
      specialize (Ha 0 ltac:(cbn [length]; lia)).
      rewrite Z.add_0_r, Z.mod_small in Ha by apply reg_range. congruence.
    + intros k Hk. rewrite ptr_write_fifo, Zplus_mod_idemp_l.
      specialize (Ha (1 + k) ltac:(cbn [length]; lia)).
      replace (reg REG_FIFO_ADDR_PTR c + 1 + k)
        with (reg REG_FIFO_ADDR_PTR c + (1 + k)) by lia.
      exact Ha.
Qed.

(** After pushing at most 256 bytes, the buffer holds them from the old
    pointer on. *)
Lemma buf_push (xs : list byte) (c : chip) (i : nat) (x : byte) :
  (length xs <= 256)%nat -> nth_error xs i = Some x ->
  buf ((reg REG_FIFO_ADDR_PTR c + Z.of_nat i) mod 256) (push xs c) = x.
Proof.
  revert c i. induction xs as [| y xs IH]; intros c i Hlen Hi.
  - destruct i; discriminate.
  - cbn [push]. cbn [length] in Hlen.
    pose proof (reg_range REG_FIFO_ADDR_PTR c) as Hp.
    pose proof (ptr_write_fifo y c) as Hptr.
    destruct i as [| i].
    + cbn in Hi. injection Hi as ->.
      rewrite Z.add_0_r, Z.mod_small by exact Hp.
      rewrite buf_push_other.
      * rewrite write_fifo_rest. unfold buf. cbn [fifo].
        apply lookup_total_insert_eq.
      * intros k Hk. rewrite Hptr, Zplus_mod_idemp_l.
        intros Heq.
        assert ((reg REG_FIFO_ADDR_PTR c + 1 + k) mod 256
                = (reg REG_FIFO_ADDR_PTR c + (1 + k)) mod 256) as E
            by (f_equal; lia).
        rewrite E in Heq. clear E.
        destruct (Z.lt_ge_cases (reg REG_FIFO_ADDR_PTR c + (1 + k)) 256)
          as [Hlt | Hge].
        -- rewrite Z.mod_small in Heq by lia. lia.
        -- replace (reg REG_FIFO_ADDR_PTR c + (1 + k))
             with ((reg REG_FIFO_ADDR_PTR c + (1 + k) - 256) + 1 * 256)
             in Heq by lia.
           rewrite Z_mod_plus_full, Z.mod_small in Heq by lia. lia.
    + cbn [nth_error] in Hi.
      specialize (IH (rest (write_reg REG_FIFO y c)) i ltac:(lia) Hi).
      rewrite Hptr, Zplus_mod_idemp_l in IH.
      replace (reg REG_FIFO_ADDR_PTR c + Z.of_nat (S i))
        with (reg REG_FIFO_ADDR_PTR c + 1 + Z.of_nat i) by lia.
      exact IH.
Qed.

Lemma window_push (xs : list byte) (c : chip) :
  (length xs <= 256)%nat ->
  window (reg REG_FIFO_ADDR_PTR c) (Z.of_nat (length xs)) (push xs c) = xs.
Proof.
  intros Hlen. unfold window, range. rewrite Nat2Z.id, map_map.
  apply nth_error_ext. intros i.
  rewrite nth_error_map. destruct (nth_error xs i) as [x |] eqn:Hi.
  - assert (i < length xs)%nat as Hlt.
    { apply nth_error_Some. congruence. }
    rewrite nth_error_seq. 
    destruct (Nat.ltb_spec i (length xs)) as [_ | Hge]; [| lia].
    cbn [option_map Nat.add]. f_equal. apply buf_push; assumption.
  - apply nth_error_None in Hi. rewrite nth_error_seq.
    destruct (Nat.ltb_spec i (length xs)) as [Hlt | _]; [lia |]. reflexivity.
Qed.

(** The loop of [write_packet] on the simulated transceiver. *)
Lemma sim_push (b : list byte) (s : LoRa chip) :
  for_each b (fun x => _write REG_FIFO (int_from_bytes x)) s
  = (Ok tt, with_hw (push b) s).
Proof.
  revert s. induction b as [| x b IH]; intros s; cbn [for_each].
  - destruct s. reflexivity.
  - erewrite bind_Ok.
    2: { apply sim_write; [reg_side | apply int_from_bytes_range]. }
    rewrite IH. rewrite byte_of_Z_int. reflexivity.
Qed.

End SimBuffer.

(** ** Packet assembly (lines 81-101) *)

Section Transmit.

Import Sim.

Lemma window_fifo (a n : Z) (c1 c2 : chip) :
  fifo c1 = fifo c2 -> window a n c1 = window a n c2.
Proof. intros Hf. unfold window, buf. rewrite Hf. reflexivity. Qed.

(** [begin_packet] writes standby mode, then zero to the buffer pointer and
    to the payload length. *)
Lemma begin_packet_sim (s : LoRa chip) :
  begin_packet s
  = (Ok tt,
     with_hw (written [(REG_OP_MODE, x81); (REG_FIFO_ADDR_PTR, x00);
                       (REG_PAYLOAD_LENGTH, x00)]) s).
Proof.
  unfold begin_packet, standby. do 2 step_write.
  rewrite sim_write by reg_side. same_chip.
Qed.

(** C3: after [begin_packet] the tracked payload length is 0.  A
    [write_packet] call that keeps the tracked total within
    [255 - TX_BASE_ADDR], the bound itself included, succeeds: it writes its
    bytes in order to the buffer register and then the new total to the
    payload-length register.  A call that would exceed the bound raises
    [ValueError] (the specification's PayloadTooLargeError) after the single
    register read: no write is issued, and the registers, the buffer and the
    write log are as before. *)
Theorem write_packet_spec (s : LoRa chip) (b : list byte) :
  let n := reg REG_PAYLOAD_LENGTH (hw s) in
  let p := reg REG_FIFO_ADDR_PTR (hw s) in
  let m := Z.of_nat (length b) in
  (fst (begin_packet s) = Ok tt /\
   reg REG_PAYLOAD_LENGTH (hw (snd (begin_packet s))) = 0) /\
  (n + m <= 255 - TX_BASE_ADDR ->
   exists c',
     write_packet b s = (Ok tt, with_hw (fun _ => c') s) /\
     writes c' = writes (hw s) ++ map (fun x => (REG_FIFO, x)) b
                        ++ [(REG_PAYLOAD_LENGTH, byte_of_Z (n + m))] /\
     reg REG_PAYLOAD_LENGTH c' = n + m /\
     window p m c' = b) /\
  (255 - TX_BASE_ADDR < n + m ->
   write_packet b s
   = (Raise (ValueError "Max payload length is 255"), with_hw rest s)).
Proof.
  intros n p m. split; [| split].
  - rewrite begin_packet_sim. split; [reflexivity |].
    unfold reg, written. cbn [snd hw with_hw fold_left regs fst].
    rewrite lookup_total_insert_eq. reflexivity.
  - intros Hfit. unfold write_packet. step_read. fold n m.
    assert ((n + m >? MAX_PKT_LENGTH - TX_BASE_ADDR) = false) as ->.
    { rewrite Z.gtb_ltb. apply Z.ltb_ge. reg_side. }
    erewrite bind_Ok.
    2: { unfold m. rewrite for_each_range_index. apply sim_push. }
    pose proof (reg_range REG_PAYLOAD_LENGTH (hw s)) as Hn. fold n in Hn.
    assert (0 <= n + m < 256) as Hnm by (unfold TX_BASE_ADDR in Hfit; lia).
    rewrite sim_write by (try exact Hnm; reg_side).
    eexists. split; [reflexivity |].
    rewrite write_reg_plain by reg_side. cbn [rest writes regs fifo hw with_hw].
    split; [| split].
    + rewrite writes_push. cbn [rest writes]. rewrite <- app_assoc.
      reflexivity.
    + unfold reg. cbn [rest regs]. rewrite lookup_total_insert_eq.
      apply int_byte_of_Z. exact Hnm.
    + erewrite window_fifo; [apply (window_push b (rest (hw s))); lia |].
      reflexivity.
  - intros Hbig. unfold write_packet. step_read. fold n m.
    assert ((n + m >? MAX_PKT_LENGTH - TX_BASE_ADDR) = true) as ->.
    { apply Z.gtb_gt. reg_side. }
    reflexivity.
Qed.

End Transmit.

Section TransmitExamples.

Import Sim.

(** After [begin_packet], 255 bytes are accepted and 256 are refused. *)
Lemma write_packet_spec_witness :
  let s := snd (begin_packet (lora_on (power_on [] []) 868.0 false)) in
  (exists c',
      write_packet (repeat x41 255) s = (Ok tt, with_hw (fun _ => c') s) /\
      reg REG_PAYLOAD_LENGTH c' = 255 /\
      window 0 255 c' = repeat x41 255) /\
  write_packet (repeat x41 256) s
  = (Raise (ValueError "Max payload length is 255"), with_hw rest s).
Proof.
  cbv zeta. split.
  - destruct (write_packet_spec
                (snd (begin_packet (lora_on (power_on [] []) 868.0 false)))
                (repeat x41 255)) as (_ & Hfit & _).
    destruct (Hfit ltac:(vm_compute; discriminate))
      as (c' & Hrun & _ & Hlen & Hwin).
    exists c'. split; [exact Hrun |]. split; [exact Hlen | exact Hwin].
  - destruct (write_packet_spec
                (snd (begin_packet (lora_on (power_on [] []) 868.0 false)))
                (repeat x41 256)) as (_ & _ & Hbig).
    apply Hbig. vm_compute. reflexivity.
Defined.

End TransmitExamples.

(** ** Reception (lines 208-224) *)

Section Receive.

Import Sim.

Lemma read_fifo_rest (c : chip) :
  rest (fst (read_reg REG_FIFO c))
  = mkChip 1 None
           (<[REG_FIFO_ADDR_PTR := byte_of_Z (reg REG_FIFO_ADDR_PTR c + 1)]>
              (regs c))
           (fifo c) (writes c).
Proof. reflexivity. Qed.

Lemma ptr_read_fifo (c : chip) :
  reg REG_FIFO_ADDR_PTR (rest (fst (read_reg REG_FIFO c)))
  = (reg REG_FIFO_ADDR_PTR c + 1) mod 256.
Proof.
  rewrite read_fifo_rest. unfold reg at 1. cbn [regs].
  rewrite lookup_total_insert_eq. apply int_byte_of_Z_mod.
Qed.

Lemma fifo_pull (k : nat) (c : chip) : fifo (pull k c) = fifo c.
Proof.
  revert c. induction k as [| k IH]; intros c; cbn [pull]; [reflexivity |].
  rewrite IH, read_fifo_rest. reflexivity.
Qed.

Lemma writes_pull (k : nat) (c : chip) : writes (pull k c) = writes c.
Proof.
  revert c. induction k as [| k IH]; intros c; cbn [pull]; [reflexivity |].
  rewrite IH, read_fifo_rest. reflexivity.
Qed.

Lemma regs_pull (k : nat) (c : chip) (r : Z) :
  r <> REG_FIFO_ADDR_PTR -> regs (pull k c) !!! r = regs c !!! r.
Proof.
  intros Hr. revert c. induction k as [| k IH]; intros c; cbn [pull].
  - reflexivity.
  - rewrite IH, read_fifo_rest. cbn [regs].
    apply lookup_total_insert_ne. congruence.
Qed.

Lemma window_succ (a : Z) (k : nat) (c : chip) :
  0 <= a < 256 ->
  window a (Z.of_nat (S k)) c
  = buf a c :: window ((a + 1) mod 256) (Z.of_nat k) c.
Proof.
  intros Ha. unfold window, range. rewrite !Nat2Z.id. cbn [seq map].
  f_equal.
  - rewrite Z.add_0_r, Z.mod_small by exact Ha. reflexivity.
  - rewrite <- seq_shift, !map_map. apply map_ext. intros i.
    rewrite Zplus_mod_idemp_l. do 2 f_equal. lia.
Qed.

(** The loop of [_read_payload] on the simulated transceiver: [k] reads of
    the buffer register append the [k] bytes under the pointer. *)
Lemma sim_pull (xs : list Z) (acc : list byte) (s : LoRa chip) :
  for_fold xs (fun _ payload => v <- _read REG_FIFO ;; append payload v) acc s
  = (Ok (acc ++ window (reg REG_FIFO_ADDR_PTR (hw s))
                       (Z.of_nat (length xs)) (hw s)),
     with_hw (pull (length xs)) s).
Proof.
  revert acc s. induction xs as [| x xs IH]; intros acc s.
  - cbn [for_fold length pull]. unfold window, range. cbn [Z.to_nat Z.of_nat seq map].
    rewrite app_nil_r. destruct s. reflexivity.
  - cbn [for_fold length].
    erewrite bind_Ok.
    2: { erewrite bind_Ok by apply sim_read_fifo.
         unfold append, bytes_of. rewrite bytes1_int_from_bytes. reflexivity. }
    rewrite IH.
    rewrite (window_succ _ _ _ (reg_range REG_FIFO_ADDR_PTR (hw s))).
    rewrite <- app_assoc. cbn [app hw with_hw].
    change (set_reg REG_FIFO_ADDR_PTR
              (byte_of_Z (reg REG_FIFO_ADDR_PTR (hw s) + 1)) (hw s))
      with (fst (read_reg REG_FIFO (hw s))).
    rewrite ptr_read_fifo.
    rewrite (window_fifo _ _ (rest (fst (read_reg REG_FIFO (hw s)))) (hw s))
      by reflexivity.
    reflexivity.
Qed.

End Receive.

Section Interrupt.

Import Sim.

Lemma regs_write_other (r r' : Z) (d : byte) (c : chip) :
  r <> REG_FIFO -> r' <> r -> regs (write_reg r d c) !!! r' = regs c !!! r'.
Proof.
  intros H0 Hne. unfold write_reg.
  destruct (Z.eqb_spec r REG_FIFO); [contradiction |].
  destruct (Z.eqb_spec r REG_IRQ_FLAGS); cbn [set_reg regs];
    apply lookup_total_insert_ne; congruence.
Qed.

Lemma fifo_write_other (r : Z) (d : byte) (c : chip) :
  r <> REG_FIFO -> fifo (write_reg r d c) = fifo c.
Proof.
  intros H0. unfold write_reg.
  destruct (Z.eqb_spec r REG_FIFO); [contradiction |].
  destruct (Z.eqb_spec r REG_IRQ_FLAGS); reflexivity.
Qed.

Lemma reg_write_other (r r' : Z) (d : byte) (c : chip) :
  r <> REG_FIFO -> r' <> r -> reg r' (rest (write_reg r d (rest c))) = reg r' c.
Proof.
  intros H0 Hne. unfold reg. cbn [rest regs].
  rewrite regs_write_other by assumption. reflexivity.
Qed.

(** [_get_irq_flags] returns the flags register and writes the value back. *)
Lemma get_irq_flags_sim (s : LoRa chip) :
  _get_irq_flags s
  = (Ok (reg REG_IRQ_FLAGS (hw s)),
     with_hw (fun c => rest (write_reg REG_IRQ_FLAGS
                               (byte_of_Z (reg REG_IRQ_FLAGS c)) (rest c))) s).
Proof.
  unfold _get_irq_flags. step_read.
  erewrite bind_Ok by (apply sim_write; [reg_side | apply reg_range]).
  reflexivity.
Qed.

(** [_read_payload] points the buffer pointer at the current receive address
    and returns the bytes of the buffer from there on, as many as the length
    register of the header mode says. *)
Lemma read_payload_sim (s : LoRa chip) (imp : bool) :
  _implicit s = Some imp ->
  let a := reg REG_FIFO_RX_CURRENT_ADDR (hw s) in
  let n := if imp then reg REG_PAYLOAD_LENGTH (hw s)
           else reg REG_RX_NB_BYTES (hw s) in
  _read_payload s
  = (Ok (window a n (hw s)),
     with_hw (fun c => pull (Z.to_nat n)
                         (rest (write_reg REG_FIFO_ADDR_PTR (byte_of_Z a)
                                          (rest c)))) s).
Proof.
  intros Himp a n. unfold _read_payload. step_read. fold a.
  erewrite bind_Ok by (apply sim_write; [reg_side | apply reg_range]).
  erewrite bind_Ok by (unfold attr; cbn [_implicit with_hw]; rewrite Himp;
                       reflexivity).
  set (s2 := with_hw (fun c => rest (write_reg REG_FIFO_ADDR_PTR
                                       (byte_of_Z a) c)) (with_hw rest s)).
  assert ((if imp then _read REG_PAYLOAD_LENGTH else _read REG_RX_NB_BYTES) s2
          = (Ok n, with_hw rest s2)) as Hlen.
  { unfold n. destruct imp.
    - rewrite sim_read by reg_side.
      replace (reg REG_PAYLOAD_LENGTH (hw s2))
        with (reg REG_PAYLOAD_LENGTH (hw s)); [reflexivity |].
      symmetry.
      apply (reg_write_other REG_FIFO_ADDR_PTR REG_PAYLOAD_LENGTH);
        reg_side.
    - rewrite sim_read by reg_side.
      replace (reg REG_RX_NB_BYTES (hw s2))
        with (reg REG_RX_NB_BYTES (hw s)); [reflexivity |].
      symmetry.
      apply (reg_write_other REG_FIFO_ADDR_PTR REG_RX_NB_BYTES); reg_side. }
  erewrite bind_Ok by exact Hlen.
  rewrite sim_pull. rewrite length_range.
  assert (0 <= n < 256) as Hn by (unfold n; destruct imp; apply reg_range).
  rewrite Z2Nat.id by lia. cbn [app].
  assert (reg REG_FIFO_ADDR_PTR (hw (with_hw rest s2)) = a) as ->.
  { unfold s2, reg. cbn [hw with_hw rest regs].
    rewrite write_reg_plain by reg_side. cbn [regs].
    rewrite lookup_total_insert_eq. apply int_byte_of_Z. apply reg_range. }
  rewrite (window_fifo a n (hw (with_hw rest s2)) (hw s)); [reflexivity |].
  unfold s2. cbn [hw with_hw rest fifo].
  rewrite fifo_write_other by reg_side. reflexivity.
Qed.

(** C2: on a receive interrupt, when the payload-CRC-error bit of the
    IRQ-flags register is set, nothing is delivered and the handler returns
    normally; when the bit is clear and a callback is subscribed, the
    callback is called exactly once, with the bytes of the chip buffer that
    start at the current receive address, as many as the payload-length
    register says in implicit-header mode and as the received-byte-count
    register says otherwise. *)
Theorem irq_recv_spec (s : LoRa chip) (cb : callable) (imp : bool) :
  _on_recv s = Some cb -> _implicit s = Some imp ->
  let f := reg REG_IRQ_FLAGS (hw s) in
  let a := reg REG_FIFO_RX_CURRENT_ADDR (hw s) in
  let n := if imp then reg REG_PAYLOAD_LENGTH (hw s)
           else reg REG_RX_NB_BYTES (hw s) in
  (Z.land f IRQ_PAYLOAD_CRC_ERROR_MASK <> 0 ->
   exists s', _irq_recv s = (Ok tt, s') /\ delivered s' = delivered s) /\
  (Z.land f IRQ_PAYLOAD_CRC_ERROR_MASK = 0 ->
   forall id, cb = PyFun id ->
   exists s',
     _irq_recv s = (Ok tt, s') /\
     delivered s' = delivered s ++ [(id, window a n (hw s))]).
Proof.
  intros Hcb Himp f a n. split.
  - intros Hcrc. unfold _irq_recv.
    erewrite bind_Ok by apply get_irq_flags_sim. fold f.
    destruct (Z.eqb_spec (Z.land f IRQ_PAYLOAD_CRC_ERROR_MASK) 0)
      as [E | _]; [contradiction |].
    eexists. split; reflexivity.
  - intros Hok id ->. unfold _irq_recv.
    erewrite bind_Ok by apply get_irq_flags_sim. fold f.
    rewrite Hok. cbn [Z.eqb].
    erewrite bind_Ok by (unfold attr; cbn [_on_recv with_hw]; rewrite Hcb;
                         reflexivity).
    cbn [truthy].
    erewrite bind_Ok by (apply (read_payload_sim _ imp); exact Himp).
    cbn [hw with_hw].
    rewrite !(reg_write_other REG_IRQ_FLAGS) by reg_side.
    fold a n.
    eexists. split; [reflexivity |].
    cbn [call modify delivered with_delivered with_hw snd].
    rewrite (window_fifo a n _ (hw s)); [reflexivity |].
    cbn [rest fifo]. rewrite fifo_write_other by reg_side. reflexivity.
Qed.

End Interrupt.

Section InterruptExamples.

Import Sim.

(** A packet of three bytes at buffer address [0x10], explicit-header mode:
    with flags [0x40] it is delivered once, with flags [0x60] (CRC error) it
    is dropped. *)
Lemma irq_recv_spec_witness :
  let mem := [(0x10, x41); (0x11, x42); (0x12, x43)] in
  let good := power_on [(REG_IRQ_FLAGS, x40); (REG_FIFO_RX_CURRENT_ADDR, x10);
                        (REG_RX_NB_BYTES, x03)] mem in
  let bad := power_on [(REG_IRQ_FLAGS, x60); (REG_FIFO_RX_CURRENT_ADDR, x10);
                       (REG_RX_NB_BYTES, x03)] mem in
  (exists s', _irq_recv (lora_subscribed good false 7) = (Ok tt, s') /\
              delivered s' = [(7%nat, [x41; x42; x43])]) /\
  (exists s', _irq_recv (lora_subscribed bad false 7) = (Ok tt, s') /\
              delivered s' = []).
Proof.
  cbv zeta. split.
  - destruct (irq_recv_spec
                (lora_subscribed
                   (power_on [(REG_IRQ_FLAGS, x40);
                              (REG_FIFO_RX_CURRENT_ADDR, x10);
                              (REG_RX_NB_BYTES, x03)]
                             [(0x10, x41); (0x11, x42); (0x12, x43)])
                   false 7)
                (PyFun 7) false eq_refl eq_refl) as [_ Hgood].
    destruct (Hgood ltac:(vm_compute; reflexivity) 7%nat eq_refl)
      as (s' & Hrun & Hd).
    exists s'. split; [exact Hrun |]. rewrite Hd. vm_compute. reflexivity.
  - destruct (irq_recv_spec
                (lora_subscribed
                   (power_on [(REG_IRQ_FLAGS, x60);
                              (REG_FIFO_RX_CURRENT_ADDR, x10);
                              (REG_RX_NB_BYTES, x03)]
                             [(0x10, x41); (0x11, x42); (0x12, x43)])
                   false 7)
                (PyFun 7) false eq_refl eq_refl) as [Hbad _].
    destruct (Hbad ltac:(vm_compute; discriminate)) as (s' & Hrun & Hd).
    exists s'. split; [exact Hrun |]. rewrite Hd. reflexivity.
Defined.

End InterruptExamples.

(** ** Frequency (lines 138-144) *)

Section Frequency.

Import Sim.


Lemma half_step : (FRF_HALF_STEP == FRF_STEP / 2)%Q.
Proof. reflexivity. Qed.




(** The three bytes of lines 142-144 hold the low 24 bits of [x]. *)
Lemma frf_bytes (x : Z) :
  Z.land (Z.shiftr x 16) 0xff * 65536 + Z.land (Z.shiftr x 8) 0xff * 256
  + Z.land x 0xff = x mod 16777216.
Proof.
  change 0xff with (Z.ones 8). rewrite !Z.land_ones by lia.
  rewrite !Z.shiftr_div_pow2 by lia.
  change (2 ^ 16) with 65536. change (2 ^ 8) with 256.
  Z.to_euclidean_division_equations. lia.
Qed.

Lemma land_ff_range (x : Z) : 0 <= Z.land x 0xff < 256.
Proof.
  change 0xff with (Z.ones 8). rewrite Z.land_ones by lia.
  apply Z.mod_pos_bound. lia.
Qed.

(** When line 141 gives the step count [x], [set_frequency] caches the
    request and writes the three bytes. *)
Lemma set_frequency_sim (s : LoRa chip) (f : float) (x : Z) :
  frf_steps f = Ok x ->
  set_frequency f s
  = (Ok tt,
     with_hw (written
                [(REG_FRF_MSB, byte_of_Z (Z.land (Z.shiftr x 16) 0xff));
                 (REG_FRF_MID, byte_of_Z (Z.land (Z.shiftr x 8) 0xff));
                 (REG_FRF_LSB, byte_of_Z (Z.land x 0xff))])
             (with_frequency f s)).
Proof.
  intros Hx. unfold set_frequency. erewrite bind_Ok by reflexivity.
  erewrite bind_Ok by (unfold lift; rewrite Hx; reflexivity).
  erewrite bind_Ok by (apply sim_write; [reg_side | apply land_ff_range]).
  erewrite bind_Ok by (apply sim_write; [reg_side | apply land_ff_range]).
  rewrite sim_write; [same_chip | reg_side | apply land_ff_range].
Qed.

(** When [round] raises on line 141, [set_frequency] has cached the request
    and touches the device not at all. *)
Lemma set_frequency_raises (s : LoRa chip) (f : float) (e : exn) :
  frf_steps f = Raise e ->
  set_frequency f s = (Raise e, with_frequency f s).
Proof.
  intros He. unfold set_frequency. erewrite bind_Ok by reflexivity.
  erewrite bind_Raise; [reflexivity |]. unfold lift. rewrite He. reflexivity.
Qed.



End Frequency.

Section FrequencyExamples.

Import Sim.



(** Rounding in binary32 can cost a whole step.  868.00067138671875 MHz is
    a float, and it is 14221323 steps exactly; the product with
    [1000000.0] rounds down, the quotient lands below 14221322.5, and the
    registers receive 14221322: the decoded frequency is one step,
    61.03515625 Hz, below the request. *)
Lemma set_frequency_rounding_loses_a_step :
  let f := 868.00067138671875%F in
  let s' := snd (set_frequency f (lora_on (power_on [] []) 915.0 false)) in
  exists q,
    Float.real f = Some q /\
    (q == 868.00067138671875)%Q /\
    round_half_even (q * 1000000 / FRF_STEP) = 14221323 /\
    frf_steps f = Ok 14221322 /\
    frf_stored (hw s') = 14221322 /\
    (q * 1000000 - frf_decode (frf_stored (hw s')) == FRF_STEP)%Q /\
    ~ (q * 1000000 - FRF_HALF_STEP <= frf_decode (frf_stored (hw s')))%Q.
Proof.
  cbv zeta. eexists. split; [reflexivity |].
  split; [vm_compute; reflexivity |].
  split; [vm_compute; reflexivity |].
  split; [vm_compute; reflexivity |].
  split; [vm_compute; reflexivity |].
  split; [vm_compute; reflexivity |].
  intros Hle. vm_compute in Hle. apply Hle. reflexivity.
Qed.

(** Between 868 and 869 MHz the floats are [2^-14] MHz apart, which is one
    step: every frequency there is a whole number [m] of steps.  The
    registers receive [m - 1], [m] or [m + 1], so the decoded frequency is
    within one step of the request. *)
Lemma set_frequency_868_band (m : positive) :
  868 * 16384 <= Zpos m <= 869 * 16384 ->
  let f := S754_finite false m (-14) in
  Float.valid f = true /\
  (exists q, Float.real f = Some q /\ (868 <= q <= 869)%Q /\
             (q * 1000000 == frf_decode (Zpos m))%Q) /\
  exists x, frf_steps f = Ok x /\ Zpos m - 1 <= x <= Zpos m + 1.
Proof.
  intros Hm. cbv zeta.
  assert (all_from within_one_step (868 * 16384) (Z.to_nat 16385) = true)
    as Hall by (vm_compute; reflexivity).
  pose proof (all_from_spec _ _ _ Hall (Zpos m) ltac:(lia)) as H1.
  unfold within_one_step in H1. cbn [Z.to_pos] in H1.
  apply andb_true_iff in H1. destruct H1 as [Hv Hx].
  split; [exact Hv |]. split.
  - eexists. split; [reflexivity |]. cbn [Float.scale].
    unfold Qle, Qeq, frf_decode, FRF_STEP. cbn. lia.
  - destruct (frf_steps (S754_finite false m (-14))) as [x | e];
      [| discriminate].
    exists x. split; [reflexivity |].
    apply andb_true_iff in Hx. destruct Hx as [Hlo Hhi].
    apply Z.leb_le in Hlo. apply Z.leb_le in Hhi. lia.
Qed.

(** The bound of half a step is attained, and it is about 30.5 Hz: for
    433 + 2^-15 MHz the step count is 7094272 and the decoded frequency is
    30.517578125 Hz below the request, far more than 0.03 Hz. *)
Lemma half_step_attained :
  let f := 433.000030517578125%F in
  exists q,
    Float.real f = Some q /\
    (q == 433.000030517578125)%Q /\
    frf_steps f = Ok 7094272 /\
    (q * 1000000 - frf_decode 7094272 == FRF_HALF_STEP)%Q /\
    ~ (q * 1000000 - frf_decode 7094272 <= 0.03)%Q.
Proof.
  cbv zeta. eexists. split; [reflexivity |].
  split; [vm_compute; reflexivity |].
  split; [vm_compute; reflexivity |].
  split; [vm_compute; reflexivity |].
  intros Hle. vm_compute in Hle. apply Hle. reflexivity.
Qed.

(** A frequency whose product with [1000000.0] overflows binary32 makes
    [round] raise: [set_frequency] has cached the request, and no register
    write has been issued. *)
Lemma set_frequency_overflow :
  let s := lora_on (power_on [] []) 915.0 false in
  Float.valid 1e33 = true /\
  set_frequency 1e33 s
  = (Raise (OverflowError "can't convert inf to int"),
     with_frequency 1e33 s) /\
  writes (hw (snd (set_frequency 1e33 s))) = [].
Proof.
  cbv zeta. split; [reflexivity |]. split; vm_compute; reflexivity.
Qed.

End FrequencyExamples.

(** ** Construction (lines 55-79) *)

Section Construction.

Import Sim.

Variable b0 : bool.
Variable k : nat.

Local Abbreviation keeps := (keeps_bit0 b0 k).
Local Abbreviation Safe := (safe b0 k).

(** [keeps_bit0] looks at the registers and the write log only. *)
Lemma keeps_same (c c' : chip) :
  regs c' = regs c -> writes c' = writes c -> keeps c -> keeps c'.
Proof.
  intros Hr Hw (Hk & Hbit & Hall). unfold keeps_bit0, reg.
  rewrite Hr, Hw. auto.
Qed.

Lemma keeps_write (r x : Z) (c : chip) :
  r <> REG_FIFO -> r <> REG_IRQ_FLAGS -> 0 <= x < 256 ->
  (r = REG_MODEM_CONFIG_1 -> Z.testbit x 0 = b0) ->
  keeps c -> keeps (rest (write_reg r (byte_of_Z x) c)).
Proof.
  intros H0 H1 Hx Hbit0 (Hk & Hbit & Hall).
  rewrite write_reg_plain by assumption. unfold keeps_bit0, reg.
  cbn [rest regs writes]. split; [| split].
  - rewrite length_app. lia.
  - destruct (Z.eq_dec r REG_MODEM_CONFIG_1) as [-> | Hne].
    + rewrite lookup_total_insert_eq, int_byte_of_Z by exact Hx. auto.
    + rewrite lookup_total_insert_ne by exact Hne. exact Hbit.
  - rewrite skipn_app.
    replace (k - length (writes c))%nat with 0%nat by lia.
    cbn [skipn]. apply Forall_app. split; [exact Hall |].
    constructor; [| constructor]. cbn [fst snd]. intros Hr.
    rewrite int_byte_of_Z by exact Hx. auto.
Qed.

Lemma safe_bind {A C} (m : M (LoRa chip) A) (n : A -> M (LoRa chip) C)
      (F : A -> Prop) (G : C -> Prop) :
  Safe m F -> (forall a, F a -> Safe (n a) G) -> Safe (bind m n) G.
Proof.
  intros Hm Hn s Hs. specialize (Hm s Hs). unfold bind.
  destruct (m s) as [[a | e] s']; cbn [fst snd] in *.
  - destruct Hm as [Hs' Ha]. apply (Hn a Ha s' Hs').
  - tauto.
Qed.

Lemma safe_ret {A} (a : A) (F : A -> Prop) : F a -> Safe (ret a) F.
Proof. intros Ha s Hs. split; assumption. Qed.

Lemma safe_raise {A} (e : exn) (F : A -> Prop) : Safe (raise e) F.
Proof. intros s Hs. split; [assumption | exact I]. Qed.

Lemma safe_modify (f : LoRa chip -> LoRa chip) :
  (forall s, hw (f s) = hw s) -> Safe (modify f) (fun _ => True).
Proof.
  intros Hf s Hs. unfold modify. cbn [fst snd]. rewrite Hf.
  split; [assumption | exact I].
Qed.

Lemma safe_lift {A} (o : outcome A) : Safe (lift o) (fun _ => True).
Proof.
  intros s Hs. unfold lift. cbn [fst snd]. split; [assumption |].
  destruct o; exact I.
Qed.

Lemma safe_attr {A} (name : string) (f : LoRa chip -> option A) :
  Safe (attr name f) (fun _ => True).
Proof.
  intros s Hs. unfold attr. destruct (f s); cbn [fst snd];
    split; try assumption; exact I.
Qed.

Lemma safe_weaken {A} (m : M (LoRa chip) A) (F G : A -> Prop) :
  Safe m F -> (forall a, F a -> G a) -> Safe m G.
Proof.
  intros Hm HFG s Hs. destruct (Hm s Hs) as [Hs' Ha]. split; [exact Hs' |].
  destruct (fst (m s)); auto.
Qed.

(** A register read keeps the invariant; what it returns is a byte value,
    and from modem-config register 1 a value with the invariant's bit. *)
Lemma safe_read (r : Z) :
  0 < r < 128 ->
  Safe (_read r)
       (fun v => 0 <= v < 256 /\
                 (r = REG_MODEM_CONFIG_1 -> Z.testbit v 0 = b0)).
Proof.
  intros Hr s Hs. rewrite sim_read by exact Hr. cbn [fst snd hw with_hw].
  split; [apply (keeps_same (hw s)); auto |].
  split; [apply reg_range |]. intros ->. destruct Hs as (_ & Hbit & _).
  exact Hbit.
Qed.

(** A register write keeps the invariant when, if it addresses modem-config
    register 1, the value has the invariant's bit; a value that is not a
    byte raises after the address byte, with no register changed. *)
Lemma safe_write (r x : Z) :
  0 < r < 128 -> r <> REG_IRQ_FLAGS ->
  (r = REG_MODEM_CONFIG_1 -> Z.testbit x 0 = b0) ->
  Safe (_write r x) (fun _ => True).
Proof.
  intros Hr H1 Hbit0 s Hs.
  destruct (Z.lt_ge_cases x 0) as [Hneg | Hpos];
    [| destruct (Z.lt_ge_cases x 256) as [Hlt | Hbig]].
  2: { rewrite sim_write by lia. cbn [fst snd hw with_hw].
       split; [| exact I].
       apply keeps_write; auto; unfold REG_FIFO; lia. }
  all: destruct (write_address r ltac:(lia)) as (a & Ha & _);
    unfold _write;
    erewrite bind_Raise
      by (apply _transfer_bad_data;
          [exact Ha | apply bytes1_out_of_range; lia]);
    cbn [fst snd hw with_hw]; split; [| exact I];
    apply (keeps_same (hw s)); [| | exact Hs];
    cbn; unfold address, select; cbn; reflexivity.
Qed.

End Construction.

(** Discharge the side conditions of [safe_write] for a register other than
    modem-config register 1. *)
Ltac safe_w :=
  apply safe_write;
  [ reg_side | reg_side
  | let E := fresh "E" in intros E; repeat autounfold with regs in E;
                          discriminate E ].

Ltac safe_then tac := eapply safe_bind; [tac | intros ? ?].

Section ConstructionSteps.

Import Sim.

Variable b0 : bool.
Variable k : nat.

Local Abbreviation Safe := (safe b0 k).

(** Lines 73-74: the flag is cached first, so [set_implicit] finds the
    cached value equal to the request and touches nothing. *)
Lemma init_implicit_no_write {B} `{SpiDevice B} (kw : Kw) (s : LoRa B) :
  init_implicit kw s
  = (Ok tt, with_implicit (kw_get (kw_implicit kw) false) s).
Proof.
  unfold init_implicit, set_implicit, bind, modify, attr.
  cbn [_implicit with_implicit]. rewrite Bool.eqb_reflx. reflexivity.
Qed.

Lemma safe_sleep : Safe sleep (fun _ => True).
Proof. unfold sleep. safe_w. Qed.

Lemma safe_standby : Safe standby (fun _ => True).
Proof. unfold standby. safe_w. Qed.

Lemma safe_set_frequency (f : float) :
  Safe (set_frequency f) (fun _ => True).
Proof.
  unfold set_frequency.
  safe_then ltac:(apply safe_modify; reflexivity).
  safe_then ltac:(apply safe_lift).
  safe_then safe_w. safe_then safe_w. safe_w.
Qed.

(** The values that [set_bandwidth] and [set_coding_rate] write keep bit 0
    of the value read. *)
Lemma bit0_bandwidth (v i : Z) :
  Z.testbit (Z.lor (Z.land v 0x0f) (Z.shiftl i 4)) 0 = Z.testbit v 0.
Proof.
  rewrite Z.lor_spec, Z.land_spec, Z.shiftl_spec_low by lia.
  change (Z.testbit 15 0) with true.
  rewrite andb_true_r, orb_false_r. reflexivity.
Qed.

Lemma bit0_coding_rate (v cr : Z) :
  Z.testbit (Z.lor (Z.land v 0xf1) (Z.shiftl cr 1)) 0 = Z.testbit v 0.
Proof.
  rewrite Z.lor_spec, Z.land_spec, Z.shiftl_spec_low by lia.
  change (Z.testbit 241 0) with true.
  rewrite andb_true_r, orb_false_r. reflexivity.
Qed.

Lemma safe_set_bandwidth (bw : Z) : Safe (set_bandwidth bw) (fun _ => True).
Proof.
  unfold set_bandwidth.
  safe_then ltac:(apply safe_modify; reflexivity).
  eapply safe_bind; [apply safe_read; reg_side |].
  intros v [_ Hv]. apply safe_write; [reg_side | reg_side |].
  intros _. rewrite bit0_bandwidth. apply Hv. reflexivity.
Qed.

Lemma safe_set_coding_rate (denom : Z) :
  Safe (set_coding_rate denom) (fun _ => True).
Proof.
  unfold set_coding_rate.
  eapply safe_bind; [apply safe_read; reg_side |].
  intros v [_ Hv]. apply safe_write; [reg_side | reg_side |].
  intros _. rewrite bit0_coding_rate. apply Hv. reflexivity.
Qed.

Lemma safe_set_spreading_factor (sf : Z) :
  Safe (set_spreading_factor sf) (fun _ => True).
Proof.
  unfold set_spreading_factor.
  destruct ((sf <? 6) || (sf >? 12)); [apply safe_raise |].
  safe_then safe_w. safe_then safe_w.
  safe_then ltac:(apply safe_read; reg_side). safe_w.
Qed.

Lemma safe_set_preamble_length (n : Z) :
  Safe (set_preamble_length n) (fun _ => True).
Proof. unfold set_preamble_length. safe_then safe_w. safe_w. Qed.

Lemma safe_set_crc (crc : bool) : Safe (set_crc crc) (fun _ => True).
Proof.
  unfold set_crc. safe_then ltac:(apply safe_read; reg_side). safe_w.
Qed.

Lemma safe_set_tx_power (level outputPin : Z) :
  Safe (set_tx_power level outputPin) (fun _ => True).
Proof.
  unfold set_tx_power. destruct (outputPin =? PA_OUTPUT_RFO_PIN); safe_w.
Qed.

Lemma safe_set_sync_word (sw : Z) : Safe (set_sync_word sw) (fun _ => True).
Proof. unfold set_sync_word. safe_w. Qed.

Lemma safe_init_implicit (kw : Kw) : Safe (init_implicit kw) (fun _ => True).
Proof.
  intros s Hs. rewrite init_implicit_no_write. cbn [fst snd].
  split; [exact Hs | exact I].
Qed.

Lemma safe_init_body (kw : Kw) : Safe (init_body kw) (fun _ => True).
Proof.
  unfold init_body.
  safe_then ltac:(apply safe_read; reg_side).
  destruct (negb (_ =? 0x12)); [apply safe_raise |].
  safe_then ltac:(apply safe_sleep).
  safe_then ltac:(apply safe_set_frequency).
  safe_then ltac:(apply safe_set_bandwidth).
  safe_then ltac:(apply safe_set_spreading_factor).
  safe_then ltac:(apply safe_set_coding_rate).
  safe_then ltac:(apply safe_set_preamble_length).
  safe_then ltac:(apply safe_set_crc).
  safe_then ltac:(apply safe_read; reg_side).
  safe_then safe_w. safe_then safe_w.
  safe_then ltac:(apply safe_set_tx_power).
  safe_then ltac:(apply safe_init_implicit).
  safe_then ltac:(apply safe_set_sync_word).
  safe_then ltac:(apply safe_modify; reflexivity).
  safe_then safe_w. safe_then safe_w.
  apply safe_standby.
Qed.

End ConstructionSteps.

Section ConstructionClaim.

Import Sim.

(** C10: for every constructor configuration, lines 73-74 cache the
    requested implicit-header flag and the call to [set_implicit] that
    follows changes neither the object nor the device.  Hence, whatever the
    configuration and whether construction completes or raises, bit 0 of
    modem-config register 1 is at the end what it was on the chip before,
    and every byte written to that register during construction carries
    that same bit. *)
Theorem init_implicit_never_programmed (c : chip) (kw : Kw) :
  (forall s : LoRa chip,
      init_implicit kw s
      = (Ok tt, with_implicit (kw_get (kw_implicit kw) false) s)) /\
  Z.testbit (reg REG_MODEM_CONFIG_1 (hw (snd (__init__ c kw)))) 0
  = Z.testbit (reg REG_MODEM_CONFIG_1 c) 0 /\
  Forall (fun w => fst w = REG_MODEM_CONFIG_1 ->
                   Z.testbit (int_from_bytes (snd w)) 0
                   = Z.testbit (reg REG_MODEM_CONFIG_1 c) 0)
         (writes_since c (hw (snd (__init__ c kw)))).
Proof.
  split; [intros s; apply init_implicit_no_write |].
  destruct (safe_init_body (Z.testbit (reg REG_MODEM_CONFIG_1 c) 0)
                           (length (writes c)) kw (new_object c kw))
    as [(_ & Hbit & Hall) _].
  - split; [reflexivity |]. split; [reflexivity |].
    cbn [new_object hw]. rewrite skipn_all. constructor.
  - split; [exact Hbit | exact Hall].
Qed.

(** Requesting implicit-header mode at construction leaves the bit clear on
    a chip where it was clear, although the object caches the request. *)
Example init_implicit_requested :
  let c := power_on [(REG_VERSION, x12)] [] in
  let r := __init__ c (mkKw None None None None None None None None
                            (Some true) None None) in
  fst r = Ok tt /\ _implicit (snd r) = Some true /\
  Z.testbit (reg REG_MODEM_CONFIG_1 (hw (snd r))) 0 = false /\
  writes_to REG_MODEM_CONFIG_1 (hw (snd r)) = [x80; x82].
Proof. vm_compute. repeat split. Qed.

End ConstructionClaim.

Section MoreExamples.

Import Sim.

(** A request of 100000 Hz on a chip holding [0x03] in modem-config
    register 1 writes [0x73]: index 7 above the old low nibble. *)
Lemma set_bandwidth_spec_witness :
  exists x,
    set_bandwidth 100000
                  (lora_on (power_on [(REG_MODEM_CONFIG_1, x03)] []) 868.0 false)
    = (Ok tt,
       with_hw (written [(REG_MODEM_CONFIG_1, byte_of_Z x)])
               (with_bandwidth 100000
                  (lora_on (power_on [(REG_MODEM_CONFIG_1, x03)] [])
                           868.0 false))) /\
    Z.shiftr x 4 = 7 /\ Z.land x 0x0f = 3.
Proof.
  destruct (set_bandwidth_spec
              (lora_on (power_on [(REG_MODEM_CONFIG_1, x03)] []) 868.0 false)
              100000)
    as (i & x & Hrun & _ & Hhi & Hlo & _ & Hsmall).
  destruct (Hsmall ltac:(lia)) as (Hi & v & Hv & Hle & Hbefore).
  exists x. split; [exact Hrun |]. split; [| exact Hlo].
  rewrite Hhi.
  assert (Z.to_nat i = 7%nat) as Hi7.
  { destruct (Nat.lt_ge_cases (Z.to_nat i) 7) as [Hlt | Hge].
    - exfalso.
      assert (forall j, (j < 7)%nat ->
                        exists u, nth_error bws j = Some u /\ u < 100000)
        as Hlow.
      { intros j Hj. do 7 (destruct j as [| j];
                            [eexists; split; [reflexivity | lia] |]). lia. }
      destruct (Hlow (Z.to_nat i) Hlt) as (u & Hu & Hult).
      rewrite Hu in Hv. injection Hv as ->. lia.
    - destruct (Nat.eq_dec (Z.to_nat i) 7%nat) as [E | Hne]; [exact E |].
      exfalso. specialize (Hbefore 7%nat 125000 ltac:(lia) eq_refl). lia. }
  lia.
Defined.

(** Construction on a chip whose modem-config register 1 holds [0x01]:
    the bit stays set although implicit-header mode is not requested. *)
Lemma init_implicit_never_programmed_witness :
  let c := power_on [(REG_VERSION, x12); (REG_MODEM_CONFIG_1, x01)] [] in
  let kw := mkKw None (Some 868.0%F) (Some 250000) (Some 10) (Some 5)
                 None None None (Some false) None None in
  Z.testbit (reg REG_MODEM_CONFIG_1 (hw (snd (__init__ c kw)))) 0 = true /\
  _implicit (snd (__init__ c kw)) = Some false.
Proof.
  cbv zeta.
  destruct (init_implicit_never_programmed
              (power_on [(REG_VERSION, x12); (REG_MODEM_CONFIG_1, x01)] [])
              (mkKw None (Some 868.0%F) (Some 250000) (Some 10) (Some 5)
                    None None None (Some false) None None))
    as (_ & Hbit & _).
  split; [rewrite Hbit; reflexivity | vm_compute; reflexivity].
Defined.

End MoreExamples.

(** * Further properties of the driver *)

(** ** Symbolic register state *)

Section Symbolic.

Import Sim.

Lemma written_one (r : Z) (d : byte) (c : chip) :
  r <> REG_FIFO -> r <> REG_IRQ_FLAGS ->
  rest (write_reg r d c) = written [(r, d)] c.
Proof. intros H0 H1. rewrite write_reg_plain by assumption. reflexivity. Qed.

Lemma sim_write_plain (r x : Z) (s : LoRa chip) :
  0 < r < 128 -> r <> REG_IRQ_FLAGS -> 0 <= x < 256 ->
  _write r x s = (Ok tt, with_hw (written [(r, byte_of_Z x)]) s).
Proof.
  intros Hr H1 Hx. rewrite sim_write by lia.
  unfold with_hw. rewrite written_one; [reflexivity | unfold REG_FIFO; lia |].
  exact H1.
Qed.

Lemma written_app (ws1 ws2 : list (Z * byte)) (c : chip) :
  written ws2 (written ws1 c) = written (ws1 ++ ws2) c.
Proof.
  unfold written. cbn [regs fifo writes].
  rewrite fold_left_app, app_assoc. reflexivity.
Qed.

Lemma regs_written (r : Z) (ws : list (Z * byte)) (c : chip) :
  regs (written ws c) !!! r = last_write r ws (regs c !!! r).
Proof.
  unfold written. cbn [regs]. generalize (regs c). clear c.
  induction ws as [| [r' d] ws IH]; intros m; cbn [fold_left last_write fst snd].
  - reflexivity.
  - rewrite IH. f_equal. destruct (Z.eqb_spec r' r) as [-> | Hne].
    + apply lookup_total_insert_eq.
    + apply lookup_total_insert_ne. exact Hne.
Qed.

Lemma reg_written (r : Z) (ws : list (Z * byte)) (c : chip) :
  reg r (written ws c) = int_from_bytes (last_write r ws (regs c !!! r)).
Proof. unfold reg. rewrite regs_written. reflexivity. Qed.

Lemma last_write_eq (r : Z) (d d0 : byte) (ws : list (Z * byte)) :
  last_write r ((r, d) :: ws) d0 = last_write r ws d.
Proof. cbn [last_write fst snd]. rewrite Z.eqb_refl. reflexivity. Qed.

Lemma last_write_ne (r r' : Z) (d d0 : byte) (ws : list (Z * byte)) :
  r' <> r -> last_write r ((r', d) :: ws) d0 = last_write r ws d0.
Proof.
  intros Hne. cbn [last_write fst snd].
  destruct (Z.eqb_spec r' r); [contradiction | reflexivity].
Qed.

Lemma last_write_nil (r : Z) (d0 : byte) : last_write r [] d0 = d0.
Proof. reflexivity. Qed.

Lemma sim_read_written (r : Z) (ws : list (Z * byte)) (s : LoRa chip) :
  0 < r < 128 ->
  _read r (with_hw (written ws) s)
  = (Ok (int_from_bytes (last_write r ws (regs (hw s) !!! r))),
     with_hw (written ws) s).
Proof.
  intros Hr. rewrite sim_read by exact Hr. cbn [hw with_hw].
  rewrite reg_written. reflexivity.
Qed.

Lemma hw_written_written (ws1 ws2 : list (Z * byte)) (s : LoRa chip) :
  with_hw (written ws2) (with_hw (written ws1) s)
  = with_hw (written (ws1 ++ ws2)) s.
Proof. unfold with_hw. cbn [hw]. rewrite written_app. reflexivity. Qed.

Lemma hw_written_rest (ws : list (Z * byte)) (s : LoRa chip) :
  with_hw (written ws) (with_hw rest s) = with_hw (written ws) s.
Proof. reflexivity. Qed.

Lemma hw_rest_written (ws : list (Z * byte)) (s : LoRa chip) :
  with_hw rest (with_hw (written ws) s) = with_hw (written ws) s.
Proof. reflexivity. Qed.

Lemma frequency_hw (f : float) (g : chip -> chip) (s : LoRa chip) :
  with_frequency f (with_hw g s) = with_hw g (with_frequency f s).
Proof. reflexivity. Qed.

Lemma bandwidth_hw (bw : Z) (g : chip -> chip) (s : LoRa chip) :
  with_bandwidth bw (with_hw g s) = with_hw g (with_bandwidth bw s).
Proof. reflexivity. Qed.

Lemma implicit_hw (i : bool) (g : chip -> chip) (s : LoRa chip) :
  with_implicit i (with_hw g s) = with_hw g (with_implicit i s).
Proof. reflexivity. Qed.

Lemma on_recv_hw (cb : callable) (g : chip -> chip) (s : LoRa chip) :
  with_on_recv cb (with_hw g s) = with_hw g (with_on_recv cb s).
Proof. reflexivity. Qed.

End Symbolic.

(** Bring a device state to the form [with_hw (written ws) s]. *)
Ltac flatten_hw :=
  repeat first
         [ rewrite frequency_hw | rewrite bandwidth_hw | rewrite implicit_hw
         | rewrite on_recv_hw | rewrite hw_written_rest
         | rewrite hw_rest_written | rewrite hw_written_written ];
  cbn [app].

(** Evaluate [last_write] on an explicit list of writes. *)
Ltac last_writes :=
  repeat first [ rewrite last_write_eq
               | rewrite last_write_ne by reg_side
               | rewrite last_write_nil ].

(** Step over a read of a register when the device state is a list of
    writes. *)
Ltac sym_read :=
  flatten_hw;
  erewrite bind_Ok by (apply sim_read_written; reg_side);
  last_writes.

(** ** Register access (lines 226-239) *)

Section Access.

Import Sim.

(** X1: [_read] never raises, whatever the address and the device: it runs
    one complete frame whose address byte is the address modulo 128, with
    the write bit clear, and returns a value between 0 and 255. *)
Theorem read_never_raises {B} `{SpiDevice B} (addr : Z) (s : LoRa B) :
  exists a,
    bytes1 (addr mod 128) = Some a /\
    Z.testbit (int_from_bytes a) 7 = false /\
    _read addr s
    = (Ok (int_from_bytes (snd (frame a x00 (hw s)))),
       with_hw (fun _ => fst (frame a x00 (hw s))) s) /\
    0 <= int_from_bytes (snd (frame a x00 (hw s))) <= 255.
Proof.
  assert (Z.land addr 0x7f = addr mod 128) as Hl.
  { change 0x7f with (Z.ones 7). rewrite Z.land_ones by lia. reflexivity. }
  pose proof (Z.mod_pos_bound addr 128 ltac:(lia)) as Hm.
  destruct (read_address (addr mod 128) Hm) as (a & Ha & Hbit & _).
  assert (Z.land (addr mod 128) 0x7f = addr mod 128) as Hl2.
  { change 0x7f with (Z.ones 7). rewrite Z.land_ones by lia.
    apply Z.mod_mod. lia. }
  rewrite Hl2 in Ha.
  exists a. split; [exact Ha |]. split; [exact Hbit |]. split.
  - unfold _read. rewrite Hl.
    erewrite bind_Ok by (apply _transfer_frame; [exact Ha | reflexivity]).
    reflexivity.
  - pose proof (int_from_bytes_range (snd (frame a x00 (hw s)))). lia.
Qed.

(** X2: [_write] with a value that is not a byte raises [ValueError] after
    the address byte has gone out: no register, buffer byte or log entry
    changes, and the chip-select line is left asserted. *)
Theorem write_non_byte_raises (r x : Z) (s : LoRa chip) :
  0 <= r < 128 -> ~ (0 <= x < 256) ->
  exists msg s',
    _write r x s = (Raise (ValueError msg), s') /\
    regs (hw s') = regs (hw s) /\ fifo (hw s') = fifo (hw s) /\
    writes (hw s') = writes (hw s) /\ cs (hw s') = 0 /\
    rx s' = rx s /\ delivered s' = delivered s.
Proof.
  intros Hr Hx. destruct (write_address r Hr) as (a & Ha & _).
  unfold _write.
  erewrite bind_Raise
    by (apply _transfer_bad_data;
        [exact Ha | apply bytes1_out_of_range; exact Hx]).
  eexists. eexists. split; [reflexivity |].
  cbn [hw with_hw rx delivered]. cbn. unfold address, select. cbn.
  repeat split.
Qed.

Lemma write_non_byte_raises_witness :
  exists msg s',
    set_sync_word 300 (lora_on (power_on [(REG_SYNC_WORD, x12)] []) 868.0 false)
    = (Raise (ValueError msg), s') /\
    reg REG_SYNC_WORD (hw s') = 0x12 /\ cs (hw s') = 0.
Proof.
  destruct (write_non_byte_raises
              REG_SYNC_WORD 300
              (lora_on (power_on [(REG_SYNC_WORD, x12)] []) 868.0 false)
              ltac:(unfold REG_SYNC_WORD; lia) ltac:(lia))
    as (msg & s' & Hrun & Hregs & _ & _ & Hcs & _).
  exists msg, s'. split; [exact Hrun |]. split; [| exact Hcs].
  unfold reg. rewrite Hregs. reflexivity.
Defined.

End Access.

(** ** Modem configuration (lines 130-184) *)

Section ModemConfig.

Import Sim.

Lemma bw_index_range (bw : Z) : 0 <= bw_index bws 0 bw 9 <= 9.
Proof.
  unfold bws. cbn [bw_index].
  repeat match goal with
         | |- context [if ?b then _ else _] => destruct b
         end; cbn; lia.
Qed.

Lemma clamp_range (x lo hi : Z) : lo <= hi -> lo <= clamp x lo hi <= hi.
Proof. unfold clamp. lia. Qed.

Lemma cr_bits (cr z : Z) :
  1 <= cr <= 4 -> 0 <= z < 256 ->
  let x := Z.lor (Z.land z 0xf1) (Z.shiftl cr 1) in
  0 <= x < 256 /\ Z.land (Z.shiftr x 1) 7 = cr /\
  Z.land x 0xf1 = Z.land z 0xf1.
Proof.
  intros Hcr Hz.
  assert (forallb
            (fun cr =>
               (cr <? 1) ||
               forallb (fun z =>
                          let x := Z.lor (Z.land z 0xf1) (Z.shiftl cr 1) in
                          (0 <=? x) && (x <? 256)
                          && (Z.land (Z.shiftr x 1) 7 =? cr)
                          && (Z.land x 0xf1 =? Z.land z 0xf1))
                       (range 256))
            (range 5) = true) as Hall by (vm_compute; reflexivity).
  pose proof (range_forallb _ _ Hall cr ltac:(lia)) as Hc. cbn beta in Hc.
  apply orb_prop in Hc as [Hlt | Hin]; [apply Z.ltb_lt in Hlt; lia |].
  pose proof (range_forallb _ _ Hin z Hz) as Hb. cbn beta zeta in Hb.
  cbv zeta. unbool. tauto.
Qed.

Lemma crc_bit (crc : bool) (z : Z) :
  0 <= z < 256 ->
  let x := if crc then Z.lor z 0x04 else Z.land z 0xfb in
  0 <= x < 256 /\ Z.testbit x 2 = crc /\ Z.land x 0xfb = Z.land z 0xfb.
Proof.
  intros Hz. destruct crc; cbv zeta.
  - byte_cases (fun z => (0 <=? Z.lor z 0x04) && (Z.lor z 0x04 <? 256)
                         && Z.testbit (Z.lor z 0x04) 2
                         && (Z.land (Z.lor z 0x04) 0xfb =? Z.land z 0xfb))
               z Hz Hc.
    unbool. tauto.
  - byte_cases (fun z => (0 <=? Z.land z 0xfb) && (Z.land z 0xfb <? 256)
                         && negb (Z.testbit (Z.land z 0xfb) 2)
                         && (Z.land (Z.land z 0xfb) 0xfb =? Z.land z 0xfb))
               z Hz Hc.
    unbool. tauto.
Qed.

Lemma pa_rfo (p : Z) :
  0 <= p <= 14 ->
  0 <= Z.lor 0x70 p < 256 /\ Z.shiftr (Z.lor 0x70 p) 4 = 7 /\
  Z.land (Z.lor 0x70 p) 0x0f = p.
Proof.
  intros Hp.
  assert (forallb (fun p => (0 <=? Z.lor 0x70 p) && (Z.lor 0x70 p <? 256)
                            && (Z.shiftr (Z.lor 0x70 p) 4 =? 7)
                            && (Z.land (Z.lor 0x70 p) 0x0f =? p))
                  (range 15) = true) as Hall by (vm_compute; reflexivity).
  pose proof (range_forallb _ _ Hall p ltac:(lia)) as Hc. cbn beta in Hc.
  unbool. tauto.
Qed.

Lemma pa_boost (q : Z) :
  0 <= q <= 15 ->
  0 <= Z.lor PA_BOOST q < 256 /\ Z.shiftr (Z.lor PA_BOOST q) 4 = 8 /\
  Z.land (Z.lor PA_BOOST q) 0x0f = q.
Proof.
  intros Hq.
  assert (forallb (fun q => (0 <=? Z.lor PA_BOOST q)
                            && (Z.lor PA_BOOST q <? 256)
                            && (Z.shiftr (Z.lor PA_BOOST q) 4 =? 8)
                            && (Z.land (Z.lor PA_BOOST q) 0x0f =? q))
                  (range 16) = true) as Hall by (vm_compute; reflexivity).
  pose proof (range_forallb _ _ Hall q ltac:(lia)) as Hc. cbn beta in Hc.
  unbool. tauto.
Qed.

Lemma set_bandwidth_sim (s : LoRa chip) (bw : Z) :
  set_bandwidth bw s
  = (Ok tt,
     with_hw (written
                [(REG_MODEM_CONFIG_1,
                  byte_of_Z (Z.lor (Z.land (reg REG_MODEM_CONFIG_1 (hw s)) 0x0f)
                                   (Z.shiftl (bw_index bws 0 bw 9) 4)))])
             (with_bandwidth bw s)).
Proof.
  unfold set_bandwidth. erewrite bind_Ok by reflexivity. step_read.
  rewrite sim_write_plain; [reflexivity | reg_side | reg_side |].
  apply (bw_nibble _ _ (bw_index_range bw) (reg_range _ _)).
Qed.

Lemma set_coding_rate_sim (s : LoRa chip) (denom : Z) :
  set_coding_rate denom s
  = (Ok tt,
     with_hw (written
                [(REG_MODEM_CONFIG_1,
                  byte_of_Z (Z.lor (Z.land (reg REG_MODEM_CONFIG_1 (hw s)) 0xf1)
                                   (Z.shiftl (clamp denom 5 8 - 4) 1)))]) s).
Proof.
  unfold set_coding_rate. step_read.
  rewrite sim_write_plain; [reflexivity | reg_side | reg_side |].
  pose proof (clamp_range denom 5 8 ltac:(lia)).
  apply (cr_bits (clamp denom 5 8 - 4) _ ltac:(lia) (reg_range _ _)).
Qed.

Lemma set_crc_sim (s : LoRa chip) (crc : bool) :
  set_crc crc s
  = (Ok tt,
     with_hw (written
                [(REG_MODEM_CONFIG_2,
                  byte_of_Z (if crc
                             then Z.lor (reg REG_MODEM_CONFIG_2 (hw s)) 0x04
                             else Z.land (reg REG_MODEM_CONFIG_2 (hw s)) 0xfb))])
             s).
Proof.
  unfold set_crc. step_read.
  rewrite sim_write_plain; [reflexivity | reg_side | reg_side |].
  apply (crc_bit crc _ (reg_range _ _)).
Qed.

Lemma set_spreading_factor_sim (s : LoRa chip) (sf : Z) :
  6 <= sf <= 12 ->
  set_spreading_factor sf s
  = (Ok tt,
     with_hw (written
                [(REG_DETECTION_OPTIMIZE,
                  byte_of_Z (if sf =? 6 then 0xc5 else 0xc3));
                 (REG_DETECTION_THRESHOLD,
                  byte_of_Z (if sf =? 6 then 0x0c else 0x0a));
                 (REG_MODEM_CONFIG_2,
                  byte_of_Z (Z.lor (Z.land (reg REG_MODEM_CONFIG_2 (hw s)) 0x0f)
                                   (Z.land (Z.shiftl sf 4) 0xf0)))]) s).
Proof.
  intros Hsf. unfold set_spreading_factor.
  assert ((sf <? 6) || (sf >? 12) = false) as ->.
  { apply orb_false_iff. rewrite Z.ltb_ge, Z.gtb_ltb, Z.ltb_ge. lia. }
  erewrite bind_Ok
    by (apply sim_write_plain; [reg_side | reg_side | destruct (sf =? 6); lia]).
  erewrite bind_Ok
    by (apply sim_write_plain; [reg_side | reg_side | destruct (sf =? 6); lia]).
  sym_read.
  rewrite sim_write_plain; [flatten_hw; reflexivity | reg_side | reg_side |].
  apply (sf_nibble sf _ Hsf). apply int_from_bytes_range.
Qed.

Lemma set_tx_power_sim (s : LoRa chip) (level outputPin : Z) :
  set_tx_power level outputPin s
  = (Ok tt,
     with_hw (written
                [(REG_PA_CONFIG,
                  byte_of_Z (if outputPin =? PA_OUTPUT_RFO_PIN
                             then Z.lor 0x70 (clamp level 0 14)
                             else Z.lor PA_BOOST (clamp level 2 17 - 2)))]) s).
Proof.
  unfold set_tx_power. destruct (outputPin =? PA_OUTPUT_RFO_PIN).
  - rewrite sim_write_plain; [reflexivity | reg_side | reg_side |].
    apply pa_rfo. apply clamp_range. lia.
  - rewrite sim_write_plain; [reflexivity | reg_side | reg_side |].
    pose proof (clamp_range level 2 17 ltac:(lia)). apply pa_boost. lia.
Qed.

Lemma set_preamble_length_sim (s : LoRa chip) (n : Z) :
  set_preamble_length n s
  = (Ok tt,
     with_hw (written
                [(REG_PREAMBLE_MSB, byte_of_Z (Z.land (Z.shiftr n 8) 0xff));
                 (REG_PREAMBLE_LSB, byte_of_Z (Z.land (Z.shiftr n 0) 0xff))])
             s).
Proof.
  unfold set_preamble_length.
  erewrite bind_Ok
    by (apply sim_write_plain; [reg_side | reg_side | apply land_ff_range]).
  rewrite sim_write_plain; [flatten_hw; reflexivity | reg_side | reg_side |].
  apply land_ff_range.
Qed.

End ModemConfig.

Section ModemConfigProperties.

Import Sim.

(** X3: [set_tx_power] never raises, whatever the level: it issues one write
    to the power-amplifier register.  On the RFO pin the value is [0x70]
    with the level clamped to 0..14 in the low nibble; on the boost pin it
    is the boost flag [0x80] with the level clamped to 2..17, less 2, in the
    low nibble. *)
Theorem set_tx_power_clamps (s : LoRa chip) (level outputPin : Z) :
  exists x,
    set_tx_power level outputPin s
    = (Ok tt, with_hw (written [(REG_PA_CONFIG, byte_of_Z x)]) s) /\
    0 <= x < 256 /\
    (outputPin = PA_OUTPUT_RFO_PIN ->
     Z.shiftr x 4 = 7 /\ Z.land x 0x0f = Z.min (Z.max level 0) 14) /\
    (outputPin <> PA_OUTPUT_RFO_PIN ->
     Z.shiftr x 4 = 8 /\ Z.land x 0x0f = Z.min (Z.max level 2) 17 - 2).
Proof.
  eexists. split; [apply set_tx_power_sim |].
  pose proof (clamp_range level 0 14 ltac:(lia)) as H0.
  pose proof (clamp_range level 2 17 ltac:(lia)) as H2.
  destruct (pa_rfo (clamp level 0 14) H0) as (Ha & Hb & Hc).
  destruct (pa_boost (clamp level 2 17 - 2) ltac:(lia)) as (Ha' & Hb' & Hc').
  destruct (Z.eqb_spec outputPin PA_OUTPUT_RFO_PIN) as [E | Hne].
  - split; [exact Ha |]. split; [intros _; split; assumption |].
    intros Hn. contradiction.
  - split; [exact Ha' |]. split; [intros E; contradiction |].
    intros _. split; assumption.
Qed.

Lemma set_tx_power_clamps_witness :
  exists x,
    set_tx_power 24 PA_OUTPUT_PA_BOOST_PIN
                 (lora_on (power_on [] []) 868.0 false)
    = (Ok tt, with_hw (written [(REG_PA_CONFIG, byte_of_Z x)])
                      (lora_on (power_on [] []) 868.0 false)) /\
    Z.shiftr x 4 = 8 /\ Z.land x 0x0f = 15.
Proof.
  destruct (set_tx_power_clamps (lora_on (power_on [] []) 868.0 false)
                                24 PA_OUTPUT_PA_BOOST_PIN)
    as (x & Hrun & _ & _ & Hboost).
  destruct (Hboost ltac:(discriminate)) as [Hhi Hlo].
  exists x. split; [exact Hrun |]. split; [exact Hhi | exact Hlo].
Defined.

(** X4: [set_coding_rate] never raises: it issues one write to modem-config
    register 1 whose bits 3..1 hold the denominator clamped to 5..8, less 4,
    and whose other bits (mask [0xf1]) are those the register had. *)
Theorem set_coding_rate_bits (s : LoRa chip) (denom : Z) :
  exists x,
    set_coding_rate denom s
    = (Ok tt, with_hw (written [(REG_MODEM_CONFIG_1, byte_of_Z x)]) s) /\
    0 <= x < 256 /\
    Z.land (Z.shiftr x 1) 7 = Z.min (Z.max denom 5) 8 - 4 /\
    Z.land x 0xf1 = Z.land (reg REG_MODEM_CONFIG_1 (hw s)) 0xf1.
Proof.
  eexists. split; [apply set_coding_rate_sim |].
  pose proof (clamp_range denom 5 8 ltac:(lia)) as Hc.
  apply (cr_bits (clamp denom 5 8 - 4) _ ltac:(lia) (reg_range _ _)).
Qed.

Lemma config1_fields (i cr z : Z) :
  0 <= i <= 9 -> 1 <= cr <= 4 -> 0 <= z < 256 ->
  let x := Z.lor (Z.land (Z.lor (Z.land z 0x0f) (Z.shiftl i 4)) 0xf1)
                 (Z.shiftl cr 1) in
  Z.lor (Z.land (Z.lor (Z.land z 0xf1) (Z.shiftl cr 1)) 0x0f) (Z.shiftl i 4)
  = x /\
  Z.shiftr x 4 = i /\ Z.land (Z.shiftr x 1) 7 = cr /\
  Z.testbit x 0 = Z.testbit z 0.
Proof.
  intros Hi Hcr Hz.
  assert (forallb
            (fun i =>
               forallb
                 (fun cr =>
                    (cr <? 1) ||
                    forallb
                      (fun z =>
                         let x := Z.lor (Z.land (Z.lor (Z.land z 0x0f)
                                                       (Z.shiftl i 4)) 0xf1)
                                        (Z.shiftl cr 1) in
                         (Z.lor (Z.land (Z.lor (Z.land z 0xf1) (Z.shiftl cr 1))
                                        0x0f) (Z.shiftl i 4) =? x)
                         && (Z.shiftr x 4 =? i)
                         && (Z.land (Z.shiftr x 1) 7 =? cr)
                         && Bool.eqb (Z.testbit x 0) (Z.testbit z 0))
                      (range 256))
                 (range 5))
            (range 10) = true) as Hall by (vm_compute; reflexivity).
  pose proof (range_forallb _ _ Hall i ltac:(lia)) as H1. cbn beta in H1.
  pose proof (range_forallb _ _ H1 cr ltac:(lia)) as H2. cbn beta in H2.
  apply orb_prop in H2 as [Hlt | H2]; [apply Z.ltb_lt in Hlt; lia |].
  pose proof (range_forallb _ _ H2 z Hz) as H3. cbn beta zeta in H3.
  cbv zeta. unbool.
  match goal with Hb : Bool.eqb _ _ = true |- _ => apply eqb_prop in Hb end.
  tauto.
Qed.

(** X5: [set_bandwidth] and [set_coding_rate] share modem-config register 1
    without disturbing each other: run in either order they leave the same
    value, whose high nibble is the bandwidth index, whose bits 3..1 are the
    coding rate, and whose bit 0 is the one the register had. *)
Theorem bandwidth_coding_rate_commute (s : LoRa chip) (bw denom : Z) :
  exists x s1 s2,
    (set_bandwidth bw ;; set_coding_rate denom) s = (Ok tt, s1) /\
    (set_coding_rate denom ;; set_bandwidth bw) s = (Ok tt, s2) /\
    reg REG_MODEM_CONFIG_1 (hw s1) = x /\
    reg REG_MODEM_CONFIG_1 (hw s2) = x /\
    Z.shiftr x 4 = bw_index bws 0 bw 9 /\
    Z.land (Z.shiftr x 1) 7 = Z.min (Z.max denom 5) 8 - 4 /\
    Z.testbit x 0 = Z.testbit (reg REG_MODEM_CONFIG_1 (hw s)) 0.
Proof.
  set (z := reg REG_MODEM_CONFIG_1 (hw s)).
  set (i := bw_index bws 0 bw 9).
  set (cr := clamp denom 5 8 - 4).
  pose proof (reg_range REG_MODEM_CONFIG_1 (hw s)) as Hz. fold z in Hz.
  pose proof (bw_index_range bw) as Hi. fold i in Hi.
  pose proof (clamp_range denom 5 8 ltac:(lia)) as Hc.
  assert (1 <= cr <= 4) as Hcr by (unfold cr; lia).
  destruct (config1_fields i cr z Hi Hcr Hz) as (Hsame & Hhi & Hmid & Hlo).
  destruct (bw_nibble i z Hi Hz) as (Hb1 & _).
  destruct (cr_bits cr z Hcr Hz) as (Hc1 & _).
  destruct (cr_bits cr _ Hcr Hb1) as (Hx1 & _).
  destruct (bw_nibble i _ Hi Hc1) as (Hx2 & _).
  eexists. eexists. eexists.
  split; [| split].
  - erewrite bind_Ok by apply set_bandwidth_sim. apply set_coding_rate_sim.
  - erewrite bind_Ok by apply set_coding_rate_sim. apply set_bandwidth_sim.
  - cbn [hw with_hw with_bandwidth]. fold z i cr.
    rewrite !reg_written. last_writes.
    rewrite (int_byte_of_Z _ Hb1), (int_byte_of_Z _ Hc1).
    rewrite (int_byte_of_Z _ Hx1), (int_byte_of_Z _ Hx2).
    split; [reflexivity |]. split; [exact Hsame |].
    split; [exact Hhi |]. split; [exact Hmid | exact Hlo].
Qed.

(** X6: [set_preamble_length] never raises: the two preamble registers hold,
    most significant byte first, the low 16 bits of the argument, hence the
    argument itself when it lies in 0..65535. *)
Theorem set_preamble_length_split (s : LoRa chip) (n : Z) :
  exists s',
    set_preamble_length n s = (Ok tt, s') /\
    writes (hw s') = writes (hw s)
                     ++ [(REG_PREAMBLE_MSB, regs (hw s') !!! REG_PREAMBLE_MSB);
                         (REG_PREAMBLE_LSB, regs (hw s') !!! REG_PREAMBLE_LSB)] /\
    reg REG_PREAMBLE_MSB (hw s') * 256 + reg REG_PREAMBLE_LSB (hw s')
    = n mod 65536 /\
    (0 <= n < 65536 ->
     reg REG_PREAMBLE_MSB (hw s') * 256 + reg REG_PREAMBLE_LSB (hw s') = n).
Proof.
  eexists. split; [apply set_preamble_length_sim |].
  cbn [hw with_hw]. unfold reg. rewrite !regs_written. last_writes.
  split; [reflexivity |].
  rewrite !int_byte_of_Z by apply land_ff_range.
  assert (Z.land (Z.shiftr n 8) 0xff * 256 + Z.land (Z.shiftr n 0) 0xff
          = n mod 65536) as Hsplit.
  { change 0xff with (Z.ones 8). rewrite !Z.land_ones by lia.
    rewrite !Z.shiftr_div_pow2 by lia.
    change (2 ^ 8) with 256. change (2 ^ 0) with 1. rewrite Z.div_1_r.
    Z.to_euclidean_division_equations. lia. }
  split; [exact Hsplit |].
  intros Hn. rewrite Hsplit. apply Z.mod_small. exact Hn.
Qed.

Lemma set_preamble_length_split_witness :
  exists s',
    set_preamble_length 300 (lora_on (power_on [] []) 868.0 false)
    = (Ok tt, s') /\
    reg REG_PREAMBLE_MSB (hw s') = 1 /\ reg REG_PREAMBLE_LSB (hw s') = 44.
Proof.
  destruct (set_preamble_length_split (lora_on (power_on [] []) 868.0 false)
                                      300)
    as (s' & Hrun & _ & _ & Hn).
  specialize (Hn ltac:(lia)).
  exists s'. split; [exact Hrun |].
  pose proof (reg_range REG_PREAMBLE_MSB (hw s')).
  pose proof (reg_range REG_PREAMBLE_LSB (hw s')). lia.
Defined.

End ModemConfigProperties.

Section ModemConfig2.

Import Sim.

Lemma config2_fields (sf z : Z) (crc : bool) :
  6 <= sf <= 12 -> 0 <= z < 256 ->
  let a := Z.lor (Z.land z 0x0f) (Z.land (Z.shiftl sf 4) 0xf0) in
  let x := if crc then Z.lor a 0x04 else Z.land a 0xfb in
  let b := if crc then Z.lor z 0x04 else Z.land z 0xfb in
  0 <= x < 256 /\
  Z.lor (Z.land b 0x0f) (Z.land (Z.shiftl sf 4) 0xf0) = x /\
  Z.shiftr x 4 = sf /\ Z.testbit x 2 = crc /\
  Z.land x 0x0b = Z.land z 0x0b.
Proof.
  intros Hsf Hz.
  assert (forallb
            (fun crc : bool =>
               forallb
                 (fun sf =>
                    (sf <? 6) ||
                    forallb
                      (fun z =>
                         let a := Z.lor (Z.land z 0x0f)
                                        (Z.land (Z.shiftl sf 4) 0xf0) in
                         let x := if crc then Z.lor a 0x04
                                  else Z.land a 0xfb in
                         let b := if crc then Z.lor z 0x04
                                  else Z.land z 0xfb in
                         (0 <=? x) && (x <? 256)
                         && (Z.lor (Z.land b 0x0f)
                                   (Z.land (Z.shiftl sf 4) 0xf0) =? x)
                         && (Z.shiftr x 4 =? sf)
                         && Bool.eqb (Z.testbit x 2) crc
                         && (Z.land x 0x0b =? Z.land z 0x0b))
                      (range 256))
                 (range 13))
            [true; false] = true) as Hall by (vm_compute; reflexivity).
  rewrite forallb_forall in Hall.
  assert (In crc [true; false]) as Hcrc by (destruct crc; cbn; auto).
  pose proof (Hall crc Hcrc) as H1. cbn beta in H1.
  pose proof (range_forallb _ _ H1 sf ltac:(lia)) as H2. cbn beta in H2.
  apply orb_prop in H2 as [Hlt | H2]; [apply Z.ltb_lt in Hlt; lia |].
  pose proof (range_forallb _ _ H2 z Hz) as H3. cbn beta zeta in H3.
  cbv zeta. unbool.
  match goal with Hb : Bool.eqb _ _ = true |- _ => apply eqb_prop in Hb end.
  tauto.
Qed.

(** X7: [set_spreading_factor] and [set_crc] share modem-config register 2
    without disturbing each other: for a factor in 6..12, run in either
    order they leave the same value, whose high nibble is the factor, whose
    bit 2 is the CRC flag, and whose bits 0, 1 and 3 are those the register
    had. *)
Theorem spreading_factor_crc_commute (s : LoRa chip) (sf : Z) (crc : bool) :
  6 <= sf <= 12 ->
  exists x s1 s2,
    (set_spreading_factor sf ;; set_crc crc) s = (Ok tt, s1) /\
    (set_crc crc ;; set_spreading_factor sf) s = (Ok tt, s2) /\
    reg REG_MODEM_CONFIG_2 (hw s1) = x /\
    reg REG_MODEM_CONFIG_2 (hw s2) = x /\
    Z.shiftr x 4 = sf /\ Z.testbit x 2 = crc /\
    Z.land x 0x0b = Z.land (reg REG_MODEM_CONFIG_2 (hw s)) 0x0b.
Proof.
  intros Hsf.
  set (z := reg REG_MODEM_CONFIG_2 (hw s)).
  pose proof (reg_range REG_MODEM_CONFIG_2 (hw s)) as Hz. fold z in Hz.
  destruct (config2_fields sf z crc Hsf Hz)
    as (Hx1 & Hsame & Hhi & Hbit & Hlo).
  destruct (sf_nibble sf z Hsf Hz) as (Ha & _).
  destruct (crc_bit crc z Hz) as (Hb & _).
  assert (0 <= Z.lor (Z.land (if crc then Z.lor z 4 else Z.land z 251) 0x0f)
                     (Z.land (Z.shiftl sf 4) 0xf0) < 256) as Hx2
      by (rewrite Hsame; exact Hx1).
  eexists. eexists. eexists.
  split; [| split].
  - erewrite bind_Ok by (apply set_spreading_factor_sim; exact Hsf).
    apply set_crc_sim.
  - erewrite bind_Ok by apply set_crc_sim.
    apply set_spreading_factor_sim. exact Hsf.
  - cbn [hw with_hw]. fold z.
    rewrite !reg_written. last_writes.
    rewrite (int_byte_of_Z _ Ha).
    assert (int_from_bytes (byte_of_Z (if crc then Z.lor z 4
                                       else Z.land z 251))
            = (if crc then Z.lor z 4 else Z.land z 251)) as ->
        by (apply int_byte_of_Z; exact Hb).
    rewrite (int_byte_of_Z _ Hx1), (int_byte_of_Z _ Hx2).
    split; [reflexivity |]. split; [exact Hsame |].
    split; [exact Hhi |]. split; [exact Hbit | exact Hlo].
Qed.

Lemma spreading_factor_crc_commute_witness :
  exists x s1,
    (set_spreading_factor 10 ;; set_crc true)
      (lora_on (power_on [(REG_MODEM_CONFIG_2, x03)] []) 868.0 false)
    = (Ok tt, s1) /\
    reg REG_MODEM_CONFIG_2 (hw s1) = x /\
    Z.shiftr x 4 = 10 /\ Z.testbit x 2 = true /\ Z.land x 0x0b = 3.
Proof.
  destruct (spreading_factor_crc_commute
              (lora_on (power_on [(REG_MODEM_CONFIG_2, x03)] []) 868.0 false)
              10 true ltac:(lia))
    as (x & s1 & s2 & Hrun & _ & Hreg & _ & Hhi & Hbit & Hlo).
  exists x, s1. split; [exact Hrun |]. split; [exact Hreg |].
  split; [exact Hhi |]. split; [exact Hbit | exact Hlo].
Defined.

(** X8: the loop of [set_bandwidth] is monotone: a larger request never
    selects a smaller table index. *)
Theorem bw_index_monotone (bw1 bw2 : Z) :
  bw1 <= bw2 -> bw_index bws 0 bw1 9 <= bw_index bws 0 bw2 9.
Proof.
  intros Hle. unfold bws. cbn [bw_index].
  repeat match goal with
         | |- context [if ?a <=? ?b then _ else _] =>
             destruct (Z.leb_spec a b)
         end; cbn; lia.
Qed.

Lemma bw_index_monotone_witness :
  bw_index bws 0 62500 9 <= bw_index bws 0 62501 9.
Proof. apply bw_index_monotone. lia. Defined.

End ModemConfig2.

(** ** Packet assembly and blocking transmit (lines 81-108) *)

Section TransmitMore.

Import Sim.

Lemma write_packet_fits (s : LoRa chip) (b : list byte) :
  reg REG_PAYLOAD_LENGTH (hw s) + Z.of_nat (length b) <= 255 ->
  write_packet b s
  = (Ok tt,
     with_hw (fun c => written
                         [(REG_PAYLOAD_LENGTH,
                           byte_of_Z (reg REG_PAYLOAD_LENGTH c
                                      + Z.of_nat (length b)))]
                         (push b (rest c))) s).
Proof.
  intros Hfit. unfold write_packet. step_read.
  assert ((reg REG_PAYLOAD_LENGTH (hw s) + Z.of_nat (length b)
           >? MAX_PKT_LENGTH - TX_BASE_ADDR) = false) as ->.
  { rewrite Z.gtb_ltb. apply Z.ltb_ge. reg_side. }
  erewrite bind_Ok.
  2: { rewrite for_each_range_index. apply sim_push. }
  pose proof (reg_range REG_PAYLOAD_LENGTH (hw s)) as Hn.
  rewrite sim_write_plain; [reflexivity | reg_side | reg_side | lia].
Qed.

Lemma write_packet_too_big (s : LoRa chip) (b : list byte) :
  255 < reg REG_PAYLOAD_LENGTH (hw s) + Z.of_nat (length b) ->
  write_packet b s
  = (Raise (ValueError "Max payload length is 255"), with_hw rest s).
Proof.
  intros Hbig. unfold write_packet. step_read.
  assert ((reg REG_PAYLOAD_LENGTH (hw s) + Z.of_nat (length b)
           >? MAX_PKT_LENGTH - TX_BASE_ADDR) = true) as ->.
  { apply Z.gtb_gt. reg_side. }
  reflexivity.
Qed.

Lemma push_app (b1 b2 : list byte) (c : chip) :
  push (b1 ++ b2) c = push b2 (push b1 c).
Proof.
  revert c. induction b1 as [| x b1 IH]; intros c; cbn [push app].
  - reflexivity.
  - apply IH.
Qed.

(** What pushing does to the buffer depends on the buffer and the pointer
    only. *)
Lemma fifo_push_ext (b : list byte) (c1 c2 : chip) :
  fifo c1 = fifo c2 ->
  reg REG_FIFO_ADDR_PTR c1 = reg REG_FIFO_ADDR_PTR c2 ->
  fifo (push b c1) = fifo (push b c2) /\
  reg REG_FIFO_ADDR_PTR (push b c1) = reg REG_FIFO_ADDR_PTR (push b c2).
Proof.
  revert c1 c2. induction b as [| x b IH]; intros c1 c2 Hf Hp; cbn [push].
  - split; assumption.
  - apply IH.
    + rewrite !write_fifo_rest. cbn [fifo]. rewrite Hf, Hp. reflexivity.
    + rewrite !ptr_write_fifo. rewrite Hp. reflexivity.
Qed.

(** X9: two [write_packet] calls after [begin_packet] accumulate: when the
    two payloads together have at most 255 bytes, both calls succeed, the
    payload-length register holds the sum of the lengths, and the buffer
    holds the first payload followed by the second from the transmit base
    address on. *)
Theorem write_packet_accumulates (s : LoRa chip) (b1 b2 : list byte) :
  (length b1 + length b2 <= 255)%nat ->
  exists s',
    (begin_packet ;; write_packet b1 ;; write_packet b2) s = (Ok tt, s') /\
    reg REG_PAYLOAD_LENGTH (hw s') = Z.of_nat (length b1 + length b2) /\
    window TX_BASE_ADDR (Z.of_nat (length b1 + length b2)) (hw s')
    = b1 ++ b2.
Proof.
  intros Hlen.
  erewrite bind_Ok by apply begin_packet_sim.
  set (s0 := with_hw (written [(REG_OP_MODE, x81); (REG_FIFO_ADDR_PTR, x00);
                               (REG_PAYLOAD_LENGTH, x00)]) s).
  assert (reg REG_PAYLOAD_LENGTH (hw s0) = 0) as Hn0.
  { unfold s0. cbn [hw with_hw]. rewrite reg_written. last_writes.
    reflexivity. }
  assert (reg REG_FIFO_ADDR_PTR (hw s0) = 0) as Hp0.
  { unfold s0. cbn [hw with_hw]. rewrite reg_written. last_writes.
    reflexivity. }
  set (c1 := written [(REG_PAYLOAD_LENGTH, byte_of_Z (Z.of_nat (length b1)))]
                     (push b1 (rest (hw s0)))).
  assert (write_packet b1 s0 = (Ok tt, with_hw (fun _ => c1) s0)) as Hrun1.
  { rewrite write_packet_fits by (rewrite Hn0; lia).
    unfold with_hw. cbn [hw]. rewrite Hn0, Z.add_0_l. reflexivity. }
  erewrite bind_Ok by exact Hrun1.
  assert (reg REG_PAYLOAD_LENGTH c1 = Z.of_nat (length b1)) as Hn1.
  { unfold c1. rewrite reg_written. last_writes. apply int_byte_of_Z. lia. }
  set (c2 := written [(REG_PAYLOAD_LENGTH,
                       byte_of_Z (Z.of_nat (length b1 + length b2)))]
                     (push b2 (rest c1))).
  assert (write_packet b2 (with_hw (fun _ => c1) s0)
          = (Ok tt, with_hw (fun _ => c2) s0)) as Hrun2.
  { rewrite write_packet_fits by (cbn [hw with_hw]; rewrite Hn1; lia).
    unfold with_hw. cbn [hw]. rewrite Hn1, <- Nat2Z.inj_add. reflexivity. }
  rewrite Hrun2.
  eexists. split; [reflexivity |].
  cbn [hw with_hw]. unfold c2. split.
  - rewrite reg_written. last_writes. rewrite int_byte_of_Z by lia. lia.
  - assert (fifo (push b2 (rest c1)) = fifo (push (b1 ++ b2) (rest (hw s0))))
      as Hfifo.
    { rewrite push_app.
      apply (fifo_push_ext b2 (rest c1) (push b1 (rest (hw s0)))).
      - reflexivity.
      - unfold c1. unfold reg at 1. cbn [rest regs]. rewrite regs_written.
        last_writes. reflexivity. }
    erewrite window_fifo.
    2: { cbn [written fifo]. exact Hfifo. }
    replace (Z.of_nat (length b1 + length b2))
      with (Z.of_nat (length (b1 ++ b2))) by (rewrite length_app; reflexivity).
    change TX_BASE_ADDR with 0. rewrite <- Hp0.
    apply (window_push (b1 ++ b2) (rest (hw s0))).
    rewrite length_app. lia.
Qed.

Lemma write_packet_accumulates_witness :
  exists s',
    (begin_packet ;; write_packet [x31; x32] ;; write_packet [x33])
      (lora_on (power_on [] []) 868.0 false) = (Ok tt, s') /\
    reg REG_PAYLOAD_LENGTH (hw s') = 3 /\
    window TX_BASE_ADDR 3 (hw s') = [x31; x32; x33].
Proof.
  destruct (write_packet_accumulates (lora_on (power_on [] []) 868.0 false)
                                     [x31; x32] [x33] ltac:(cbn; lia))
    as (s' & Hrun & Hlen & Hwin).
  exists s'. split; [exact Hrun |]. split; [exact Hlen | exact Hwin].
Defined.

End TransmitMore.

Section BlockingTransmit.

Import Sim.

Lemma write_irq_rest (d : byte) (c : chip) :
  rest (write_reg REG_IRQ_FLAGS d c)
  = mkChip 1 None
           (<[REG_IRQ_FLAGS :=
                byte_of_Z (Z.land (reg REG_IRQ_FLAGS c)
                                  (Z.lnot (int_from_bytes d)))]> (regs c))
           (fifo c) (writes c ++ [(REG_IRQ_FLAGS, d)]).
Proof. reflexivity. Qed.

Lemma tx_done_bit (f : Z) :
  0 <= f < 256 -> Z.land f IRQ_TX_DONE_MASK <> 0 ->
  0 <= f - 8 < 256 /\
  Z.land f (Z.lnot (int_from_bytes (byte_of_Z IRQ_TX_DONE_MASK))) = f - 8 /\
  Z.land (f - 8) IRQ_TX_DONE_MASK = 0.
Proof.
  intros Hf Hset.
  byte_cases (fun f => (Z.land f IRQ_TX_DONE_MASK =? 0)
                       || ((0 <=? f - 8) && (f - 8 <? 256)
                           && (Z.land f (Z.lnot (int_from_bytes
                                                   (byte_of_Z IRQ_TX_DONE_MASK)))
                               =? f - 8)
                           && (Z.land (f - 8) IRQ_TX_DONE_MASK =? 0)))
             f Hf Hc.
  apply orb_prop in Hc as [Hz | Hc]; [apply Z.eqb_eq in Hz; contradiction |].
  unbool. tauto.
Qed.

(** The polling loop of [end_packet] on a chip whose flags do not change by
    themselves. *)
Lemma wait_tx_done_set (fuel : nat) (s : LoRa chip) :
  Z.land (reg REG_IRQ_FLAGS (hw s)) IRQ_TX_DONE_MASK <> 0 ->
  while_loop (S fuel)
             (f <- _read REG_IRQ_FLAGS ;; ret (Z.land f IRQ_TX_DONE_MASK =? 0))
             (ret tt) s
  = Some (Ok tt, with_hw rest s).
Proof.
  intros Hset. cbn [while_loop]. unfold bindF, liftF.
  erewrite bind_Ok by (apply sim_read; reg_side).
  unfold ret at 1.
  destruct (Z.eqb_spec (Z.land (reg REG_IRQ_FLAGS (hw s)) IRQ_TX_DONE_MASK) 0)
    as [E | _]; [contradiction | reflexivity].
Qed.

Lemma wait_tx_done_clear (fuel : nat) (s : LoRa chip) :
  Z.land (reg REG_IRQ_FLAGS (hw s)) IRQ_TX_DONE_MASK = 0 ->
  while_loop fuel
             (f <- _read REG_IRQ_FLAGS ;; ret (Z.land f IRQ_TX_DONE_MASK =? 0))
             (ret tt) s
  = None.
Proof.
  revert s. induction fuel as [| fuel IH]; intros s Hclear; [reflexivity |].
  cbn [while_loop]. unfold bindF at 1, liftF at 1.
  erewrite bind_Ok by (apply sim_read; reg_side).
  unfold ret at 1. rewrite Hclear. cbn [Z.eqb].
  unfold bindF, liftF, ret. apply IH. exact Hclear.
Qed.

Lemma end_packet_done (fuel : nat) (s : LoRa chip) :
  Z.land (reg REG_IRQ_FLAGS (hw s)) IRQ_TX_DONE_MASK <> 0 ->
  end_packet (S fuel) s
  = Some (Ok tt,
          with_hw (fun c => rest (write_reg REG_IRQ_FLAGS
                                    (byte_of_Z IRQ_TX_DONE_MASK)
                                    (written [(REG_OP_MODE, x83)] c))) s).
Proof.
  intros Hset. unfold end_packet. unfold bindF at 1, liftF at 1.
  rewrite sim_write_plain by reg_side.
  unfold bindF at 1. rewrite wait_tx_done_set.
  2: { cbn [hw with_hw]. rewrite reg_written. last_writes. exact Hset. }
  unfold liftF. rewrite sim_write by reg_side. reflexivity.
Qed.

(** X10: when the chip shows the transmit-done flag, [end_packet] returns
    after one poll, whatever the fuel above zero: the mode register holds
    the transmit mode [0x83], the transmit-done flag has been cleared and
    the other flags are kept, and exactly two registers were written. *)
Theorem end_packet_returns (s : LoRa chip) (fuel : nat) :
  Z.land (reg REG_IRQ_FLAGS (hw s)) IRQ_TX_DONE_MASK <> 0 ->
  exists s',
    end_packet (S fuel) s = Some (Ok tt, s') /\
    reg REG_OP_MODE (hw s') = Z.lor MODE_LORA MODE_TX /\
    reg REG_IRQ_FLAGS (hw s') = reg REG_IRQ_FLAGS (hw s) - IRQ_TX_DONE_MASK /\
    writes (hw s') = writes (hw s) ++ [(REG_OP_MODE, x83); (REG_IRQ_FLAGS, x08)].
Proof.
  intros Hset. eexists. split; [apply (end_packet_done fuel s Hset) |].
  cbn [hw with_hw]. rewrite write_irq_rest.
  destruct (tx_done_bit _ (reg_range REG_IRQ_FLAGS (hw s)) Hset)
    as (Hr & Hclr & _).
  split; [| split].
  - unfold reg. cbn [regs]. rewrite lookup_total_insert_ne by reg_side.
    rewrite regs_written. last_writes. reflexivity.
  - unfold reg at 1. cbn [regs]. rewrite lookup_total_insert_eq.
    rewrite reg_written. last_writes. fold (reg REG_IRQ_FLAGS (hw s)).
    rewrite Hclr. apply int_byte_of_Z. exact Hr.
  - cbn [writes written]. rewrite <- app_assoc. reflexivity.
Qed.

Lemma end_packet_returns_witness :
  exists s',
    end_packet 1 (lora_on (power_on [(REG_IRQ_FLAGS, x48)] []) 868.0 false)
    = Some (Ok tt, s') /\
    reg REG_OP_MODE (hw s') = 0x83 /\ reg REG_IRQ_FLAGS (hw s') = 0x40.
Proof.
  destruct (end_packet_returns
              (lora_on (power_on [(REG_IRQ_FLAGS, x48)] []) 868.0 false) 0
              ltac:(vm_compute; discriminate))
    as (s' & Hrun & Hmode & Hflags & _).
  exists s'. split; [exact Hrun |]. split; [exact Hmode | exact Hflags].
Defined.

(** X11: [end_packet] has no bound on its wait: on a chip whose flags
    register keeps the transmit-done flag clear, no amount of fuel makes it
    return. *)
Theorem end_packet_waits_forever (s : LoRa chip) (fuel : nat) :
  Z.land (reg REG_IRQ_FLAGS (hw s)) IRQ_TX_DONE_MASK = 0 ->
  end_packet fuel s = None.
Proof.
  intros Hclear. unfold end_packet. unfold bindF at 1, liftF at 1.
  rewrite sim_write_plain by reg_side.
  unfold bindF at 1. rewrite wait_tx_done_clear; [reflexivity |].
  cbn [hw with_hw]. rewrite reg_written. last_writes. exact Hclear.
Qed.

Lemma end_packet_waits_forever_witness :
  end_packet 1000 (lora_on (power_on [(REG_IRQ_FLAGS, x40)] []) 868.0 false)
  = None.
Proof.
  apply end_packet_waits_forever. vm_compute. reflexivity.
Defined.

End BlockingTransmit.

Section Send.

Import Sim.

Lemma reg_after_push (r : Z) (b : list byte) (c : chip) :
  r <> REG_FIFO_ADDR_PTR -> reg r (push b c) = reg r c.
Proof. intros Hr. unfold reg. rewrite regs_push by exact Hr. reflexivity. Qed.

Lemma reg_rest (r : Z) (c : chip) : reg r (rest c) = reg r c.
Proof. reflexivity. Qed.

(** X12: [send] refuses a payload of more than 255 bytes before anything is
    transmitted, whatever the fuel: it raises [ValueError] after
    [begin_packet], so the chip is left in standby with the buffer pointer
    and payload length at zero, nothing has been written to the buffer
    register, and transmit mode was never entered. *)
Theorem send_too_long (s : LoRa chip) (x : pyobj) (fuel : nat) :
  (255 < length (encode_if_str x))%nat ->
  exists s',
    send x fuel s
    = Some (Raise (ValueError "Max payload length is 255"), s') /\
    writes (hw s') = writes (hw s)
                     ++ [(REG_OP_MODE, x81); (REG_FIFO_ADDR_PTR, x00);
                         (REG_PAYLOAD_LENGTH, x00)] /\
    reg REG_OP_MODE (hw s') = Z.lor MODE_LORA MODE_STDBY /\
    fifo (hw s') = fifo (hw s).
Proof.
  intros Hlen. unfold send. unfold bindF at 1, liftF at 1.
  rewrite begin_packet_sim. unfold bindF at 1, liftF at 1.
  rewrite write_packet_too_big.
  2: { cbn [hw with_hw]. rewrite reg_written. last_writes.
       change (int_from_bytes x00) with 0. lia. }
  eexists. split; [reflexivity |]. cbn [hw with_hw].
  split; [reflexivity |]. split; [| reflexivity].
  rewrite reg_rest, reg_written. last_writes. reflexivity.
Qed.

Lemma send_too_long_witness :
  exists s',
    send (PyBytes (repeat x41 256)) 0
         (lora_on (power_on [] []) 868.0 false)
    = Some (Raise (ValueError "Max payload length is 255"), s') /\
    reg REG_OP_MODE (hw s') = 0x81.
Proof.
  destruct (send_too_long (lora_on (power_on [] []) 868.0 false)
                          (PyBytes (repeat x41 256)) 0
                          ltac:(cbn [encode_if_str]; rewrite repeat_length; lia))
    as (s' & Hrun & _ & Hmode & _).
  exists s'. split; [exact Hrun | exact Hmode].
Defined.

(** X13: [send] of at most 255 bytes, on a chip that shows the transmit-done
    flag, returns normally with any fuel above zero: the buffer holds the
    payload (the UTF-8 bytes of a [str]) from the transmit base address on,
    the payload-length register holds its length, the mode register holds
    the transmit mode, and the transmit-done flag has been cleared. *)
Theorem send_transmits (s : LoRa chip) (x : pyobj) (fuel : nat) :
  (length (encode_if_str x) <= 255)%nat ->
  Z.land (reg REG_IRQ_FLAGS (hw s)) IRQ_TX_DONE_MASK <> 0 ->
  exists s',
    send x (S fuel) s = Some (Ok tt, s') /\
    window TX_BASE_ADDR (Z.of_nat (length (encode_if_str x))) (hw s')
    = encode_if_str x /\
    reg REG_PAYLOAD_LENGTH (hw s') = Z.of_nat (length (encode_if_str x)) /\
    reg REG_OP_MODE (hw s') = Z.lor MODE_LORA MODE_TX /\
    Z.land (reg REG_IRQ_FLAGS (hw s')) IRQ_TX_DONE_MASK = 0.
Proof.
  intros Hlen Hset. set (b := encode_if_str x) in *.
  unfold send. fold b. unfold bindF at 1, liftF at 1.
  rewrite begin_packet_sim. unfold bindF at 1, liftF at 1.
  set (s0 := with_hw (written [(REG_OP_MODE, x81); (REG_FIFO_ADDR_PTR, x00);
                               (REG_PAYLOAD_LENGTH, x00)]) s).
  assert (reg REG_PAYLOAD_LENGTH (hw s0) = 0) as Hn0.
  { unfold s0. cbn [hw with_hw]. rewrite reg_written. last_writes.
    reflexivity. }
  assert (reg REG_FIFO_ADDR_PTR (hw s0) = 0) as Hp0.
  { unfold s0. cbn [hw with_hw]. rewrite reg_written. last_writes.
    reflexivity. }
  assert (reg REG_IRQ_FLAGS (hw s0) = reg REG_IRQ_FLAGS (hw s)) as Hf0.
  { unfold s0. cbn [hw with_hw]. rewrite reg_written. last_writes.
    reflexivity. }
  set (c1 := written [(REG_PAYLOAD_LENGTH, byte_of_Z (Z.of_nat (length b)))]
                     (push b (rest (hw s0)))).
  assert (write_packet b s0 = (Ok tt, with_hw (fun _ => c1) s0)) as Hrun1.
  { rewrite write_packet_fits by (rewrite Hn0; lia).
    unfold with_hw. cbn [hw]. rewrite Hn0, Z.add_0_l. reflexivity. }
  rewrite Hrun1.
  assert (reg REG_IRQ_FLAGS c1 = reg REG_IRQ_FLAGS (hw s)) as Hf1.
  { unfold c1. rewrite reg_written. last_writes.
    fold (reg REG_IRQ_FLAGS (push b (rest (hw s0)))).
    rewrite reg_after_push by reg_side. exact Hf0. }
  rewrite end_packet_done by (cbn [hw with_hw]; rewrite Hf1; exact Hset).
  eexists. split; [reflexivity |].
  cbn [hw with_hw]. rewrite write_irq_rest.
  destruct (tx_done_bit _ (reg_range REG_IRQ_FLAGS (hw s)) Hset)
    as (Hr & Hclr & Hzero).
  split; [| split; [| split]].
  - erewrite window_fifo.
    2: { cbn [fifo written]. unfold c1. cbn [fifo written]. reflexivity. }
    change TX_BASE_ADDR with 0. rewrite <- Hp0.
    apply (window_push b (rest (hw s0))). lia.
  - unfold reg. cbn [regs]. rewrite lookup_total_insert_ne by reg_side.
    rewrite regs_written. last_writes. unfold c1. rewrite regs_written.
    last_writes. apply int_byte_of_Z. lia.
  - unfold reg. cbn [regs]. rewrite lookup_total_insert_ne by reg_side.
    rewrite regs_written. last_writes. reflexivity.
  - unfold reg at 1. cbn [regs]. rewrite lookup_total_insert_eq.
    rewrite reg_written. last_writes. fold (reg REG_IRQ_FLAGS c1).
    rewrite Hf1, Hclr. rewrite int_byte_of_Z by exact Hr. exact Hzero.
Qed.

Lemma send_transmits_witness :
  exists s',
    send (PyStr "12") 1
         (lora_on (power_on [(REG_IRQ_FLAGS, x08)] []) 868.0 false)
    = Some (Ok tt, s') /\
    window TX_BASE_ADDR 2 (hw s') = [x31; x32] /\
    reg REG_PAYLOAD_LENGTH (hw s') = 2.
Proof.
  destruct (send_transmits
              (lora_on (power_on [(REG_IRQ_FLAGS, x08)] []) 868.0 false)
              (PyStr "12") 0 ltac:(cbn; lia) ltac:(vm_compute; discriminate))
    as (s' & Hrun & Hwin & Hlen & _).
  exists s'. split; [exact Hrun |]. split; [exact Hwin | exact Hlen].
Defined.

End Send.

(** ** Construction, step by step (lines 55-79) *)

Section ConstructionRun.

Import Sim.

Lemma reg_hw_written (r : Z) (ws : list (Z * byte)) (s : LoRa chip) :
  reg r (hw (with_hw (written ws) s))
  = int_from_bytes (last_write r ws (regs (hw s) !!! r)).
Proof. cbn [hw with_hw]. apply reg_written. Qed.

Lemma hw_frequency (f : float) (s : LoRa chip) :
  hw (with_frequency f s) = hw s.
Proof. reflexivity. Qed.

Lemma hw_bandwidth (bw : Z) (s : LoRa chip) : hw (with_bandwidth bw s) = hw s.
Proof. reflexivity. Qed.

Lemma hw_implicit (i : bool) (s : LoRa chip) : hw (with_implicit i s) = hw s.
Proof. reflexivity. Qed.

Lemma hw_on_recv (cb : callable) (s : LoRa chip) :
  hw (with_on_recv cb s) = hw s.
Proof. reflexivity. Qed.

Lemma hw_rest (s : LoRa chip) (r : Z) :
  reg r (hw (with_hw rest s)) = reg r (hw s).
Proof. reflexivity. Qed.

Lemma lna_range (z : Z) : 0 <= z < 256 -> 0 <= Z.lor z 0x03 < 256.
Proof.
  intros Hz.
  byte_cases (fun z => (0 <=? Z.lor z 3) && (Z.lor z 3 <? 256)) z Hz Hc.
  unbool. lia.
Qed.

End ConstructionRun.

(** Normalise the device state and the values read from it. *)
Ltac norm :=
  flatten_hw;
  rewrite ?reg_hw_written; last_writes;
  rewrite ?hw_frequency, ?hw_bandwidth, ?hw_implicit, ?hw_on_recv, ?hw_rest.

Section ConstructionOutcome.

Import Sim.

Lemma init_bad_version (c : chip) (kw : Kw) :
  reg REG_VERSION c <> 0x12 ->
  __init__ c kw
  = (Raise (Exception "Invalid version or bad SPI connection"),
     with_hw rest (new_object c kw)).
Proof.
  intros Hv. unfold __init__, init_body. step_read. cbn [hw new_object].
  destruct (Z.eqb_spec (reg REG_VERSION c) 0x12) as [E | _];
    [contradiction | reflexivity].
Qed.

(** [round] raises on line 141: the chip has been put to sleep, the request
    is cached, and nothing else has happened. *)
Lemma init_bad_frequency (c : chip) (kw : Kw) (e : exn) :
  reg REG_VERSION c = 0x12 ->
  frf_steps (kw_get (kw_frequency kw) 915.0%F) = Raise e ->
  __init__ c kw
  = (Raise e,
     with_hw (written [(REG_OP_MODE, byte_of_Z (Z.lor MODE_LORA MODE_SLEEP))])
             (with_frequency (kw_get (kw_frequency kw) 915.0%F)
                (new_object c kw))).
Proof.
  intros Hv He. unfold __init__, init_body.
  step_read. cbn [hw new_object]. rewrite Hv. cbn [Z.eqb Pos.eqb negb].
  unfold sleep. erewrite bind_Ok by (apply sim_write_plain; reg_side).
  erewrite bind_Raise by (apply set_frequency_raises; exact He).
  reflexivity.
Qed.

Lemma init_bad_spreading_factor (c : chip) (kw : Kw) (x : Z) :
  reg REG_VERSION c = 0x12 ->
  frf_steps (kw_get (kw_frequency kw) 915.0%F) = Ok x ->
  ~ (6 <= kw_get (kw_spreading_factor kw) 10 <= 12) ->
  __init__ c kw
  = (Raise (ValueError "Spreading factor must be between 6-12"),
     with_hw (written (firstn 5 (init_writes c kw x)))
             (with_bandwidth (kw_get (kw_bandwidth kw) 250000)
                (with_frequency (kw_get (kw_frequency kw) 915.0%F)
                   (new_object c kw)))).
Proof.
  intros Hv Hx Hsf. unfold __init__, init_body.
  step_read. cbn [hw new_object]. rewrite Hv. cbn [Z.eqb Pos.eqb negb].
  unfold sleep. erewrite bind_Ok by (apply sim_write_plain; reg_side).
  erewrite bind_Ok by (apply set_frequency_sim; exact Hx). norm.
  erewrite bind_Ok by apply set_bandwidth_sim. norm.
  unfold set_spreading_factor.
  assert ((kw_get (kw_spreading_factor kw) 10 <? 6)
          || (kw_get (kw_spreading_factor kw) 10 >? 12) = true) as ->.
  { apply orb_true_iff. rewrite Z.ltb_lt, Z.gtb_gt. lia. }
  reflexivity.
Qed.

(** The run of [__init__] up to the sync word, when the identity and the
    spreading factor are accepted. *)
Lemma init_until_sync_word (c : chip) (kw : Kw) (x : Z) :
  reg REG_VERSION c = 0x12 ->
  frf_steps (kw_get (kw_frequency kw) 915.0%F) = Ok x ->
  6 <= kw_get (kw_spreading_factor kw) 10 <= 12 ->
  __init__ c kw
  = (set_sync_word (kw_get (kw_sync_word kw) 0x12) ;;
     modify (with_on_recv (kw_get (kw_on_recv kw) PyNone)) ;;
     _write REG_FIFO_TX_BASE_ADDR TX_BASE_ADDR ;;
     _write REG_FIFO_RX_BASE_ADDR RX_BASE_ADDR ;;
     standby)
      (with_hw (written (firstn 15 (init_writes c kw x)))
               (with_implicit (kw_get (kw_implicit kw) false)
                  (with_bandwidth (kw_get (kw_bandwidth kw) 250000)
                     (with_frequency (kw_get (kw_frequency kw) 915.0%F)
                        (new_object c kw))))).
Proof.
  intros Hv Hx Hsf. unfold __init__, init_body.
  step_read. cbn [hw new_object]. rewrite Hv. cbn [Z.eqb Pos.eqb negb].
  unfold sleep. erewrite bind_Ok by (apply sim_write_plain; reg_side).
  erewrite bind_Ok by (apply set_frequency_sim; exact Hx). norm.
  erewrite bind_Ok by apply set_bandwidth_sim. norm.
  erewrite bind_Ok by (apply set_spreading_factor_sim; exact Hsf). norm.
  erewrite bind_Ok by apply set_coding_rate_sim. norm.
  erewrite bind_Ok by apply set_preamble_length_sim. norm.
  erewrite bind_Ok by apply set_crc_sim. norm.
  sym_read.
  erewrite bind_Ok
    by (apply sim_write_plain;
        [reg_side | reg_side | apply lna_range; apply int_from_bytes_range]).
  erewrite bind_Ok by (apply sim_write_plain; reg_side).
  erewrite bind_Ok by apply set_tx_power_sim. norm.
  erewrite bind_Ok by apply init_implicit_no_write. norm.
  cbn [hw new_object].
  fold (reg REG_MODEM_CONFIG_1 c). fold (reg REG_MODEM_CONFIG_2 c).
  fold (reg REG_LNA c).
  rewrite (int_byte_of_Z
             (Z.lor (Z.land (reg REG_MODEM_CONFIG_1 c) 15)
                    (Z.shiftl (bw_index bws 0 (kw_get (kw_bandwidth kw) 250000)
                                        9) 4)))
    by apply (bw_nibble _ _ (bw_index_range _) (reg_range _ _)).
  rewrite (int_byte_of_Z
             (Z.lor (Z.land (reg REG_MODEM_CONFIG_2 c) 15)
                    (Z.land (Z.shiftl (kw_get (kw_spreading_factor kw) 10) 4)
                            240)))
    by apply (sf_nibble _ _ Hsf (reg_range _ _)).
  reflexivity.
Qed.

Lemma init_bad_sync_word (c : chip) (kw : Kw) (x : Z) :
  reg REG_VERSION c = 0x12 ->
  frf_steps (kw_get (kw_frequency kw) 915.0%F) = Ok x ->
  6 <= kw_get (kw_spreading_factor kw) 10 <= 12 ->
  ~ (0 <= kw_get (kw_sync_word kw) 0x12 < 256) ->
  exists a,
    __init__ c kw
    = (Raise (ValueError "bytes value out of range"),
       with_hw (fun c' => address a (select 0 c'))
               (with_hw (written (firstn 15 (init_writes c kw x)))
                        (with_implicit (kw_get (kw_implicit kw) false)
                           (with_bandwidth (kw_get (kw_bandwidth kw) 250000)
                              (with_frequency
                                 (kw_get (kw_frequency kw) 915.0%F)
                                 (new_object c kw)))))).
Proof.
  intros Hv Hx Hsf Hsw. rewrite (init_until_sync_word c kw x) by assumption.
  destruct (write_address REG_SYNC_WORD ltac:(reg_side)) as (a & Ha & _).
  exists a. unfold set_sync_word.
  erewrite bind_Raise; [reflexivity |].
  unfold _write.
  erewrite bind_Raise
    by (apply _transfer_bad_data;
        [exact Ha | apply bytes1_out_of_range; exact Hsw]).
  reflexivity.
Qed.

Lemma init_completes (c : chip) (kw : Kw) (x : Z) :
  reg REG_VERSION c = 0x12 ->
  frf_steps (kw_get (kw_frequency kw) 915.0%F) = Ok x ->
  6 <= kw_get (kw_spreading_factor kw) 10 <= 12 ->
  0 <= kw_get (kw_sync_word kw) 0x12 < 256 ->
  __init__ c kw
  = (Ok tt, with_hw (written (init_writes c kw x)) (init_attributes c kw)).
Proof.
  intros Hv Hx Hsf Hsw. rewrite (init_until_sync_word c kw x) by assumption.
  unfold set_sync_word.
  erewrite bind_Ok by (apply sim_write_plain; [reg_side | reg_side | exact Hsw]).
  erewrite bind_Ok by reflexivity. norm.
  erewrite bind_Ok by (apply sim_write_plain; reg_side).
  erewrite bind_Ok by (apply sim_write_plain; reg_side).
  unfold standby. rewrite sim_write_plain by reg_side. norm.
  reflexivity.
Qed.

End ConstructionOutcome.

Section ConstructionProperties.

Import Sim.



(** X15: a construction that completes has issued exactly the 19 register
    writes of lines 61-79 and leaves the chip programmed with the whole
    configuration: standby mode, the frequency steps, the bandwidth index
    and coding rate side by side in modem-config register 1, the spreading
    factor and CRC flag side by side in modem-config register 2, the
    preamble length, the boosted power level, the sync word, LNA boost,
    AGC, and both buffer base addresses at zero; the object caches the
    frequency, bandwidth, implicit-header flag and callback. *)
Theorem init_programs_chip (c : chip) (kw : Kw) (x : Z) :
  reg REG_VERSION c = 0x12 ->
  frf_steps (kw_get (kw_frequency kw) 915.0%F) = Ok x ->
  6 <= kw_get (kw_spreading_factor kw) 10 <= 12 ->
  0 <= kw_get (kw_sync_word kw) 0x12 < 256 ->
  exists s',
    __init__ c kw = (Ok tt, s') /\
    writes (hw s') = writes c ++ init_writes c kw x /\
    length (init_writes c kw x) = 19%nat /\
    reg REG_OP_MODE (hw s') = Z.lor MODE_LORA MODE_STDBY /\
    frf_stored (hw s') = x mod 2 ^ 24 /\
    Z.shiftr (reg REG_MODEM_CONFIG_1 (hw s')) 4
    = bw_index bws 0 (kw_get (kw_bandwidth kw) 250000) 9 /\
    Z.land (Z.shiftr (reg REG_MODEM_CONFIG_1 (hw s')) 1) 7
    = Z.min (Z.max (kw_get (kw_coding_rate kw) 5) 5) 8 - 4 /\
    Z.shiftr (reg REG_MODEM_CONFIG_2 (hw s')) 4
    = kw_get (kw_spreading_factor kw) 10 /\
    Z.testbit (reg REG_MODEM_CONFIG_2 (hw s')) 2 = kw_get (kw_crc kw) false /\
    reg REG_PREAMBLE_MSB (hw s') * 256 + reg REG_PREAMBLE_LSB (hw s')
    = kw_get (kw_preamble_length kw) 4 mod 65536 /\
    reg REG_PA_CONFIG (hw s')
    = 0x80 + (Z.min (Z.max (kw_get (kw_tx_power kw) 24) 2) 17 - 2) /\
    reg REG_SYNC_WORD (hw s') = kw_get (kw_sync_word kw) 0x12 /\
    reg REG_LNA (hw s') = Z.lor (reg REG_LNA c) 0x03 /\
    reg REG_MODEM_CONFIG_3 (hw s') = 0x04 /\
    reg REG_FIFO_TX_BASE_ADDR (hw s') = 0 /\
    reg REG_FIFO_RX_BASE_ADDR (hw s') = 0 /\
    _frequency s' = Some (kw_get (kw_frequency kw) 915.0%F) /\
    _bandwidth s' = Some (kw_get (kw_bandwidth kw) 250000) /\
    _implicit s' = Some (kw_get (kw_implicit kw) false) /\
    _on_recv s' = Some (kw_get (kw_on_recv kw) PyNone).
Proof.
  intros Hv Hx Hsf Hsw.
  eexists. split; [apply (init_completes c kw x); assumption |].
  split; [reflexivity |]. split; [reflexivity |].
  set (z1 := reg REG_MODEM_CONFIG_1 c).
  set (z2 := reg REG_MODEM_CONFIG_2 c).
  set (i := bw_index bws 0 (kw_get (kw_bandwidth kw) 250000) 9).
  set (cr := clamp (kw_get (kw_coding_rate kw) 5) 5 8 - 4).
  set (sf := kw_get (kw_spreading_factor kw) 10) in *.
  pose proof (reg_range REG_MODEM_CONFIG_1 c) as Hz1. fold z1 in Hz1.
  pose proof (reg_range REG_MODEM_CONFIG_2 c) as Hz2. fold z2 in Hz2.
  pose proof (bw_index_range (kw_get (kw_bandwidth kw) 250000)) as Hi.
  fold i in Hi.
  pose proof (clamp_range (kw_get (kw_coding_rate kw) 5) 5 8 ltac:(lia)) as Hc.
  assert (1 <= cr <= 4) as Hcr by (unfold cr; lia).
  destruct (config1_fields i cr z1 Hi Hcr Hz1) as (_ & H1hi & H1mid & _).
  destruct (bw_nibble i z1 Hi Hz1) as (Hb1 & _).
  destruct (cr_bits cr _ Hcr Hb1) as (Hx1 & _).
  destruct (config2_fields sf z2 (kw_get (kw_crc kw) false) Hsf Hz2)
    as (Hx2 & _ & H2hi & H2bit & _).
  pose proof (clamp_range (kw_get (kw_tx_power kw) 24) 2 17 ltac:(lia)) as Hl.
  destruct (pa_boost (clamp (kw_get (kw_tx_power kw) 24) 2 17 - 2)
                     ltac:(lia)) as (Hpa & Hpahi & Hpalo).
  assert (Z.lor PA_BOOST (clamp (kw_get (kw_tx_power kw) 24) 2 17 - 2)
          = 0x80 + (clamp (kw_get (kw_tx_power kw) 24) 2 17 - 2)) as Hpaval.
  { assert (forallb (fun q => Z.lor PA_BOOST q =? 0x80 + q) (range 16) = true)
      as Hall by (vm_compute; reflexivity).
    pose proof (range_forallb _ _ Hall
                  (clamp (kw_get (kw_tx_power kw) 24) 2 17 - 2) ltac:(lia))
      as Hq.
    apply Z.eqb_eq in Hq. exact Hq. }
  unfold frf_stored. rewrite !reg_hw_written.
  unfold init_writes. cbn [map fst snd]. last_writes.
  fold z1 z2 i cr sf.
  rewrite !(int_byte_of_Z (Z.land _ 255)) by apply land_ff_range.
  rewrite (int_byte_of_Z _ Hx1), (int_byte_of_Z _ Hx2), (int_byte_of_Z _ Hpa).
  rewrite (int_byte_of_Z _ Hsw).
  rewrite (int_byte_of_Z (Z.lor (reg REG_LNA c) 3))
    by (apply lna_range; apply reg_range).
  split; [reflexivity |]. split; [apply frf_bytes |].
  split; [exact H1hi |]. split; [exact H1mid |].
  split; [exact H2hi |]. split; [exact H2bit |].
  split.
  { change 255 with (Z.ones 8). rewrite !Z.land_ones by lia.
    rewrite !Z.shiftr_div_pow2 by lia.
    change (2 ^ 8) with 256. change (2 ^ 0) with 1. rewrite Z.div_1_r.
    Z.to_euclidean_division_equations. lia. }
  split; [exact Hpaval |].
  repeat split.
Qed.

Lemma init_programs_chip_witness :
  exists s',
    __init__ (power_on [(REG_VERSION, x12)] [])
             (mkKw None (Some 868.0%F) (Some 250000) (Some 10) (Some 5)
                   None None None None None None)
    = (Ok tt, s') /\
    reg REG_OP_MODE (hw s') = 0x81 /\
    frf_stored (hw s') = 14221312 /\
    Z.shiftr (reg REG_MODEM_CONFIG_2 (hw s')) 4 = 10.
Proof.
  destruct (init_programs_chip
              (power_on [(REG_VERSION, x12)] [])
              (mkKw None (Some 868.0%F) (Some 250000) (Some 10) (Some 5)
                    None None None None None None)
              14221312 eq_refl ltac:(vm_compute; reflexivity)
              ltac:(cbn; lia) ltac:(cbn; lia))
    as (s' & Hrun & _ & _ & Hmode & Hfrf & _ & _ & Hsf & _).
  exists s'. split; [exact Hrun |]. split; [exact Hmode |].
  split; [rewrite Hfrf; reflexivity | exact Hsf].
Defined.

(** X16: a construction that fails leaves no object but does leave the chip
    changed: on an identity mismatch nothing has been written; when [round]
    raises on line 141 the only write has put the chip to sleep ([0x80]) and
    the frequency registers are as they were; on a rejected spreading
    factor or sync word the chip stays in sleep mode with the frequency and
    bandwidth already written; standby is never entered. *)
Theorem init_failure_state (c : chip) (kw : Kw) :
  (reg REG_VERSION c <> 0x12 ->
   writes (hw (snd (__init__ c kw))) = writes c /\
   regs (hw (snd (__init__ c kw))) = regs c) /\
  (reg REG_VERSION c = 0x12 ->
   forall e,
     frf_steps (kw_get (kw_frequency kw) 915.0%F) = Raise e ->
     fst (__init__ c kw) = Raise e /\
     writes (hw (snd (__init__ c kw)))
     = writes c ++ [(REG_OP_MODE, byte_of_Z (Z.lor MODE_LORA MODE_SLEEP))] /\
     reg REG_OP_MODE (hw (snd (__init__ c kw))) = Z.lor MODE_LORA MODE_SLEEP /\
     frf_stored (hw (snd (__init__ c kw))) = frf_stored c) /\
  (reg REG_VERSION c = 0x12 ->
   forall x,
     frf_steps (kw_get (kw_frequency kw) 915.0%F) = Ok x ->
     ~ (6 <= kw_get (kw_spreading_factor kw) 10 <= 12
        /\ 0 <= kw_get (kw_sync_word kw) 0x12 < 256) ->
     exists e,
       fst (__init__ c kw) = Raise e /\
       reg REG_OP_MODE (hw (snd (__init__ c kw)))
       = Z.lor MODE_LORA MODE_SLEEP /\
       frf_stored (hw (snd (__init__ c kw))) = x mod 2 ^ 24 /\
       Z.shiftr (reg REG_MODEM_CONFIG_1 (hw (snd (__init__ c kw)))) 4
       = bw_index bws 0 (kw_get (kw_bandwidth kw) 250000) 9).
Proof.
  split; [| split].
  - intros Hv. rewrite init_bad_version by exact Hv. split; reflexivity.
  - intros Hv e He. rewrite (init_bad_frequency c kw e) by assumption.
    cbn [fst snd]. split; [reflexivity |]. split; [reflexivity |].
    split.
    + rewrite reg_hw_written, last_write_eq, last_write_nil. reflexivity.
    + unfold frf_stored. rewrite !reg_hw_written.
      rewrite !last_write_ne by reg_side. rewrite !last_write_nil.
      reflexivity.
  - intros Hv x Hx Hbad.
    set (z1 := reg REG_MODEM_CONFIG_1 c).
    set (i := bw_index bws 0 (kw_get (kw_bandwidth kw) 250000) 9).
    pose proof (reg_range REG_MODEM_CONFIG_1 c) as Hz1. fold z1 in Hz1.
    pose proof (bw_index_range (kw_get (kw_bandwidth kw) 250000)) as Hi.
    fold i in Hi.
    destruct (bw_nibble i z1 Hi Hz1) as (Hb1 & Hb1hi & _).
    pose proof (clamp_range (kw_get (kw_coding_rate kw) 5) 5 8 ltac:(lia))
      as Hc.
    destruct (config1_fields i (clamp (kw_get (kw_coding_rate kw) 5) 5 8 - 4)
                             z1 Hi ltac:(lia) Hz1) as (_ & H1hi & _).
    destruct (cr_bits (clamp (kw_get (kw_coding_rate kw) 5) 5 8 - 4) _
                      ltac:(lia) Hb1) as (Hx1 & _).
    destruct (Z_le_dec 6 (kw_get (kw_spreading_factor kw) 10)) as [Hlo | Hlo];
      [destruct (Z_le_dec (kw_get (kw_spreading_factor kw) 10) 12)
        as [Hhi | Hhi] |].
    + assert (~ (0 <= kw_get (kw_sync_word kw) 0x12 < 256)) as Hsw by tauto.
      destruct (init_bad_sync_word c kw x Hv Hx (conj Hlo Hhi) Hsw)
        as (a & ->).
      eexists. split; [reflexivity |]. cbn [snd hw with_hw].
      assert (forall r,
                 reg r (address a
                          (select 0
                             (written (firstn 15 (init_writes c kw x))
                                (hw (with_implicit
                                       (kw_get (kw_implicit kw) false)
                                       (with_bandwidth
                                          (kw_get (kw_bandwidth kw) 250000)
                                          (with_frequency
                                             (kw_get (kw_frequency kw) 915.0%F)
                                             (new_object c kw))))))))
                 = reg r (written (firstn 15 (init_writes c kw x)) c)) as Hreg
          by (intros r; reflexivity).
      unfold frf_stored. rewrite !Hreg, !reg_written.
      unfold init_writes. cbn [map fst snd firstn]. last_writes.
      fold z1 i.
      rewrite !(int_byte_of_Z (Z.land _ 255)) by apply land_ff_range.
      rewrite (int_byte_of_Z _ Hx1).
      split; [reflexivity |]. split; [apply frf_bytes | exact H1hi].
    + rewrite (init_bad_spreading_factor c kw x) by (try assumption; lia).
      eexists. split; [reflexivity |]. cbn [snd].
      unfold frf_stored. rewrite !reg_hw_written.
      unfold init_writes. cbn [map fst snd firstn]. last_writes.
      fold z1 i.
      rewrite !(int_byte_of_Z (Z.land _ 255)) by apply land_ff_range.
      rewrite (int_byte_of_Z _ Hb1).
      split; [reflexivity |]. split; [apply frf_bytes | exact Hb1hi].
    + rewrite (init_bad_spreading_factor c kw x) by (try assumption; lia).
      eexists. split; [reflexivity |]. cbn [snd].
      unfold frf_stored. rewrite !reg_hw_written.
      unfold init_writes. cbn [map fst snd firstn]. last_writes.
      fold z1 i.
      rewrite !(int_byte_of_Z (Z.land _ 255)) by apply land_ff_range.
      rewrite (int_byte_of_Z _ Hb1).
      split; [reflexivity |]. split; [apply frf_bytes | exact Hb1hi].
Qed.

(** A spreading factor of 5 at the default frequency, and a frequency of
    1e33 MHz: both leave the chip asleep; the second has written nothing
    else. *)
Lemma init_failure_state_witness :
  (exists e,
      fst (__init__ (power_on [(REG_VERSION, x12)] [])
                    (mkKw None None None (Some 5) None None None None None
                          None None)) = Raise e /\
      reg REG_OP_MODE
          (hw (snd (__init__ (power_on [(REG_VERSION, x12)] [])
                             (mkKw None None None (Some 5) None None None None
                                   None None None)))) = 0x80) /\
  writes (hw (snd (__init__ (power_on [(REG_VERSION, x12)] [])
                            (mkKw None (Some 1e33%F) None None None None None
                                  None None None None))))
  = [(REG_OP_MODE, x80)].
Proof.
  split.
  - destruct (init_failure_state
                (power_on [(REG_VERSION, x12)] [])
                (mkKw None None None (Some 5) None None None None None None
                      None))
      as (_ & _ & Hfail).
    destruct (Hfail eq_refl 14991360 ltac:(vm_compute; reflexivity)
                    ltac:(cbn; lia)) as (e & Hrun & Hmode & _).
    exists e. split; [exact Hrun | exact Hmode].
  - destruct (init_failure_state
                (power_on [(REG_VERSION, x12)] [])
                (mkKw None (Some 1e33%F) None None None None None None None
                      None None))
      as (_ & Hfail & _).
    destruct (Hfail eq_refl (OverflowError "can't convert inf to int")
                    ltac:(vm_compute; reflexivity)) as (_ & Hw & _).
    exact Hw.
Defined.

End ConstructionProperties.

(** ** Reception, continued (lines 196-224) *)

Section ReceiveMore.

Import Sim.

Lemma ptr_pull (k : nat) (c : chip) :
  reg REG_FIFO_ADDR_PTR (pull k c)
  = (reg REG_FIFO_ADDR_PTR c + Z.of_nat k) mod 256.
Proof.
  revert c. induction k as [| k IH]; intros c; cbn [pull].
  - rewrite Z.add_0_r. symmetry. apply Z.mod_small. apply reg_range.
  - rewrite IH, ptr_read_fifo, Zplus_mod_idemp_l. f_equal. lia.
Qed.

Lemma length_window (a n : Z) (c : chip) :
  length (window a n c) = Z.to_nat n.
Proof. unfold window. rewrite length_map. apply length_range. Qed.

(** X17: [_read_payload] returns exactly as many bytes as the length
    register of the header mode says, read from the current receive address
    on; its only register write sets the buffer pointer, which ends that
    many bytes further (modulo 256); the buffer and every other register
    are unchanged. *)
Theorem read_payload_effect (s : LoRa chip) (imp : bool) :
  _implicit s = Some imp ->
  let a := reg REG_FIFO_RX_CURRENT_ADDR (hw s) in
  let n := if imp then reg REG_PAYLOAD_LENGTH (hw s)
           else reg REG_RX_NB_BYTES (hw s) in
  exists payload s',
    _read_payload s = (Ok payload, s') /\
    payload = window a n (hw s) /\
    length payload = Z.to_nat n /\
    writes (hw s') = writes (hw s) ++ [(REG_FIFO_ADDR_PTR, byte_of_Z a)] /\
    fifo (hw s') = fifo (hw s) /\
    reg REG_FIFO_ADDR_PTR (hw s') = (a + n) mod 256 /\
    (forall r, r <> REG_FIFO_ADDR_PTR -> reg r (hw s') = reg r (hw s)).
Proof.
  intros Himp a n.
  assert (0 <= n < 256) as Hn by (unfold n; destruct imp; apply reg_range).
  eexists. eexists. split; [apply (read_payload_sim s imp Himp) |].
  fold a n. cbn [hw with_hw].
  split; [reflexivity |]. split; [apply length_window |].
  rewrite (written_one REG_FIFO_ADDR_PTR) by reg_side.
  split; [| split; [| split]].
  - rewrite writes_pull. reflexivity.
  - rewrite fifo_pull. reflexivity.
  - rewrite ptr_pull, reg_written. last_writes.
    rewrite int_byte_of_Z by apply reg_range.
    rewrite Z2Nat.id by lia. reflexivity.
  - intros r Hr. unfold reg. rewrite regs_pull by exact Hr.
    rewrite regs_written. rewrite last_write_ne by congruence.
    reflexivity.
Qed.

Lemma read_payload_effect_witness :
  exists payload s',
    _read_payload
      (lora_on (power_on [(REG_FIFO_RX_CURRENT_ADDR, xff);
                          (REG_RX_NB_BYTES, x02)]
                         [(0xff, x41); (0x00, x42)]) 868.0 false)
    = (Ok payload, s') /\
    payload = [x41; x42] /\ reg REG_FIFO_ADDR_PTR (hw s') = 1.
Proof.
  destruct (read_payload_effect
              (lora_on (power_on [(REG_FIFO_RX_CURRENT_ADDR, xff);
                                  (REG_RX_NB_BYTES, x02)]
                                 [(0xff, x41); (0x00, x42)]) 868.0 false)
              false eq_refl)
    as (payload & s' & Hrun & Hp & _ & _ & _ & Hptr & _).
  exists payload, s'. split; [exact Hrun |].
  split; [rewrite Hp; vm_compute; reflexivity
         | rewrite Hptr; vm_compute; reflexivity].
Defined.

(** The receive handler when a callback is held and the CRC bit is clear. *)
Lemma irq_recv_delivers (s : LoRa chip) (id : nat) (imp : bool) :
  _on_recv s = Some (PyFun id) -> _implicit s = Some imp ->
  Z.land (reg REG_IRQ_FLAGS (hw s)) IRQ_PAYLOAD_CRC_ERROR_MASK = 0 ->
  exists s',
    _irq_recv s = (Ok tt, s') /\
    delivered s'
    = delivered s
      ++ [(id, window (reg REG_FIFO_RX_CURRENT_ADDR (hw s))
                      (if imp then reg REG_PAYLOAD_LENGTH (hw s)
                       else reg REG_RX_NB_BYTES (hw s)) (hw s))] /\
    rx s' = rx s /\ _on_recv s' = _on_recv s.
Proof.
  intros Hcb Himp Hok. unfold _irq_recv.
  erewrite bind_Ok by apply get_irq_flags_sim.
  rewrite Hok. cbn [Z.eqb].
  erewrite bind_Ok by (unfold attr; cbn [_on_recv with_hw]; rewrite Hcb;
                       reflexivity).
  cbn [truthy].
  erewrite bind_Ok by (apply (read_payload_sim _ imp); exact Himp).
  cbn [hw with_hw].
  rewrite !(reg_write_other REG_IRQ_FLAGS) by reg_side.
  eexists. split; [reflexivity |].
  cbn [call modify delivered with_delivered with_hw snd rx _on_recv].
  split; [| split; reflexivity].
  rewrite (window_fifo _ _ _ (hw s)); [reflexivity |].
  cbn [rest fifo]. rewrite fifo_write_other by reg_side. reflexivity.
Qed.

(** X18: subscribing and then taking a receive interrupt delivers the packet
    to the subscribed callback: on a driver with an interrupt line,
    [on_recv] followed by a rising edge with the CRC bit clear calls that
    callback exactly once with the received bytes. *)
Theorem subscribe_then_receive (s : LoRa chip) (p : Pin) (id : nat)
        (imp : bool) :
  rx s = Some p -> _implicit s = Some imp ->
  Z.land (reg REG_IRQ_FLAGS (hw s)) IRQ_PAYLOAD_CRC_ERROR_MASK = 0 ->
  exists s',
    (on_recv (PyFun id) ;; rising_edge) s = (Ok tt, s') /\
    delivered s'
    = delivered s
      ++ [(id, window (reg REG_FIFO_RX_CURRENT_ADDR (hw s))
                      (if imp then reg REG_PAYLOAD_LENGTH (hw s)
                       else reg REG_RX_NB_BYTES (hw s)) (hw s))].
Proof.
  intros Hrx Himp Hok.
  erewrite bind_Ok by (apply (on_recv_subscribe s p id); exact Hrx).
  set (s1 := with_rx (Some (mkPin (Some Handler_irq_recv)
                                  (Some Pin_IRQ_RISING)))
                     (with_hw (written [(REG_DIO_MAPPING_1, x00)])
                              (with_on_recv (PyFun id) s))).
  assert (forall r, r <> REG_DIO_MAPPING_1 -> reg r (hw s1) = reg r (hw s))
    as Hreg.
  { intros r Hr. unfold s1. cbn [hw with_rx with_hw with_on_recv].
    rewrite reg_written. rewrite last_write_ne by congruence. reflexivity. }
  destruct (irq_recv_delivers s1 id imp eq_refl Himp)
    as (s' & Hrun & Hd & _).
  { rewrite Hreg by reg_side. exact Hok. }
  exists s'. split.
  - unfold rising_edge. erewrite bind_Ok by reflexivity.
    cbn [rx s1 with_rx]. exact Hrun.
  - rewrite Hd. rewrite !Hreg by reg_side.
    rewrite (window_fifo _ _ (hw s1) (hw s)) by reflexivity. reflexivity.
Qed.

Lemma subscribe_then_receive_witness :
  exists s',
    (on_recv (PyFun 3) ;; rising_edge)
      (lora_on (power_on [(REG_IRQ_FLAGS, x40);
                          (REG_FIFO_RX_CURRENT_ADDR, x10);
                          (REG_RX_NB_BYTES, x02)]
                         [(0x10, x41); (0x11, x42)]) 868.0 false)
    = (Ok tt, s') /\
    delivered s' = [(3%nat, [x41; x42])].
Proof.
  destruct (subscribe_then_receive
              (lora_on (power_on [(REG_IRQ_FLAGS, x40);
                                  (REG_FIFO_RX_CURRENT_ADDR, x10);
                                  (REG_RX_NB_BYTES, x02)]
                                 [(0x10, x41); (0x11, x42)]) 868.0 false)
              (mkPin None None) 3 false eq_refl eq_refl
              ltac:(vm_compute; reflexivity))
    as (s' & Hrun & Hd).
  exists s'. split; [exact Hrun |]. rewrite Hd. vm_compute. reflexivity.
Defined.

(** X19: with no callback subscribed, a receive interrupt only acknowledges
    the flags: the payload is not read, so the buffer pointer and every
    register but the flags keep their values, the single register write is
    the flags write-back, and nothing is delivered. *)
Theorem irq_recv_without_subscriber (s : LoRa chip) :
  _on_recv s = Some PyNone ->
  exists s',
    _irq_recv s = (Ok tt, s') /\
    delivered s' = delivered s /\
    writes (hw s')
    = writes (hw s)
      ++ [(REG_IRQ_FLAGS, byte_of_Z (reg REG_IRQ_FLAGS (hw s)))] /\
    fifo (hw s') = fifo (hw s) /\
    (forall r, r <> REG_IRQ_FLAGS -> reg r (hw s') = reg r (hw s)).
Proof.
  intros Hcb. unfold _irq_recv.
  erewrite bind_Ok by apply get_irq_flags_sim.
  assert (forall s0 : LoRa chip,
             _on_recv s0 = Some PyNone ->
             (cb <- attr "_on_recv" _on_recv ;;
              if truthy cb then payload <- _read_payload ;; call cb payload
              else ret tt) s0 = (Ok tt, s0)) as Hnone.
  { intros s0 H0. erewrite bind_Ok by (unfold attr; rewrite H0; reflexivity).
    reflexivity. }
  eexists. split.
  - destruct (Z.land (reg REG_IRQ_FLAGS (hw s)) IRQ_PAYLOAD_CRC_ERROR_MASK =? 0).
    + apply Hnone. exact Hcb.
    + reflexivity.
  - cbn [hw with_hw delivered]. rewrite write_irq_rest.
    split; [reflexivity |]. split; [reflexivity |]. split; [reflexivity |].
    intros r Hr. unfold reg. cbn [regs rest].
    rewrite lookup_total_insert_ne by congruence. reflexivity.
Qed.

Lemma irq_recv_without_subscriber_witness :
  exists s',
    _irq_recv (lora_on (power_on [(REG_IRQ_FLAGS, x40);
                                  (REG_FIFO_ADDR_PTR, x07)] []) 868.0 false)
    = (Ok tt, s') /\
    delivered s' = [] /\ reg REG_FIFO_ADDR_PTR (hw s') = 7.
Proof.
  destruct (irq_recv_without_subscriber
              (lora_on (power_on [(REG_IRQ_FLAGS, x40);
                                  (REG_FIFO_ADDR_PTR, x07)] []) 868.0 false)
              eq_refl)
    as (s' & Hrun & Hd & _ & _ & Hreg).
  exists s'. split; [exact Hrun |]. split; [exact Hd |].
  rewrite Hreg by reg_side. reflexivity.
Defined.

(** X20: on a driver built without an interrupt line, [on_recv] only stores
    the callback: subscribing writes no register and attaches no handler,
    so a later rising edge delivers nothing. *)
Theorem on_recv_without_line {B} `{SpiDevice B} (s : LoRa B)
        (cb : callable) :
  rx s = None ->
  on_recv cb s = (Ok tt, with_on_recv cb s) /\
  hw (with_on_recv cb s) = hw s /\
  rising_edge (with_on_recv cb s) = (Ok tt, with_on_recv cb s).
Proof.
  intros Hrx. split; [| split].
  - unfold on_recv. erewrite bind_Ok by reflexivity.
    erewrite bind_Ok by (unfold gets; cbn [rx with_on_recv]; rewrite Hrx;
                         reflexivity).
    reflexivity.
  - reflexivity.
  - unfold rising_edge.
    erewrite bind_Ok by (unfold gets; cbn [rx with_on_recv]; rewrite Hrx;
                         reflexivity).
    reflexivity.
Qed.

Lemma on_recv_without_line_witness :
  on_recv (PyFun 1)
          (mkLoRa (power_on [] []) None (Some 868.0%F) (Some 250000)
                  (Some false) (Some PyNone) [])
  = (Ok tt,
     mkLoRa (power_on [] []) None (Some 868.0%F) (Some 250000)
            (Some false) (Some (PyFun 1)) []).
Proof.
  apply (on_recv_without_line
           (mkLoRa (power_on [] []) None (Some 868.0%F) (Some 250000)
                   (Some false) (Some PyNone) [])
           (PyFun 1) eq_refl).
Defined.

(** X21: [get_snr] never returns a negative value: whatever the chip holds
    in the packet-SNR register, the result lies between 0 and 63.75. *)
Theorem get_snr_never_negative (s : LoRa chip) :
  exists q, fst (get_snr s) = Ok q /\ (0 <= q <= 63.75)%Q.
Proof.
  unfold get_snr. erewrite bind_Ok by (apply sim_read; reg_side).
  eexists. split; [reflexivity |].
  pose proof (reg_range REG_PKT_SNR_VALUE (hw s)) as Hr.
  assert (inject_Z 0 <= inject_Z (reg REG_PKT_SNR_VALUE (hw s)))%Q as Hlo
      by (rewrite <- Zle_Qle; lia).
  assert (inject_Z (reg REG_PKT_SNR_VALUE (hw s)) <= inject_Z 255)%Q as Hhi
      by (rewrite <- Zle_Qle; lia).
  change (inject_Z 0) with 0%Q in Hlo. change (inject_Z 255) with 255%Q in Hhi.
  set (v := inject_Z (reg REG_PKT_SNR_VALUE (hw s))) in *. clearbody v.
  lra.
Qed.

End ReceiveMore.
